(** * Weather-Bot: a shallow embedding of [main.py] and its checked properties

    The bot receives a slash command or a button press, issues HTTP requests
    to a weather provider and to a currency-rate provider, formats the JSON
    answers into text and replies.  The embedding follows the source:

    - Python strings are sequences of Unicode code points ([pystr]);
    - floats are binary64 numbers with their exact values ([pyfloat]), what
      is read or computed being rounded to the nearest one; [float] and
      [datetime.fromtimestamp] are those of CPython 3.11 (Unicode 14.0) on a
      Linux host with a 64-bit [time_t] whose local time is UTC;
    - parsed JSON bodies are values of [json], dictionaries being
      association lists in insertion order;
    - Python exceptions are the [Raise] results of an error monad;
    - a formatted text is the sequence of the pieces of its f-string
      ([frag]): the literal parts and the interpolated values;
    - the handlers run in a monad [M] that threads the number of provider
      requests made so far, reads the outcome of each request from the
      network (one outcome per request, in request order), and collects the
      effects in order: provider requests, log lines, sent and edited
      messages and callback acknowledgements.

    The messaging transport is outside the program: sending, editing and
    acknowledging are recorded and always succeed. *)

From Stdlib Require Import String Ascii ZArith NArith QArith Qround Qabs Bool Lia Lqa List.
Import ListNotations.
Close Scope Q_scope.
Open Scope list_scope.

Set Implicit Arguments.

(** ** Python strings *)

Module PyStr.

(** A Python [str]: a sequence of Unicode code points. *)
Definition pystr := list N.

Definition eqb (a b : pystr) : bool :=
  if list_eq_dec N.eq_dec a b then true else false.

(** UTF-8 decoding, used to write the literals of the source. *)
Fixpoint utf8_decode (bs : list N) : pystr :=
  match bs with
  | [] => []
  | b :: r =>
    if (b <? 128)%N then b :: utf8_decode r
    else if (b <? 224)%N then
      match r with
      | c1 :: r1 => ((b - 192) * 64 + (c1 - 128))%N :: utf8_decode r1
      | _ => []
      end
    else if (b <? 240)%N then
      match r with
      | c1 :: c2 :: r2 =>
        ((b - 224) * 4096 + (c1 - 128) * 64 + (c2 - 128))%N :: utf8_decode r2
      | _ => []
      end
    else
      match r with
      | c1 :: c2 :: c3 :: r3 =>
        ((b - 240) * 262144 + (c1 - 128) * 4096 + (c2 - 128) * 64 + (c3 - 128))%N
          :: utf8_decode r3
      | _ => []
      end
  end.

(** [u "..."] is the Python string written as the literal ["..."]. *)
Definition u (s : string) : pystr :=
  utf8_decode (map N_of_ascii (list_ascii_of_string s)).

(** [str.isspace] on one code point (the Unicode White_Space characters and
    the four information separators, as CPython has them). *)
Definition isspace (c : N) : bool :=
  ((9 <=? c) && (c <=? 13) || (28 <=? c) && (c <=? 32) || (c =? 133) || (c =? 160)
   || (c =? 5760) || (8192 <=? c) && (c <=? 8202) || (c =? 8232) || (c =? 8233)
   || (c =? 8239) || (c =? 8287) || (c =? 12288))%N.

(** [str.lower] and [str.upper], code point by code point, for the Basic
    Latin, Latin-1, Greek and Cyrillic letters; the case tables of the other
    blocks, the letters whose other case is outside these blocks or is more
    than one character, and the final-sigma rule are not modelled: such code
    points are left unchanged. *)
Definition lower_cp (c : N) : N :=
  if ((65 <=? c) && (c <=? 90))%N then (c + 32)%N
  else if ((192 <=? c) && (c <=? 222) && negb (c =? 215))%N then (c + 32)%N
  else if ((913 <=? c) && (c <=? 939) && negb (c =? 930))%N then (c + 32)%N
  else if ((1024 <=? c) && (c <=? 1039))%N then (c + 80)%N
  else if ((1040 <=? c) && (c <=? 1071))%N then (c + 32)%N
  else c.

Definition upper_cp (c : N) : N :=
  if ((97 <=? c) && (c <=? 122))%N then (c - 32)%N
  else if ((224 <=? c) && (c <=? 254) && negb (c =? 247))%N then (c - 32)%N
  else if (c =? 962)%N then 931%N
  else if ((945 <=? c) && (c <=? 971))%N then (c - 32)%N
  else if ((1104 <=? c) && (c <=? 1119))%N then (c - 80)%N
  else if ((1072 <=? c) && (c <=? 1103))%N then (c - 32)%N
  else c.

Definition lower (s : pystr) : pystr := map lower_cp s.
Definition upper (s : pystr) : pystr := map upper_cp s.

(** [s.startswith(p)] *)
Fixpoint startswith (s p : pystr) : bool :=
  match p, s with
  | [], _ => true
  | _ :: _, [] => false
  | a :: p', b :: s' => (a =? b)%N && startswith s' p'
  end.

(** [p in s] for two strings: [p] occurs in [s] as a contiguous run. *)
Fixpoint contains (s p : pystr) : bool :=
  startswith s p ||
  match s with
  | [] => false
  | _ :: s' => contains s' p
  end.

(** [s.replace(old, new)] for a non-empty [old]: the occurrences of [old] are
    replaced from left to right, without overlap.  [fuel] bounds the number
    of steps; [length s] always suffices. *)
Fixpoint replace_fuel (fuel : nat) (old new s : pystr) : pystr :=
  match fuel with
  | O => s
  | S fuel' =>
    match s with
    | [] => []
    | c :: s' =>
      if startswith s old
      then new ++ replace_fuel fuel' old new (skipn (List.length old) s)
      else c :: replace_fuel fuel' old new s'
    end
  end.

Definition replace (s old new : pystr) : pystr :=
  replace_fuel (List.length s) old new s.

(** Splitting at a one-character separator, [s.split(sep)]: the pieces
    between the separators, empty pieces included; never an empty list. *)
Fixpoint split_on (sep : N) (s : pystr) : list pystr :=
  match s with
  | [] => [[]]
  | c :: s' =>
    if (c =? sep)%N then [] :: split_on sep s'
    else match split_on sep s' with
         | [] => [[c]]
         | w :: ws => (c :: w) :: ws
         end
  end.

(** [s.lstrip()] *)
Fixpoint lstrip (s : pystr) : pystr :=
  match s with
  | c :: s' => if isspace c then lstrip s' else s
  | [] => []
  end.

(** The first whitespace-delimited word of [s] and what follows it; [s] does
    not start with whitespace. *)
Fixpoint break_word (s : pystr) : pystr * pystr :=
  match s with
  | [] => ([], [])
  | c :: s' =>
    if isspace c then ([], s)
    else let (w, r) := break_word s' in (c :: w, r)
  end.

(** [s.split()]: the maximal runs of non-whitespace characters. *)
Fixpoint split_ws_fuel (fuel : nat) (s : pystr) : list pystr :=
  match fuel with
  | O => []
  | S fuel' =>
    match lstrip s with
    | [] => []
    | t => let (w, r) := break_word t in w :: split_ws_fuel fuel' r
    end
  end.

Definition split_ws (s : pystr) : list pystr := split_ws_fuel (S (List.length s)) s.

(** [s.split(maxsplit=1)]: the first word and, when anything but whitespace
    follows it, the rest of the string from its first non-whitespace
    character on (trailing whitespace kept). *)
Definition split_ws_max1 (s : pystr) : list pystr :=
  match lstrip s with
  | [] => []
  | t =>
    let (w, r) := break_word t in
    match lstrip r with
    | [] => [w]
    | rest => [w; rest]
    end
  end.

End PyStr.

Import PyStr.

(** ** Python floats

    A [float] is a binary64 number: a rational with its exact value, the
    negative zero, an infinity or NaN.  What is read from a string and what
    arithmetic yields is rounded to the nearest binary64 number, ties to the
    even significand, with overflow to an infinity and underflow to a zero
    of the same sign ([of_Q]). *)

Module PyFloat.

Inductive pyfloat : Type :=
| Fin (q : Q)          (* a finite value; [Fin 0] is the positive zero *)
| NegZero              (* -0.0 *)
| PInf
| NInf
| NaN.

(** Rounding half to even of a rational, Python's [round] on a finite float. *)
Definition round_half_even (x : Q) : Z :=
  let f := Qfloor x in
  let d := (x - inject_Z f)%Q in
  match (d ?= 1 # 2)%Q with
  | Lt => f
  | Gt => (f + 1)%Z
  | Eq => if Z.even f then f else (f + 1)%Z
  end.

(** [-a] *)
Definition neg (a : pyfloat) : pyfloat :=
  match a with
  | Fin x => if Qeq_bool x 0 then NegZero else Fin (- x)
  | NegZero => Fin 0
  | PInf => NInf
  | NInf => PInf
  | NaN => NaN
  end.

(** [floor (log2 (n / d))] *)
Definition log2_floor (n d : positive) : Z :=
  let k := (Z.log2 (Zpos n) - Z.log2 (Zpos d))%Z in
  if Qle_bool (Qpower 2 k) (Zpos n # d) then k else (k - 1)%Z.

(** The binary64 number nearest to the positive rational [n / d]: the
    multiple of the unit in the last place, [2 ^ p], nearest to it, ties to
    the even multiple.  The unit is [2 ^ -1074] for the subnormal numbers; a
    result of [2 ^ 1024] or more is an infinity. *)
Definition nearest (n d : positive) : pyfloat :=
  let p := Z.max (log2_floor n d - 52) (-1074) in
  let m := round_half_even ((Zpos n # d) * Qpower 2 (- p)) in
  let v := Qred (inject_Z m * Qpower 2 p) in
  if Qle_bool (Qpower 2 1024) v then PInf else Fin v.

(** The float nearest to a rational. *)
Definition of_Q (q : Q) : pyfloat :=
  match Qnum q with
  | Z0 => Fin 0
  | Zpos n => nearest n (Qden q)
  | Zneg n => neg (nearest n (Qden q))
  end.

Definition of_Z (n : Z) : pyfloat := of_Q (inject_Z n).

(** The sign bit; NaN counts as positive. *)
Definition is_neg (a : pyfloat) : bool :=
  match a with
  | Fin x => negb (Qle_bool 0 x)
  | NegZero | NInf => true
  | PInf | NaN => false
  end.

(** The absolute value of a finite float. *)
Definition magnitude (a : pyfloat) : option Q :=
  match a with
  | Fin x => Some (Qabs x)
  | NegZero => Some 0%Q
  | _ => None
  end.

(** A non-negative float with the given sign bit. *)
Definition signed (s : bool) (a : pyfloat) : pyfloat := if s then neg a else a.

(** [a >= b]; every comparison with NaN is false, and the two zeros are
    equal. *)
Definition ge (a b : pyfloat) : bool :=
  match a, b with
  | NaN, _ | _, NaN => false
  | PInf, _ => true
  | _, NInf => true
  | NInf, _ => false
  | _, PInf => false
  | Fin x, Fin y => Qle_bool y x
  | Fin x, NegZero => Qle_bool 0 x
  | NegZero, Fin y => Qle_bool y 0
  | NegZero, NegZero => true
  end.

(** [a > 0] *)
Definition positive (a : pyfloat) : bool :=
  match a with
  | Fin x => negb (Qle_bool x 0)
  | PInf => true
  | NegZero | NInf | NaN => false
  end.

(** [a == 0] *)
Definition is_zero (a : pyfloat) : bool :=
  match a with
  | Fin x => Qeq_bool x 0
  | NegZero => true
  | _ => false
  end.

(** [a * b]: never an exception. *)
Definition mul (a b : pyfloat) : pyfloat :=
  match a, b with
  | NaN, _ | _, NaN => NaN
  | _, _ =>
    let s := xorb (is_neg a) (is_neg b) in
    match magnitude a, magnitude b with
    | Some x, Some y => signed s (of_Q (x * y))
    | Some x, None | None, Some x => if Qeq_bool x 0 then NaN else signed s PInf
    | None, None => signed s PInf
    end
  end.

(** [a / b] for a divisor that is not zero (Python raises on a zero one). *)
Definition div_nz (a b : pyfloat) : pyfloat :=
  match a, b with
  | NaN, _ | _, NaN => NaN
  | _, _ =>
    let s := xorb (is_neg a) (is_neg b) in
    match magnitude a, magnitude b with
    | Some x, Some y => signed s (of_Q (x / y))
    | Some _, None => signed s (Fin 0)
    | None, Some _ => signed s PInf
    | None, None => NaN
    end
  end.

End PyFloat.

Import PyFloat.

(** ** Exceptions and results *)

Inductive exn : Type :=
| KeyError
| IndexError
| TypeError
| AttributeError
| ValueError
| OverflowError
| OSError
| ZeroDivisionError
| ClientError          (* aiohttp: connection failure or timeout *)
| ContentTypeError.    (* aiohttp: the body is not JSON *)

Inductive result (A : Type) : Type :=
| Ok (a : A)
| Raise (e : exn).

Arguments Ok {A} a.
Arguments Raise {A} e.

Definition rbind {A B} (r : result A) (f : A -> result B) : result B :=
  match r with
  | Ok a => f a
  | Raise e => Raise e
  end.

Declare Scope result_scope.
Delimit Scope result_scope with result.
Notation "x <- r ;; k" := (rbind r (fun x => k))
  (at level 61, r at next level, right associativity) : result_scope.

(** ** JSON values, as [json.loads] builds them *)

Inductive json : Type :=
| JNull
| JBool (b : bool)
| JInt (n : Z)
| JFloat (f : pyfloat)
| JStr (s : pystr)
| JArr (l : list json)
| JObj (kv : list (pystr * json)).

(** A [dict] with string keys, in insertion order. *)
Section Dict.
Variable V : Type.

Fixpoint dict_get (d : list (pystr * V)) (k : pystr) : option V :=
  match d with
  | [] => None
  | (k', v) :: d' => if PyStr.eqb k' k then Some v else dict_get d' k
  end.

(** [d[k] = v]: an existing key keeps its place, a new key goes last. *)
Fixpoint dict_set (d : list (pystr * V)) (k : pystr) (v : V) : list (pystr * V) :=
  match d with
  | [] => [(k, v)]
  | (k', v') :: d' =>
    if PyStr.eqb k' k then (k', v) :: d' else (k', v') :: dict_set d' k v
  end.

Definition dict_values (d : list (pystr * V)) : list V := map snd d.
Definition dict_keys (d : list (pystr * V)) : list pystr := map fst d.
End Dict.

Module Json.
Local Open Scope result_scope.

(** [v[k]] for a string key *)
Definition getitem (v : json) (k : pystr) : result json :=
  match v with
  | JObj kv => match dict_get kv k with Some x => Ok x | None => Raise KeyError end
  | _ => Raise TypeError
  end.

(** [v[0]] *)
Definition getitem0 (v : json) : result json :=
  match v with
  | JArr (x :: _) => Ok x
  | JArr [] => Raise IndexError
  | JStr (c :: _) => Ok (JStr [c])
  | JStr [] => Raise IndexError
  | JObj _ => Raise KeyError
  | _ => Raise TypeError
  end.

(** [v.get(k, default)] *)
Definition get (v : json) (k : pystr) (default : json) : result json :=
  match v with
  | JObj kv => Ok (match dict_get kv k with Some x => x | None => default end)
  | _ => Raise AttributeError
  end.

(** [v[k] = x] *)
Definition setitem (v : json) (k : pystr) (x : json) : result json :=
  match v with
  | JObj kv => Ok (JObj (dict_set kv k x))
  | _ => Raise TypeError
  end.

(** [v == s] for a string [s] *)
Definition eq_str (v : json) (s : pystr) : bool :=
  match v with
  | JStr t => PyStr.eqb t s
  | _ => false
  end.

(** The values [for item in v] runs over. *)
Definition iter (v : json) : result (list json) :=
  match v with
  | JArr l => Ok l
  | JObj kv => Ok (map (fun p => JStr (fst p)) kv)
  | JStr s => Ok (map (fun c => JStr [c]) s)
  | _ => Raise TypeError
  end.

(** Truth value, [if v:] *)
Definition truthy (v : json) : bool :=
  match v with
  | JNull => false
  | JBool b => b
  | JInt n => negb (n =? 0)%Z
  | JFloat f => negb (is_zero f)
  | JStr s => match s with [] => false | _ => true end
  | JArr l => match l with [] => false | _ => true end
  | JObj kv => match kv with [] => false | _ => true end
  end.

End Json.

(** ** Built-in conversions: [float(...)] and [round(...)] *)

Module Builtins.
Local Open Scope result_scope.

Definition is_digit (c : N) : bool := ((48 <=? c) && (c <=? 57))%N.
Definition digit_val (c : N) : Z := Z.of_N (c - 48).

(** A run of decimal digits, single underscores allowed between digits:
    its value, the number of digits, and the rest of the string. *)
Fixpoint digitpart (s : pystr) (acc : Z) (n : nat) : Z * nat * pystr :=
  match s with
  | [] => (acc, n, [])
  | c :: s' =>
    if is_digit c then digitpart s' (acc * 10 + digit_val c)%Z (S n)
    else if (c =? 95)%N then
      match n, s' with
      | S _, d :: s'' =>
        if is_digit d then digitpart s'' (acc * 10 + digit_val d)%Z (S n)
        else (acc, n, s)
      | _, _ => (acc, n, s)
      end
    else (acc, n, s)
  end.

(** An optional sign: [true] for a minus. *)
Definition sign (s : pystr) : bool * pystr :=
  match s with
  | 43%N :: s' => (false, s')
  | 45%N :: s' => (true, s')
  | _ => (false, s)
  end.

(** The exponent part, [e] or [E], an optional sign and digits. *)
Definition exponent (s : pystr) : option Z :=
  match s with
  | [] => Some 0%Z
  | c :: s' =>
    if ((c =? 101) || (c =? 69))%N then
      let (neg, s1) := sign s' in
      match digitpart s1 0%Z O with
      | (e, S _, []) => Some (if neg then (- e)%Z else e)
      | _ => None
      end
    else None
  end.

(** An unsigned decimal literal: digits, an optional point and digits, an
    optional exponent; at least one digit before the exponent. *)
Definition decimal (s : pystr) : option Q :=
  let '(ip, ni, s1) := digitpart s 0%Z O in
  let '(fp, nf, s2) :=
    match s1 with
    | 46%N :: s1' => digitpart s1' 0%Z O
    | _ => (0%Z, O, s1)
    end in
  match (ni + nf)%nat with
  | O => None
  | S _ =>
    match exponent s2 with
    | Some e =>
      Some (Qred (inject_Z (ip * 10 ^ Z.of_nat nf + fp)
                  * Qpower (10 # 1) (e - Z.of_nat nf)))
    | None => None
    end
  end.

(** The zero of every run of ten Unicode decimal digits (general category
    Nd, Unicode 14.0, the tables of CPython 3.11). *)
Definition decimal_zeros : list N :=
  [
    48; 1632; 1776; 1984; 2406; 2534; 2662; 2790; 2918; 3046;
    3174; 3302; 3430; 3558; 3664; 3792; 3872; 4160; 4240; 6112;
    6160; 6470; 6608; 6784; 6800; 6992; 7088; 7232; 7248; 42528;
    43216; 43264; 43472; 43504; 43600; 44016; 65296; 66720; 68912; 69734;
    69872; 69942; 70096; 70384; 70736; 70864; 71248; 71360; 71472; 71904;
    72016; 72784; 73040; 73120; 92768; 92864; 93008; 120782; 120792; 120802;
    120812; 120822; 123200; 123632; 125264; 130032 ]%N.

(** The value of a Unicode decimal digit. *)
Definition to_decimal (c : N) : option N :=
  match find (fun z => (z <=? c) && (c <? z + 10))%N decimal_zeros with
  | Some z => Some (c - z)%N
  | None => None
  end.

(** What [float] makes of a character before it parses: a character below
    127 stands for itself, any other whitespace character for a space, a
    decimal digit for its ASCII digit and anything else for [?], which no
    number contains. *)
Definition to_ascii (c : N) : N :=
  if (c <? 127)%N then c
  else if isspace c then 32%N
  else match to_decimal c with
       | Some d => (48 + d)%N
       | None => 63%N
       end.

(** The whitespace the parser skips at both ends: the ASCII one. *)
Definition is_ascii_space (c : N) : bool := ((9 <=? c) && (c <=? 13) || (c =? 32))%N.

Fixpoint lstrip_ascii (s : pystr) : pystr :=
  match s with
  | c :: s' => if is_ascii_space c then lstrip_ascii s' else s
  | [] => []
  end.

Definition strip (s : pystr) : pystr := rev (lstrip_ascii (rev (lstrip_ascii s))).

(** [float(s)] for a string: [None] stands for [ValueError].  The digits may
    be any Unicode decimal digits and the surrounding whitespace any Unicode
    whitespace; [inf], [infinity] and [nan] are read in any letter case; a
    decimal literal gives the nearest binary64 number. *)
Definition float_of_str (s : pystr) : option pyfloat :=
  let (neg, t) := sign (strip (map to_ascii s)) in
  let w := lower t in
  if PyStr.eqb w (u "inf") || PyStr.eqb w (u "infinity")
  then Some (if neg then NInf else PInf)
  else if PyStr.eqb w (u "nan") then Some NaN
  else match decimal t with
       | Some q => Some (signed neg (of_Q q))
       | None => None
       end.

(** The least integer [float(n)] refuses with [OverflowError]. *)
Definition float_int_limit : Z := (2 ^ 1024 - 2 ^ 970)%Z.

(** [float(v)] *)
Definition float (v : json) : result pyfloat :=
  match v with
  | JStr s => match float_of_str s with Some f => Ok f | None => Raise ValueError end
  | JFloat f => Ok f
  | JInt n => if (Z.abs n <? float_int_limit)%Z then Ok (of_Z n) else Raise OverflowError
  | JBool b => Ok (of_Z (if b then 1 else 0))
  | _ => Raise TypeError
  end.

(** [round(v)] with one argument: an [int]. *)
Definition round (v : json) : result Z :=
  match v with
  | JInt n => Ok n
  | JBool b => Ok (if b then 1 else 0)%Z
  | JFloat (Fin q) => Ok (round_half_even q)
  | JFloat NegZero => Ok 0%Z
  | JFloat NaN => Raise ValueError
  | JFloat _ => Raise OverflowError
  | _ => Raise TypeError
  end.

End Builtins.

(** ** Message texts, keyboards and effects *)

(** A formatted text is kept as the sequence of the pieces of its f-string:
    the literal parts and the interpolated values, each with the conversion
    the source applies to it. *)
Inductive frag : Type :=
| Lit (s : pystr)                 (* literal text *)
| NL                              (* "\n" *)
| FStr (s : pystr)                (* {s} for a str *)
| FVal (v : json)                 (* {v}: str(v) of a value read from JSON *)
| FInt (n : Z)                    (* {n} for an int *)
| FFixed (digits : nat) (x : pyfloat)   (* {x:.2f}, {x:.4f} *)
| FCapitalize (s : pystr)         (* {s.capitalize()} *)
| FDayShort (date : pystr)        (* weekday of a date through days_ru, with its fallbacks *)
| FClock (ts : json)              (* datetime.fromtimestamp(ts).strftime('%H:%M') *)
| FNow.                           (* datetime.now().strftime('%H:%M') *)

Inductive text : Type :=
| Text (fs : list frag)
| Stripped (fs : list frag).      (* result.strip() *)

(** An inline button: its label and its callback payload. *)
Record button : Type := Button { label : pystr; callback_data : pystr }.

Definition keyboard := list (list button).

Inductive endpoint : Type :=
| WeatherAPI      (* api.openweathermap.org/data/2.5/weather *)
| ForecastAPI     (* api.openweathermap.org/data/2.5/forecast *)
| RatesAPI.       (* api.privatbank.ua/p24api/pubinfo *)

(** What the network does with one request. *)
Inductive http_outcome : Type :=
| NetworkError                                  (* connection failure or timeout *)
| Response (status : Z) (body : option json).   (* [None]: the body is not JSON *)

Inductive effect : Type :=
| Request (e : endpoint) (lat lon : option Q)
| LogError (status : option Z)
| SendMessage (t : text) (parse_mode : option pystr) (markup : option keyboard)
| EditMessage (t : text) (parse_mode : option pystr) (markup : option keyboard)
| AckCallback.

(** ** The handler monad

    A computation is run against the network, an oracle giving the outcome of
    the [n]-th request, from the number of requests already made.  It yields
    the effects it performed, in order, the new number of requests, and its
    value or the exception that ended it. *)

Record run (A : Type) : Type := Run {
  events : list effect;
  calls : nat;
  value : result A
}.

Definition network := nat -> http_outcome.

Definition M (A : Type) : Type := network -> nat -> run A.

Definition ret {A} (a : A) : M A := fun _ n => Run [] n (Ok a).

Definition raise {A} (e : exn) : M A := fun _ n => Run [] n (Raise e).

Definition bind {A B} (m : M A) (f : A -> M B) : M B :=
  fun net n =>
    let r := m net n in
    match value r with
    | Ok a => let r' := f a net (calls r) in
              Run (events r ++ events r') (calls r') (value r')
    | Raise e => Run (events r) (calls r) (Raise e)
    end.

Declare Scope handler_scope.
Delimit Scope handler_scope with handler.
Notation "x <- m ;; k" := (bind m (fun x => k))
  (at level 61, m at next level, right associativity) : handler_scope.
Notation "m ;; k" := (bind m (fun _ => k))
  (at level 61, right associativity) : handler_scope.

Definition emit (e : effect) : M unit := fun _ n => Run [e] n (Ok tt).

Definition lift {A} (r : result A) : M A := fun _ n => Run [] n r.

(** [session.get(url, ...)]: the request is recorded and answered by the
    network. *)
Definition http_get (e : endpoint) (lat lon : option Q) : M http_outcome :=
  fun net n => Run [Request e lat lon] (S n) (Ok (net n)).

(** [try: body  except Exception: handler] around a computation. *)
Definition catch {A} (body : M A) (handler : exn -> M A) : M A :=
  fun net n =>
    let r := body net n in
    match value r with
    | Ok a => r
    | Raise e => let r' := handler e net (calls r) in
                 Run (events r ++ events r') (calls r') (value r')
    end.

(** [for x in xs: body x], left to right, stopping at an exception. *)
Fixpoint for_each {A} (xs : list A) (body : A -> M unit) : M unit :=
  match xs with
  | [] => ret tt
  | x :: xs' => bind (body x) (fun _ => for_each xs' body)
  end.

(** [for x in xs: if body x: break] -- the body answers [true] where the
    source reaches its [break]. *)
Fixpoint for_until {A} (xs : list A) (body : A -> M bool) : M unit :=
  match xs with
  | [] => ret tt
  | x :: xs' => bind (body x) (fun stop => if stop then ret tt else for_until xs' body)
  end.

(** ** Configuration *)

(** A location: name, latitude, longitude. *)
Definition city : Type := pystr * Q * Q.

Definition city_name (c : city) : pystr := fst (fst c).
Definition city_lat (c : city) : Q := snd (fst c).
Definition city_lon (c : city) : Q := snd c.

Definition CITIES : list city :=
  [ (u "Кёльн", 50.9375, 6.9603);
    (u "Линц-ам-Райн", 50.5667, 7.3167);
    (u "Нюмбрехт", 50.9167, 7.6333);
    (u "Гуммерсбах", 51.0236, 7.5628);
    (u "Виль", 50.9167, 7.5333);
    (u "Диренхаузен", 50.8833, 7.6167);
    (u "Вальдбрель", 50.9333, 7.7167) ]%Q.

(** The rates dictionary: currency code to float. *)
Definition rates : Type := list (pystr * pyfloat).

Definition EXCHANGE_RATES : rates := [(u "EUR", Fin 1); (u "UAH", Fin 44.5)].

(** [rates.get(k, 1.0)] *)
Definition rates_get (r : rates) (k : pystr) : pyfloat :=
  match dict_get r k with
  | Some x => x
  | None => Fin 1
  end.

(** ** Provider clients *)

Module Providers.
Local Open Scope handler_scope.

(** [await response.json()] *)
Definition response_json (body : option json) : result json :=
  match body with
  | Some data => Ok data
  | None => Raise ContentTypeError
  end.

(** One turn of the loop of [get_exchange_rates] over the quotation list. *)
Definition scan_item (acc : rates) (item : json) : result rates :=
  (ccy <- Json.get item (u "ccy") JNull ;;
   if Json.eq_str ccy (u "EUR") then
     sale <- Json.get item (u "sale") (JStr (u "44.5")) ;;
     f <- Builtins.float sale ;;
     Ok (dict_set (dict_set acc (u "EUR") f) (u "UAH") (Fin 1))
   else Ok acc)%result.

Fixpoint scan_items (acc : rates) (items : list json) : result rates :=
  match items with
  | [] => Ok acc
  | item :: items' => rbind (scan_item acc item) (fun acc' => scan_items acc' items')
  end.

(** What [get_exchange_rates] makes of a parsed body: the loop over [data],
    started from a fresh dictionary. *)
Definition read_rates (data : json) : result rates :=
  rbind (Json.iter data) (scan_items [(u "EUR", Fin 1); (u "UAH", Fin 44.5)]).

Definition get_exchange_rates : M rates :=
  catch
    (o <- http_get RatesAPI None None ;;
     match o with
     | NetworkError => raise ClientError
     | Response status body =>
       if (status =? 200)%Z then
         data <- lift (response_json body) ;;
         lift (read_rates data)
       else
         emit (LogError (Some status)) ;;
         ret EXCHANGE_RATES
     end)
    (fun _ => emit (LogError None) ;; ret EXCHANGE_RATES).

Definition get_weather (c : city) : M (option json) :=
  o <- http_get WeatherAPI (Some (city_lat c)) (Some (city_lon c)) ;;
  match o with
  | NetworkError => raise ClientError
  | Response status body =>
    if (status =? 200)%Z then
      data <- lift (response_json body) ;;
      data' <- lift (Json.setitem data (u "name") (JStr (city_name c))) ;;
      ret (Some data')
    else
      emit (LogError (Some status)) ;;
      ret None
  end.

(** One entry of the daily forecast, the dictionary [get_forecast] builds. *)
Record forecast_day : Type := ForecastDay {
  fd_date : pystr;
  fd_temp : json;
  fd_feels_like : json;
  fd_description : json;
  fd_icon : json;
  fd_humidity : json;
  fd_wind : json
}.

Definition midday : pystr := u "12:00:00".

(** ["12:00:00" in dt_txt] *)
Definition is_midday (dt_txt : json) : result bool :=
  match dt_txt with
  | JStr s => Ok (contains s midday)
  | JArr l => Ok (existsb (fun x => Json.eq_str x midday) l)
  | JObj kv => Ok (match dict_get kv midday with Some _ => true | None => false end)
  | _ => Raise TypeError
  end.

(** [dt_txt.split(" ")[0]] *)
Definition date_of (dt_txt : json) : result pystr :=
  match dt_txt with
  | JStr s => Ok (hd [] (split_on 32 s))
  | _ => Raise AttributeError
  end.

(** The dictionary built for a midday sample. *)
Definition day_of_item (date : pystr) (item : json) : result forecast_day :=
  (main <- Json.getitem item (u "main") ;;
   temp <- Json.getitem main (u "temp") ;;
   feels <- Json.getitem main (u "feels_like") ;;
   weather <- Json.getitem item (u "weather") ;;
   w0 <- Json.getitem0 weather ;;
   descr <- Json.getitem w0 (u "description") ;;
   icon <- Json.getitem w0 (u "icon") ;;
   humidity <- Json.getitem main (u "humidity") ;;
   wind <- Json.getitem item (u "wind") ;;
   speed <- Json.getitem wind (u "speed") ;;
   Ok (ForecastDay date temp feels descr icon humidity speed))%result.

(** One turn of the loop of [get_forecast] over the time series. *)
Definition collect_item (daily : list (pystr * forecast_day)) (item : json)
  : result (list (pystr * forecast_day)) :=
  (dt_txt <- Json.get item (u "dt_txt") (JStr []) ;;
   mid <- is_midday dt_txt ;;
   if mid then
     date <- date_of dt_txt ;;
     day <- day_of_item date item ;;
     Ok (dict_set daily date day)
   else Ok daily)%result.

Fixpoint collect_items (daily : list (pystr * forecast_day)) (items : list json)
  : result (list (pystr * forecast_day)) :=
  match items with
  | [] => Ok daily
  | item :: items' =>
    rbind (collect_item daily item) (fun daily' => collect_items daily' items')
  end.

(** The part of [get_forecast] that follows [data = await response.json()]. *)
Definition daily_forecast (data : json) : result (list forecast_day) :=
  (forecast_list <- Json.get data (u "list") (JArr []) ;;
   items <- Json.iter forecast_list ;;
   daily <- collect_items [] items ;;
   Ok (firstn 3 (dict_values daily)))%result.

Definition get_forecast (c : city) : M (option (list forecast_day)) :=
  o <- http_get ForecastAPI (Some (city_lat c)) (Some (city_lon c)) ;;
  match o with
  | NetworkError => raise ClientError
  | Response status body =>
    if (status =? 200)%Z then
      data <- lift (response_json body) ;;
      days <- lift (daily_forecast data) ;;
      ret (Some days)
    else
      emit (LogError (Some status)) ;;
      ret None
  end.

End Providers.

Import Providers.

(** [convert_currency(amount, from_currency, to_currency, rates)] *)
Definition fdiv (a b : pyfloat) : result pyfloat :=
  if is_zero b then Raise ZeroDivisionError else Ok (div_nz a b).

Definition convert_currency (amount : pyfloat) (from_currency to_currency : pystr)
    (r : rates) : result (pyfloat * pyfloat) :=
  if PyStr.eqb from_currency to_currency then Ok (amount, rates_get r from_currency)
  else if PyStr.eqb from_currency (u "EUR") then
    Ok (mul amount (rates_get r (u "EUR")), rates_get r (u "EUR"))
  else
    (result <- fdiv amount (rates_get r (u "EUR")) ;;
     rate <- fdiv (Fin 1) (rates_get r (u "EUR")) ;;
     Ok (result, rate))%result.

(** ** Formatter *)

Module Formatter.
Local Open Scope result_scope.

Definition weather_emojis : list (pystr * pystr) :=
  [ (u "01d", u "☀️"); (u "01n", u "🌙"); (u "02d", u "⛅"); (u "02n", u "⛅");
    (u "03d", u "☁️"); (u "03n", u "☁️"); (u "04d", u "☁️"); (u "04n", u "☁️");
    (u "09d", u "🌧️"); (u "09n", u "🌧️"); (u "10d", u "🌦️"); (u "10n", u "🌦️");
    (u "11d", u "⛈️"); (u "11n", u "⛈️"); (u "13d", u "❄️"); (u "13n", u "❄️");
    (u "50d", u "🌫️"); (u "50n", u "🌫️") ].

(** [weather_emojis.get(icon, "🌡️")] for a string. *)
Definition emoji_for (icon : pystr) : pystr :=
  match dict_get weather_emojis icon with
  | Some e => e
  | None => u "🌡️"
  end.

(** [weather_emojis.get(icon, "🌡️")]; a list or a dictionary is not hashable. *)
Definition emoji_of (icon : json) : result pystr :=
  match icon with
  | JStr s => Ok (emoji_for s)
  | JArr _ | JObj _ => Raise TypeError
  | _ => Ok (u "🌡️")
  end.

(** [x.capitalize()]: a string method. *)
Definition capitalize (x : json) : result frag :=
  match x with
  | JStr s => Ok (FCapitalize s)
  | _ => Raise AttributeError
  end.

(** [datetime.fromtimestamp(ts)] is modelled for CPython 3.11 on a Linux host
    with a 64-bit [time_t] whose local time is UTC.

    The whole seconds taken from a finite float: the fraction is turned into
    microseconds, rounded half to even, and a full second is carried. *)
Definition float_seconds (q : Q) : Z :=
  let i := Z.quot (Qnum q) (Zpos (Qden q)) in
  let us := match of_Q ((q - inject_Z i) * 1000000) with
            | Fin x => round_half_even x
            | _ => 0%Z
            end in
  if (1000000 <=? us)%Z then (i + 1)%Z
  else if (us <? 0)%Z then (i - 1)%Z
  else i.

(** The seconds of a timestamp; what does not fit [time_t] is refused. *)
Definition timestamp (ts : json) : result Z :=
  match ts with
  | JInt n =>
    if ((n <? - 2 ^ 63) || (2 ^ 63 - 1 <? n))%Z then Raise OverflowError else Ok n
  | JBool b => Ok (if b then 1 else 0)%Z
  | JFloat (Fin q) =>
    let sec := float_seconds q in
    if ((sec <? - 2 ^ 63) || (2 ^ 63 <? sec))%Z then Raise OverflowError else Ok sec
  | JFloat NegZero => Ok 0%Z
  | JFloat NaN => Raise ValueError
  | JFloat _ => Raise OverflowError
  | _ => Raise TypeError
  end.

(** The first and the last second [localtime] converts (the year fits an
    [int]), and the first and the last second [datetime] accepts: the years
    1 to 9999, the second one day before included. *)
Definition localtime_min : Z := -67768040609740800.
Definition localtime_max : Z := 67768036191676799.
Definition datetime_min : Z := -62135510400.
Definition datetime_max : Z := 253402300799.

Definition localtime (sec : Z) : result unit :=
  if ((sec <? localtime_min) || (localtime_max <? sec))%Z then Raise OSError
  else if ((sec <? datetime_min) || (datetime_max <? sec))%Z then Raise ValueError
  else Ok tt.

(** [datetime.fromtimestamp(ts).strftime('%H:%M')] *)
Definition clock (ts : json) : result frag :=
  sec <- timestamp ts ;;
  rbind (localtime sec) (fun _ => Ok (FClock ts)).

Definition format_weather (data : json) : result text :=
  city <- Json.getitem data (u "name") ;;
  main <- Json.getitem data (u "main") ;;
  temp <- Json.getitem main (u "temp") ;;
  feels_like <- Json.getitem main (u "feels_like") ;;
  humidity <- Json.getitem main (u "humidity") ;;
  pressure <- Json.getitem main (u "pressure") ;;
  wind <- Json.getitem data (u "wind") ;;
  wind_speed <- Json.getitem wind (u "speed") ;;
  weather <- Json.getitem data (u "weather") ;;
  w0 <- Json.getitem0 weather ;;
  description <- Json.getitem w0 (u "description") ;;
  icon <- Json.getitem w0 (u "icon") ;;
  emoji <- emoji_of icon ;;
  descr <- capitalize description ;;
  dt <- Json.getitem data (u "dt") ;;
  updated <- clock dt ;;
  Ok (Text
    [ FStr emoji; Lit (u " **Погода в городе "); FVal city; Lit (u "**"); NL; NL;
      Lit (u "🌡️ Температура: "); FVal temp; Lit (u "°C (ощущается как ");
      FVal feels_like; Lit (u "°C)"); NL;
      Lit (u "📝 Описание: "); descr; NL;
      Lit (u "💧 Влажность: "); FVal humidity; Lit (u "%"); NL;
      Lit (u "🔽 Давление: "); FVal pressure; Lit (u " гПа"); NL;
      Lit (u "💨 Ветер: "); FVal wind_speed; Lit (u " м/с"); NL;
      Lit (u "🕒 Обновлено: "); updated ]).

(** The block [format_forecast] appends for one day. *)
Definition format_day (day : forecast_day) : result (list frag) :=
  emoji <- emoji_of (fd_icon day) ;;
  temp <- Builtins.round (fd_temp day) ;;
  feels <- Builtins.round (fd_feels_like day) ;;
  desc <- capitalize (fd_description day) ;;
  Ok [ Lit (u "**"); FDayShort (fd_date day); Lit (u "** "); FStr emoji; NL;
       Lit (u "🌡️ "); FInt temp; Lit (u "°C (ощущается как "); FInt feels;
       Lit (u "°C)"); NL;
       Lit (u "📝 "); desc; NL;
       Lit (u "💧 "); FVal (fd_humidity day); Lit (u "% | 💨 ");
       FVal (fd_wind day); Lit (u " м/с"); NL; NL ].

Fixpoint format_days (days : list forecast_day) : result (list frag) :=
  match days with
  | [] => Ok []
  | day :: days' =>
    block <- format_day day ;;
    rest <- format_days days' ;;
    Ok (block ++ rest)
  end.

Definition format_forecast (name : pystr) (forecast_list : list forecast_day)
  : result text :=
  blocks <- format_days forecast_list ;;
  Ok (Stripped
    ([ Lit (u "📅 **Прогноз на 3 дня: "); FStr name; Lit (u "**"); NL; NL ] ++ blocks)).

End Formatter.

Import Formatter.

(** ** View builder *)

Module Views.

Definition get_currency_keyboard : keyboard :=
  [ [ Button (u "€ EUR → ₴ UAH") (u "conv_eur_uah");
      Button (u "₴ UAH → € EUR") (u "conv_uah_eur") ];
    [ Button (u "🔄 Обновить курс") (u "currency_rates") ] ].

(** Two city buttons per row. *)
Fixpoint city_rows (cities : list city) : keyboard :=
  match cities with
  | [] => []
  | [a] => [[Button (city_name a) (u "weather_" ++ city_name a)]]
  | a :: b :: rest =>
    [ Button (city_name a) (u "weather_" ++ city_name a);
      Button (city_name b) (u "weather_" ++ city_name b) ] :: city_rows rest
  end.

Definition get_cities_keyboard (cities : list city) : keyboard := city_rows cities.

Definition get_forecast_keyboard (name : pystr) : keyboard :=
  [ [ Button (u "📅 Прогноз на 3 дня") (u "forecast_" ++ name) ];
    [ Button (u "🔄 Обновить") (u "weather_" ++ name) ] ].

Definition get_main_keyboard : keyboard :=
  [ [ Button (u "🌤️ Погода во всех городах") (u "weather_all") ];
    [ Button (u "📅 Прогноз на 3 дня") (u "forecast_all") ];
    [ Button (u "💱 Конвертер валют") (u "currency") ];
    [ Button (u "📍 Список городов") (u "list_cities") ] ].

End Views.

Import Views.

(** ** Command router

    The handlers read the module-level table [CITIES]; here they take the
    table as the section variable [cities], so that the properties below hold
    for every configured list. *)

Definition markdown : option pystr := Some (u "Markdown").

Definition answer (t : text) (parse_mode : option pystr) (markup : option keyboard)
  : M unit := emit (SendMessage t parse_mode markup).

Definition edit_text (t : text) (parse_mode : option pystr) (markup : option keyboard)
  : M unit := emit (EditMessage t parse_mode markup).

Definition call_answer : M unit := emit AckCallback.

(** [sep.join(parts)] over pieces of text. *)
Fixpoint join (sep : list frag) (parts : list (list frag)) : list frag :=
  match parts with
  | [] => []
  | [x] => x
  | x :: rest => x ++ sep ++ join sep rest
  end.

(** The message texts. *)
Module Msg.

Definition loading_weather_all (n : nat) : text :=
  Text [Lit (u "🔄 Загружаю погоду для "); FInt (Z.of_nat n); Lit (u " городов...")].

Definition loading_forecast_all (n : nat) : text :=
  Text [Lit (u "🔄 Загружаю прогноз на 3 дня для "); FInt (Z.of_nat n);
        Lit (u " городов...")].

Definition weather_failed (name : pystr) : text :=
  Text [Lit (u "❌ Не удалось получить погоду для города "); FStr name].

Definition forecast_failed (name : pystr) : text :=
  Text [Lit (u "❌ Не удалось получить прогноз для города "); FStr name].

Definition loading_weather (name : pystr) : text :=
  Text [Lit (u "🔄 Загружаю погоду для города "); FStr name; Lit (u "...")].

Definition loading_forecast (name : pystr) : text :=
  Text [Lit (u "🔄 Загружаю прогноз на 3 дня для города "); FStr name; Lit (u "...")].

Definition city_missing : text :=
  Text [Lit (u "❌ Укажите название города."); NL; Lit (u "Пример: /city Кёльн")].

Definition city_not_found (query : pystr) : text :=
  Text [Lit (u "❌ Город '"); FStr query; Lit (u "' не найден."); NL;
        Lit (u "Используйте команду /near чтобы увидеть список доступных городов.")].

Definition bad_amount : text :=
  Text [Lit (u "❌ Неверный формат."); NL; NL; Lit (u "Примеры:"); NL;
        Lit (u "/currency 100 EUR"); NL; Lit (u "/currency 1000 UAH")].

Definition bad_currency : text :=
  Text [Lit (u "❌ Поддерживаются только EUR и UAH."); NL; NL; Lit (u "Примеры:"); NL;
        Lit (u "/currency 100 EUR"); NL; Lit (u "/currency 1000 UAH")].

Definition rate_lines (eur_rate inverse : pyfloat) : list frag :=
  [ Lit (u "💱 **Курс валют (ПриватБанк)**"); NL; NL;
    Lit (u "🇪🇺 1 EUR = "); FFixed 2 eur_rate; Lit (u " ₴ UAH"); NL;
    Lit (u "🇺🇦 1 UAH = "); FFixed 4 inverse; Lit (u " € EUR"); NL; NL ].

Definition currency_menu (eur_rate inverse : pyfloat) : text :=
  Text (rate_lines eur_rate inverse ++
    [ Lit (u "**Примеры:**"); NL;
      Lit (u "/currency 100 EUR - конвертировать 100 евро в гривны"); NL;
      Lit (u "/currency 1000 UAH - конвертировать 1000 гривен в евро"); NL; NL;
      Lit (u "Или используйте кнопки ниже:") ]).

Definition currency_button (eur_rate inverse : pyfloat) : text :=
  Text (rate_lines eur_rate inverse ++
    [ Lit (u "**Примеры:**"); NL;
      Lit (u "/currency 100 EUR"); NL; Lit (u "/currency 1000 UAH") ]).

Definition currency_refreshed (eur_rate inverse : pyfloat) : text :=
  Text (rate_lines eur_rate inverse ++ [ Lit (u "_Обновлено: "); FNow; Lit (u "_") ]).

Definition converted_eur (amount converted rate : pyfloat) : text :=
  Text [ Lit (u "💱 **Конвертация**"); NL; NL;
         FFixed 2 amount; Lit (u " € EUR = "); FFixed 2 converted; Lit (u " ₴ UAH"); NL; NL;
         Lit (u "Курс: 1 EUR = "); FFixed 2 rate; Lit (u " UAH") ].

Definition converted_uah (amount converted rate : pyfloat) : text :=
  Text [ Lit (u "💱 **Конвертация**"); NL; NL;
         FFixed 2 amount; Lit (u " ₴ UAH = "); FFixed 2 converted; Lit (u " € EUR"); NL; NL;
         Lit (u "Курс: 1 UAH = "); FFixed 4 rate; Lit (u " EUR") ].

Definition conv_eur_uah : text :=
  Text [ Lit (u "💱 **EUR → UAH**"); NL; NL; Lit (u "Введите сумму в евро:"); NL;
         Lit (u "Пример: `/currency 100 EUR`") ].

Definition conv_uah_eur : text :=
  Text [ Lit (u "💱 **UAH → EUR**"); NL; NL; Lit (u "Введите сумму в гривнах:"); NL;
         Lit (u "Пример: `/currency 1000 UAH`") ].

(** [f"{i+1}. {city[0]}"] for the cities from index [i] on. *)
Fixpoint numbered (i : Z) (names : list pystr) : list (list frag) :=
  match names with
  | [] => []
  | n :: rest => [FInt (i + 1); Lit (u ". "); FStr n] :: numbered (i + 1) rest
  end.

Definition cities_list (names : list pystr) : text :=
  Text ([ Lit (u "📍 **Доступные города:**"); NL; NL ] ++ join [NL] (numbered 0 names) ++
        [ NL; NL; Lit (u "Всего: "); FInt (Z.of_nat (List.length names)); Lit (u " города") ]).

Definition start (names : list pystr) : text :=
  Text ([ Lit (u "👋 Привет! Я бот для показа погоды и конвертации валют."); NL; NL;
          Lit (u "📍 Города: ") ] ++ join [Lit (u ", ")] (map (fun n => [FStr n]) names) ++
        [ NL; NL; Lit (u "**Команды:**"); NL;
          Lit (u "/weather - погода во всех городах"); NL;
          Lit (u "/forecast - прогноз на 3 дня"); NL;
          Lit (u "/currency - конвертер валют (EUR ↔ UAH)"); NL;
          Lit (u "/city <название> - погода в городе"); NL;
          Lit (u "/help - справка"); NL; NL;
          Lit (u "Или используйте кнопки ниже:") ]).

Definition help (names : list pystr) : text :=
  Text ([ Lit (u "📖 **Справка**"); NL; NL;
          Lit (u "Этот бот показывает погоду, прогноз и конвертирует валюты."); NL; NL;
          Lit (u "**Города ("); FInt (Z.of_nat (List.length names)); Lit (u " шт.):**"); NL ] ++
        join [NL] (map (fun n => [Lit (u "• "); FStr n]) names) ++
        [ NL; NL; Lit (u "**Команды:**"); NL;
          Lit (u "/weather - погода во всех городах"); NL;
          Lit (u "/forecast - прогноз на 3 дня для всех городов"); NL;
          Lit (u "/currency - конвертер валют (EUR ↔ UAH)"); NL;
          Lit (u "/city <название> - погода в конкретном городе"); NL;
          Lit (u "/near - список городов"); NL; NL;
          Lit (u "Или используйте кнопки под сообщениями.") ]).

End Msg.

Section Router.

Variable cities : list city.

Local Open Scope handler_scope.

Definition names : list pystr := map city_name cities.

Definition cmd_start : M unit :=
  answer (Msg.start names) None (Some get_main_keyboard).

Definition cmd_help : M unit :=
  answer (Msg.help names) None (Some get_main_keyboard).

(** The branches of [if weather_data: ... else: ...]. *)
Definition reply_weather (name : pystr) (markup : option keyboard)
    (weather_data : option json) : M unit :=
  match weather_data with
  | Some data =>
    if Json.truthy data then
      t <- lift (format_weather data) ;;
      answer t markdown markup
    else answer (Msg.weather_failed name) None None
  | None => answer (Msg.weather_failed name) None None
  end.

(** The branches of [if forecast_data: ... else: ...]; an empty list counts
    as no data. *)
Definition reply_forecast (format_name fail_name : pystr)
    (forecast_data : option (list forecast_day)) : M unit :=
  match forecast_data with
  | Some ((_ :: _) as days) =>
    t <- lift (format_forecast format_name days) ;;
    answer t markdown None
  | _ => answer (Msg.forecast_failed fail_name) None None
  end.

Definition cmd_weather : M unit :=
  answer (Msg.loading_weather_all (List.length cities)) None None ;;
  for_each cities (fun c =>
    weather_data <- get_weather c ;;
    reply_weather (city_name c) None weather_data).

(** The test of the search loop of [cmd_city]. *)
Definition city_matches (city_query : pystr) (c : city) : bool :=
  contains (lower (city_name c)) city_query || contains city_query (lower (city_name c)).

Definition cmd_city (message_text : pystr) : M unit :=
  match split_ws_max1 message_text with
  | _ :: arg :: _ =>
    let city_query := lower arg in
    match find (city_matches city_query) cities with
    | None => answer (Msg.city_not_found arg) None None
    | Some found_city =>
      weather_data <- get_weather found_city ;;
      reply_weather (city_name found_city) None weather_data
    end
  | _ => answer Msg.city_missing None None
  end.

Definition cmd_near : M unit :=
  answer (Msg.cities_list names) markdown (Some (get_cities_keyboard cities)).

Definition cmd_forecast : M unit :=
  answer (Msg.loading_forecast_all (List.length cities)) None None ;;
  for_each cities (fun c =>
    forecast_data <- get_forecast c ;;
    reply_forecast (city_name c) (city_name c) forecast_data).

(** The quotation both currency views show: the rate and its inverse. *)
Definition quote (r : rates) : result (pyfloat * pyfloat) :=
  let eur_rate := rates_get r (u "EUR") in
  rbind (fdiv (Fin 1) eur_rate) (fun inverse => Ok (eur_rate, inverse)).

Definition cmd_currency (message_text : pystr) : M unit :=
  match split_ws message_text with
  | _ :: amount_token :: rest =>
    let amount_str := replace amount_token (u ",") (u ".") in
    let currency := match rest with c :: _ => Some (upper c) | [] => None end in
    match Builtins.float_of_str amount_str with
    | None => answer Msg.bad_amount None None
    | Some amount =>
      let currency :=
        match currency with
        | Some c => c
        | None => if ge amount (Fin 100) then u "UAH" else u "EUR"
        end in
      if negb (PyStr.eqb currency (u "EUR") || PyStr.eqb currency (u "UAH")) then
        answer Msg.bad_currency None None
      else
        r <- get_exchange_rates ;;
        if PyStr.eqb currency (u "EUR") then
          cr <- lift (convert_currency amount (u "EUR") (u "UAH") r) ;;
          answer (Msg.converted_eur amount (fst cr) (snd cr)) markdown None
        else
          cr <- lift (convert_currency amount (u "UAH") (u "EUR") r) ;;
          answer (Msg.converted_uah amount (fst cr) (snd cr)) markdown None
    end
  | _ =>
    r <- get_exchange_rates ;;
    q <- lift (quote r) ;;
    answer (Msg.currency_menu (fst q) (snd q)) markdown (Some get_currency_keyboard)
  end.

Definition process_callback (action : pystr) : M unit :=
  if PyStr.eqb action (u "weather_all") then
    edit_text (Msg.loading_weather_all (List.length cities)) None (Some get_main_keyboard) ;;
    for_each cities (fun c =>
      weather_data <- get_weather c ;;
      reply_weather (city_name c) (Some (get_forecast_keyboard (city_name c))) weather_data) ;;
    call_answer
  else if PyStr.eqb action (u "forecast_all") then
    edit_text (Msg.loading_forecast_all (List.length cities)) None (Some get_main_keyboard) ;;
    for_each cities (fun c =>
      forecast_data <- get_forecast c ;;
      reply_forecast (city_name c) (city_name c) forecast_data) ;;
    call_answer
  else if PyStr.eqb action (u "list_cities") then
    edit_text (Msg.cities_list names) markdown (Some (get_cities_keyboard cities)) ;;
    call_answer
  else if startswith action (u "weather_") then
    let name := replace action (u "weather_") [] in
    answer (Msg.loading_weather name) None None ;;
    for_until cities (fun c =>
      if PyStr.eqb (city_name c) name then
        weather_data <- get_weather c ;;
        reply_weather name (Some (get_forecast_keyboard name)) weather_data ;;
        ret true
      else ret false) ;;
    call_answer
  else if startswith action (u "forecast_") then
    let name := replace action (u "forecast_") [] in
    answer (Msg.loading_forecast name) None None ;;
    for_until cities (fun c =>
      if PyStr.eqb (city_name c) name then
        forecast_data <- get_forecast c ;;
        reply_forecast (city_name c) name forecast_data ;;
        ret true
      else ret false) ;;
    call_answer
  else if PyStr.eqb action (u "currency") then
    r <- get_exchange_rates ;;
    q <- lift (quote r) ;;
    answer (Msg.currency_button (fst q) (snd q)) markdown (Some get_currency_keyboard) ;;
    call_answer
  else if PyStr.eqb action (u "currency_rates") then
    r <- get_exchange_rates ;;
    q <- lift (quote r) ;;
    edit_text (Msg.currency_refreshed (fst q) (snd q)) markdown (Some get_currency_keyboard) ;;
    call_answer
  else if PyStr.eqb action (u "conv_eur_uah") then
    answer Msg.conv_eur_uah markdown None ;;
    call_answer
  else if PyStr.eqb action (u "conv_uah_eur") then
    answer Msg.conv_uah_eur markdown None ;;
    call_answer
  else ret tt.

(** The registrations of [main]: what reaches which handler. *)
Inductive update : Type :=
| Start
| Help
| Weather
| Forecast
| Currency (message_text : pystr)
| Near
| City (message_text : pystr)
| Callback (data : pystr).

Definition dispatch (upd : update) : M unit :=
  match upd with
  | Start => cmd_start
  | Help => cmd_help
  | Weather => cmd_weather
  | Forecast => cmd_forecast
  | Currency t => cmd_currency t
  | Near => cmd_near
  | City t => cmd_city t
  | Callback data => process_callback data
  end.

End Router.

(** ** Reading a run *)

Definition is_request (e : effect) : bool :=
  match e with Request _ _ _ => true | _ => false end.

Definition is_edit (e : effect) : bool :=
  match e with EditMessage _ _ _ => true | _ => false end.

(** The requests made to the providers. *)
Definition requests (es : list effect) : list effect := filter is_request es.

(** The texts sent as new messages, in order. *)
Fixpoint sent_texts (es : list effect) : list text :=
  match es with
  | [] => []
  | SendMessage t _ _ :: es' => t :: sent_texts es'
  | _ :: es' => sent_texts es'
  end.

(** A network that answers every request the same way. *)
Definition always (o : http_outcome) : network := fun _ => o.

(** A network that answers the requests with the given outcomes, in order,
    and fails when they are used up. *)
Definition scripted (os : list http_outcome) : network :=
  fun n => nth n os NetworkError.

(** * Vocabulary of the properties *)

(** The outcomes the source treats as a failed fetch: no answer, a status
    other than 200, a body that is not JSON, an exception while the body is
    read, a list without an entry for EUR. *)
Inductive rate_fetch_failed : http_outcome -> Prop :=
| failed_network : rate_fetch_failed NetworkError
| failed_status status body :
    status <> 200%Z -> rate_fetch_failed (Response status body)
| failed_body : rate_fetch_failed (Response 200 None)
| failed_exception data e :
    read_rates data = Raise e -> rate_fetch_failed (Response 200 (Some data))
| failed_no_eur items :
    (forall item, In item items ->
       Json.get item (u "ccy") JNull <> Ok (JStr (u "EUR"))) ->
    rate_fetch_failed (Response 200 (Some (JArr items))).

(** A quotation list whose entry for EUR carries the quote "0". *)
Definition zero_quote : json :=
  JArr [JObj [(u "ccy", JStr (u "EUR")); (u "buy", JStr (u "0")); (u "sale", JStr (u "0"))]].

(** The answer of the provider with a quote of 44.5 for EUR. *)
Definition usual_quote : json :=
  JArr [JObj [(u "ccy", JStr (u "USD")); (u "buy", JStr (u "40.9")); (u "sale", JStr (u "41.5"))];
        JObj [(u "ccy", JStr (u "EUR")); (u "buy", JStr (u "43.8")); (u "sale", JStr (u "44.5"))]].

(** A well-formed answer of the weather provider. *)
Definition weather_body (name description icon : pystr)
    (temp feels_like humidity pressure speed : json) (dt : Z) : json :=
  JObj [ (u "weather", JArr [JObj [(u "description", JStr description); (u "icon", JStr icon)]]);
         (u "main", JObj [ (u "temp", temp); (u "feels_like", feels_like);
                           (u "pressure", pressure); (u "humidity", humidity) ]);
         (u "wind", JObj [(u "speed", speed)]);
         (u "dt", JInt dt);
         (u "name", JStr name) ].

Definition observation : json :=
  weather_body (u "Cologne") (u "ясно") (u "01d") (JFloat (Fin 21.37)) (JFloat (Fin 19.84))
               (JInt 48) (JInt 1015) (JFloat (Fin 3.6)) 1714564800.

(** What one location's fetch comes to: the answer is present, status 200
    with a body the formatter renders as [t], or absent, any other status,
    and [t] is then the apology naming the location. *)
Inductive fetch (c : city) : http_outcome -> text -> Prop :=
| fetch_present data data' t :
    Json.setitem data (u "name") (JStr (city_name c)) = Ok data' ->
    format_weather data' = Ok t ->
    fetch c (Response 200 (Some data)) t
| fetch_absent status body :
    status <> 200%Z ->
    fetch c (Response status body) (Msg.weather_failed (city_name c)).

(** The locations of the list get their answers from the requests [n],
    [n+1], ... in list order, and [ts] are the replies, in the same order. *)
Inductive fetched_all (net : network) : list city -> nat -> list text -> Prop :=
| fetched_nil n : fetched_all net [] n []
| fetched_cons c cs n t ts :
    fetch c (net n) t ->
    fetched_all net cs (S n) ts ->
    fetched_all net (c :: cs) n (t :: ts).

(** A computation that edits no message, whatever the network does. *)
Definition never_edits {A} (m : M A) : Prop :=
  forall net n, existsb is_edit (events (m net n)) = false.

(** The date under which the loop of [get_forecast] files an item, when the
    item is a midday sample. *)
Definition midday_date (item : json) : option pystr :=
  match Json.get item (u "dt_txt") (JStr []) with
  | Ok dt_txt =>
    match is_midday dt_txt with
    | Ok true => match date_of dt_txt with Ok d => Some d | Raise _ => None end
    | _ => None
    end
  | Raise _ => None
  end.

(** The dates of the midday samples of a series, in the order of the series. *)
Definition midday_dates (items : list json) : list pystr :=
  flat_map (fun item => match midday_date item with Some d => [d] | None => [] end) items.

(** The distinct strings of a list, in the order of their first occurrence. *)
Definition add_key (acc : list pystr) (k : pystr) : list pystr :=
  if existsb (PyStr.eqb k) acc then acc else acc ++ [k].

Definition distinct (l : list pystr) : list pystr := fold_left add_key l [].

(** A sample of the forecast series, as the provider sends it. *)
Definition sample (dt_txt : pystr) (temp feels_like : json) : json :=
  JObj [ (u "dt", JInt 0);
         (u "main", JObj [ (u "temp", temp); (u "feels_like", feels_like);
                           (u "pressure", JInt 1015); (u "humidity", JInt 48) ]);
         (u "weather", JArr [JObj [(u "description", JStr (u "ясно")); (u "icon", JStr (u "01d"))]]);
         (u "wind", JObj [(u "speed", JFloat (Fin 3.6))]);
         (u "dt_txt", JStr dt_txt) ].

Definition series (items : list json) : json := JObj [(u "cod", JStr (u "200")); (u "list", JArr items)].

(** The entry built from [sample]. *)
Definition sample_day (date : pystr) (temp feels_like : json) : forecast_day :=
  ForecastDay date temp feels_like (JStr (u "ясно")) (JStr (u "01d")) (JInt 48)
              (JFloat (Fin 3.6)).

(** A sample the loop can read: its [dt_txt] is a string and it carries the
    fields an entry is built from. *)
Definition readable (item : json) : Prop :=
  (exists s, Json.get item (u "dt_txt") (JStr []) = Ok (JStr s)) /\
  (forall date, exists day, day_of_item date item = Ok day).

(** The state of the loop of [get_forecast] after the items [seen]: the
    keys are distinct and are the dates of the midday samples seen, in the
    order of their first occurrence; each entry carries its key as its date
    and was built from the last midday sample seen for that date. *)
Record filed (seen : list json) (daily : list (pystr * forecast_day)) : Prop := {
  filed_nodup : NoDup (dict_keys daily);
  filed_keys : dict_keys daily = distinct (midday_dates seen);
  filed_last : forall date day, In (date, day) daily ->
    fd_date day = date /\
    exists before item after,
      seen = before ++ item :: after /\
      midday_date item = Some date /\
      day_of_item date item = Ok day /\
      forall x, In x after -> midday_date x <> Some date
}.

(** Three-hourly samples over four days, 2024-05-01 reported twice at noon. *)
Definition four_days : list json :=
  [ sample (u "2024-05-01 09:00:00") (JFloat (Fin 11.2)) (JFloat (Fin 10.1));
    sample (u "2024-05-01 12:00:00") (JFloat (Fin 14.5)) (JFloat (Fin 13.9));
    sample (u "2024-05-01 15:00:00") (JFloat (Fin 16.0)) (JFloat (Fin 15.2));
    sample (u "2024-05-02 12:00:00") (JFloat (Fin 17.5)) (JFloat (Fin 17.0));
    sample (u "2024-05-01 12:00:00") (JFloat (Fin 14.8)) (JFloat (Fin 14.0));
    sample (u "2024-05-03 12:00:00") (JInt 19) (JInt 18);
    sample (u "2024-05-04 12:00:00") (JInt 20) (JInt 20) ].

(** The number a run of ASCII digits writes, and the number written with
    the digits [ip] before the point and the digits [fp] after it. *)
Definition number (s : pystr) : Z :=
  fold_left (fun acc c => (acc * 10 + Builtins.digit_val c)%Z) s 0%Z.

Definition decimal_number (ip fp : pystr) : Q :=
  Qred (inject_Z (number ip * 10 ^ Z.of_nat (List.length fp) + number fp)
        * Qpower (10 # 1) (- Z.of_nat (List.length fp))).

(** A quotation list whose quote for EUR underflows to zero when read as a
    float. *)
Definition tiny_quote : json :=
  JArr [JObj [(u "ccy", JStr (u "EUR")); (u "buy", JStr (u "1e-400"));
              (u "sale", JStr (u "1e-400"))]].

(** The entry quotes EUR. *)
Definition quotes_eur (item : json) : Prop :=
  Json.get item (u "ccy") JNull = Ok (JStr (u "EUR")).

(** The answer is a quotation list that is read without an exception and
    whose last entry for EUR carries a quote that, read as a float, is not
    strictly positive. *)
Definition last_quote_not_positive (o : http_outcome) : Prop :=
  exists data before item after sale f r,
    o = Response 200 (Some data) /\
    Json.iter data = Ok (before ++ item :: after) /\
    read_rates data = Ok r /\
    quotes_eur item /\
    (forall x, In x after -> ~ quotes_eur x) /\
    Json.get item (u "sale") (JStr (u "44.5")) = Ok sale /\
    Builtins.float sale = Ok f /\
    positive f = false.

(** * Further vocabulary *)

(** A computation all of whose effects satisfy [P], whatever the network
    does. *)
Definition confined (P : effect -> Prop) {A} (m : M A) : Prop :=
  forall net n, Forall P (events (m net n)).

(** The payloads [process_callback] has a branch for. *)
Definition recognized (action : pystr) : bool :=
  existsb (PyStr.eqb action)
    [ u "weather_all"; u "forecast_all"; u "list_cities"; u "currency";
      u "currency_rates"; u "conv_eur_uah"; u "conv_uah_eur" ]
  || startswith action (u "weather_") || startswith action (u "forecast_").

(** A request goes to the rate provider, without coordinates, or to a
    weather endpoint with the coordinates of a configured location. *)
Definition targets_configured (cities : list city) (e : effect) : Prop :=
  match e with
  | Request RatesAPI lat lon => lat = None /\ lon = None
  | Request _ lat lon =>
    exists c, In c cities /\ lat = Some (city_lat c) /\ lon = Some (city_lon c)
  | _ => True
  end.

(** The keyboard attached to a message, if any, has only buttons whose
    payload the router recognizes. *)
Definition buttons_recognized (e : effect) : Prop :=
  match e with
  | SendMessage _ _ (Some kb) | EditMessage _ _ (Some kb) =>
    forall row b, In row kb -> In b row -> recognized (callback_data b) = true
  | _ => True
  end.

(** An effect other than the acknowledgement of a button press. *)
Definition not_ack (e : effect) : Prop := e <> AckCallback.

(** A button handler that acknowledges when, and only when, it returns
    normally, and then as its last effect. *)
Definition acks_at_end {A} (m : M A) : Prop :=
  forall net n,
    (exists es a, events (m net n) = es ++ [AckCallback] /\ Forall not_ack es /\
                  value (m net n) = Ok a) \/
    (Forall not_ack (events (m net n)) /\ exists e, value (m net n) = Raise e).

(** The button [get_cities_keyboard] makes for a location. *)
Definition city_button (c : city) : button :=
  Button (city_name c) (u "weather_" ++ city_name c).

(** [keyboard[-1].append(b)]; there is no last row in an empty keyboard. *)
Fixpoint append_last (kb : keyboard) (b : button) : result keyboard :=
  match kb with
  | [] => Raise IndexError
  | [row] => Ok [row ++ [b]]
  | row :: rest => rbind (append_last rest b) (fun rest' => Ok (row :: rest'))
  end.

(** The loop of [get_cities_keyboard] as the source writes it, from index
    [i] on: a new row is opened at every even index and the button goes to
    the last row. *)
Fixpoint cities_keyboard_loop (i : nat) (cs : list city) (kb : keyboard)
  : result keyboard :=
  match cs with
  | [] => Ok kb
  | c :: cs' =>
    let kb1 := if (i mod 2 =? 0)%nat then kb ++ [[]] else kb in
    rbind (append_last kb1 (city_button c)) (cities_keyboard_loop (S i) cs')
  end.

(** The text is about the location: it carries the configured name, as
    interpolated text or as the [name] field of the data. *)
Definition names_location (c : city) (t : text) : Prop :=
  exists fs, (t = Text fs \/ t = Stripped fs) /\
             (In (FStr (city_name c)) fs \/ In (FVal (JStr (city_name c))) fs).

(** The requests the all-locations handlers make for a location. *)
Definition weather_request (c : city) : effect :=
  Request WeatherAPI (Some (city_lat c)) (Some (city_lon c)).

Definition forecast_request (c : city) : effect :=
  Request ForecastAPI (Some (city_lat c)) (Some (city_lon c)).

(** How far an all-locations handler got: [ts] are its per-location
    replies, one for each of the first locations of the list, in order,
    each about its location; it either returned normally, having asked for
    and replied to every location, or ended in an exception, having asked
    for exactly one location more than it replied to. *)
Definition progress (req : city -> effect) (cities : list city) (r : run unit)
    (ts : list text) : Prop :=
  Forall2 names_location (firstn (List.length ts) cities) ts /\
  ((value r = Ok tt /\ List.length ts = List.length cities /\
    requests (events r) = map req cities) \/
   ((exists e, value r = Raise e) /\ (List.length ts < List.length cities)%nat /\
    requests (events r) = map req (firstn (S (List.length ts)) cities))).

(** Two entries for EUR, the second without a [sale] field. *)
Definition two_eur_quotes : list json :=
  [ JObj [(u "ccy", JStr (u "EUR")); (u "sale", JStr (u "43.1"))];
    JObj [(u "ccy", JStr (u "EUR")); (u "buy", JStr (u "43.8"))];
    JObj [(u "ccy", JStr (u "USD")); (u "sale", JStr (u "41.5"))] ].

(** A log line. *)
Definition is_log (e : effect) : Prop := exists status, e = LogError status.

(** The integer [t] is what [round] makes of the value [v]: the value
    itself for an [int], a nearest integer for a finite [float]. *)
Definition shown_as (v : json) (t : Z) : Prop :=
  match v with
  | JInt n => t = n
  | JBool b => t = (if b then 1 else 0)%Z
  | JFloat (Fin q) => (Qabs (q - inject_Z t) <= 1 # 2)%Q
  | JFloat NegZero => t = 0%Z
  | _ => False
  end.

(** The first lines of a forecast text. *)
Definition forecast_header (name : pystr) : list frag :=
  [ Lit (u "📅 **Прогноз на 3 дня: "); FStr name; Lit (u "**"); NL; NL ].

(** The loop of [get_forecast] files this item. *)
Definition is_midday_sample (item : json) : bool :=
  match midday_date item with
  | Some _ => true
  | None => false
  end.

(** The [dt_txt] of the item is a string. *)
Definition timed (item : json) : Prop :=
  exists s, Json.get item (u "dt_txt") (JStr []) = Ok (JStr s).

(** The answer of the forecast provider with the series [items]. *)
Definition forecast_answer (items : list json) : http_outcome :=
  Response 200 (Some (JObj [(u "list", JArr items)])).

(** A computation that makes at most [k] requests, whatever the network
    does. *)
Definition asks_at_most (k : nat) {A} (m : M A) : Prop :=
  forall net n, List.length (requests (events (m net n))) <= k.

(** The updates that are answered for every configured location. *)
Definition all_locations (upd : update) : bool :=
  match upd with
  | Weather | Forecast => true
  | Callback data => PyStr.eqb data (u "weather_all") || PyStr.eqb data (u "forecast_all")
  | _ => false
  end.

(** * Properties *)

Arguments u : simpl never.

(** ** The embedding on sample inputs *)

Example u_decodes : u "Кёльн" = [1050; 1105; 1083; 1100; 1085]%N.
Proof. reflexivity. Qed.

Example lower_cyrillic : lower (u "Кёльн!") = u "кёльн!".
Proof. reflexivity. Qed.

Example split_words :
  split_ws (u "/currency  12,5 eur ") = [u "/currency"; u "12,5"; u "eur"].
Proof. reflexivity. Qed.

Example split_once :
  split_ws_max1 (u "a  b c  ") = [u "a"; u "b c  "] /\
  split_ws_max1 (u "  a  ") = [u "a"] /\ split_ws_max1 [] = [].
Proof. repeat split; reflexivity. Qed.

Example split_at_space :
  split_on 32 (u "2024-05-01 12:00:00") = [u "2024-05-01"; u "12:00:00"] /\
  split_on 32 [] = [[]].
Proof. split; reflexivity. Qed.

Example replace_all :
  replace (u "weather_weather_x") (u "weather_") [] = u "x" /\
  replace (u "1,000,5") (u ",") (u ".") = u "1.000.5".
Proof. split; reflexivity. Qed.

Example float_reads :
  Builtins.float_of_str (u " 12.5 ") = Some (Fin (25 # 2)) /\
  Builtins.float_of_str (u "1_000") = Some (Fin 1000) /\
  Builtins.float_of_str (u "-.5e1") = Some (Fin (-5)) /\
  Builtins.float_of_str (u "1E+5") = Some (Fin 100000) /\
  Builtins.float_of_str (u "5.") = Some (Fin 5) /\
  Builtins.float_of_str (u "Infinity") = Some PInf /\
  Builtins.float_of_str (u "-nan") = Some NaN /\
  Builtins.float_of_str (u "-0") = Some NegZero.
Proof. repeat split; vm_compute; reflexivity. Qed.

(** A decimal literal is rounded to binary64: to the nearest number, to an
    infinity, to a zero. *)
Example float_rounds :
  Builtins.float_of_str (u "0.1") = Some (Fin (3602879701896397 # 36028797018963968)) /\
  Builtins.float_of_str (u "99.99999999999999999") = Some (Fin 100) /\
  Builtins.float_of_str (u "1e400") = Some PInf /\
  Builtins.float_of_str (u "1e-400") = Some (Fin 0) /\
  Builtins.float_of_str (u "-1e-400") = Some NegZero /\
  Builtins.float_of_str (u "9007199254740993") = Some (Fin 9007199254740992).
Proof. repeat split; vm_compute; reflexivity. Qed.

(** Digits of other scripts and whitespace beyond ASCII are read; a
    separator character, whitespace for [str.split], is not. *)
Example float_reads_unicode :
  Builtins.float_of_str (u "٣") = Some (Fin 3) /\
  Builtins.float_of_str (u "١٢٣.٥") = Some (Fin (247 # 2)) /\
  Builtins.float_of_str (u "１_０") = Some (Fin 10) /\
  Builtins.float_of_str ([160] ++ u "1" ++ [8195])%N = Some (Fin 1) /\
  Builtins.float_of_str ([28] ++ u "1")%N = None /\
  Builtins.float_of_str (u "1²") = None.
Proof. repeat split; vm_compute; reflexivity. Qed.

Example float_refuses :
  map Builtins.float_of_str
      [ u "abc"; u "1.000.000"; u "."; u "1__0"; u "1_"; u "_1"; u "1._5"; u "+-1";
        u "1e"; u "e5"; u " "; u "- 1"; u "0x10"; u "infinit" ]
  = [None; None; None; None; None; None; None; None; None; None; None; None; None; None].
Proof. vm_compute. reflexivity. Qed.

Example round_ties_to_even :
  map round_half_even [0.5; 1.5; 2.5; -0.5; -1.5; 21.37; -21.6]%Q
  = [0; 2; 2; 0; -2; 21; -22]%Z.
Proof. reflexivity. Qed.

(** ** Strings and dictionaries *)

Lemma eqb_eq (a b : pystr) : PyStr.eqb a b = true <-> a = b.
Proof.
  unfold PyStr.eqb. destruct (list_eq_dec N.eq_dec a b); split; congruence.
Qed.

Lemma eqb_neq (a b : pystr) : PyStr.eqb a b = false <-> a <> b.
Proof.
  unfold PyStr.eqb. destruct (list_eq_dec N.eq_dec a b); split; congruence.
Qed.

Lemma eqb_refl (a : pystr) : PyStr.eqb a a = true.
Proof. now apply eqb_eq. Qed.

Lemma eq_str_true (v : json) (s : pystr) : Json.eq_str v s = true <-> v = JStr s.
Proof.
  destruct v; simpl; split; try congruence.
  - intros H. apply eqb_eq in H. now subst.
  - intros H. injection H as ->. apply eqb_refl.
Qed.

Section DictFacts.
Variable V : Type.
Implicit Types (d : list (pystr * V)) (k : pystr) (v : V).

Lemma dict_get_set_same d k v : dict_get (dict_set d k v) k = Some v.
Proof.
  induction d as [|[k' v'] d IH]; simpl.
  - now rewrite eqb_refl.
  - destruct (PyStr.eqb k' k) eqn:E; simpl; rewrite E; auto.
Qed.

Lemma dict_get_set_other d k k' v :
  k <> k' -> dict_get (dict_set d k v) k' = dict_get d k'.
Proof.
  intros Hne. induction d as [|[k0 v0] d IH]; simpl.
  - apply eqb_neq in Hne. now rewrite Hne.
  - destruct (PyStr.eqb k0 k) eqn:E; simpl.
    + apply eqb_eq in E. subst k0. apply eqb_neq in Hne. now rewrite Hne.
    + destruct (PyStr.eqb k0 k'); auto.
Qed.
End DictFacts.

(** ** The rate provider client *)

Lemma get_exchange_rates_run (net : network) (n : nat) :
  get_exchange_rates net n =
  match net n with
  | NetworkError =>
    Run [Request RatesAPI None None; LogError None] (S n) (Ok EXCHANGE_RATES)
  | Response status body =>
    if (status =? 200)%Z then
      match rbind (response_json body) read_rates with
      | Ok r => Run [Request RatesAPI None None] (S n) (Ok r)
      | Raise _ =>
        Run [Request RatesAPI None None; LogError None] (S n) (Ok EXCHANGE_RATES)
      end
    else
      Run [Request RatesAPI None None; LogError (Some status)] (S n) (Ok EXCHANGE_RATES)
  end.
Proof.
  unfold get_exchange_rates, catch, bind, http_get, lift, raise, emit, ret; simpl.
  destruct (net n) as [|status body]; simpl; [reflexivity|].
  destruct (status =? 200)%Z; simpl; [|reflexivity].
  destruct body as [data|]; simpl; [|reflexivity].
  destruct (read_rates data); reflexivity.
Qed.

(** [get_exchange_rates] never raises, whatever the network does. *)
Lemma get_exchange_rates_total (net : network) (n : nat) :
  exists r, value (get_exchange_rates net n) = Ok r.
Proof.
  rewrite get_exchange_rates_run.
  destruct (net n) as [|status body]; simpl; eauto.
  destruct (status =? 200)%Z; simpl; eauto.
  destruct (rbind (response_json body) read_rates); simpl; eauto.
Qed.

(** A quotation list without an entry for EUR leaves the fresh dictionary as
    it is, unless the scan raises. *)
Lemma scan_items_no_eur (items : list json) (acc : rates) :
  (forall item, In item items -> Json.get item (u "ccy") JNull <> Ok (JStr (u "EUR"))) ->
  scan_items acc items = Ok acc \/ exists e, scan_items acc items = Raise e.
Proof.
  revert acc. induction items as [|item items IH]; intros acc H; simpl.
  - now left.
  - assert (Hi := H item (or_introl eq_refl)).
    unfold scan_item. destruct (Json.get item (u "ccy") JNull) as [ccy|e] eqn:E; simpl.
    + destruct (Json.eq_str ccy (u "EUR")) eqn:Es.
      * apply eq_str_true in Es. subst ccy. now elim Hi.
      * simpl. apply IH. intros x Hx. apply H. now right.
    + right. now exists e.
Qed.

(** On every failed fetch -- no answer, a status other than 200, an
    unreadable body, an exception raised while the body is read, or a list
    with no entry whose currency code is EUR -- [get_exchange_rates] raises
    nothing and returns the dictionary [EXCHANGE_RATES]. *)
Lemma get_exchange_rates_fallback (net : network) (n : nat) :
  rate_fetch_failed (net n) ->
  value (get_exchange_rates net n) = Ok EXCHANGE_RATES.
Proof.
  intros H. rewrite get_exchange_rates_run.
  inversion H as [Hn | status body Hs Hn | Hn | data e He Hn | items Hi Hn]; simpl.
  - reflexivity.
  - destruct (Z.eqb_spec status 200) as [->|_]; [now elim Hs | reflexivity].
  - reflexivity.
  - now rewrite He.
  - unfold read_rates; simpl.
    destruct (scan_items_no_eur items [(u "EUR", Fin 1); (u "UAH", Fin 44.5)] Hi)
      as [-> | [e ->]]; reflexivity.
Qed.

(** The rate the handlers read from the fallback dictionary is the entry for
    EUR, which is 1.0. *)
Example fallback_quote :
  quote EXCHANGE_RATES = Ok (Fin 1, Fin 1).
Proof. vm_compute. reflexivity. Qed.

(** C2, a defect of the code: the fetch never fails outwardly, but what it
    returns on a failure is not a rate of 44.5 per EUR.  A successful fetch
    stores the quote under EUR and 1.0 under UAH, and that is how every
    reader takes the rate, from the entry for EUR; the fallback dictionary
    carries 1.0 under EUR and its 44.5 under UAH.  With the provider
    answering 503, 100 EUR are converted to 100.0 UAH at a rate of 1.0, and
    the rate view shows 1.0, where a quote of 44.5 gives 4450.0 at 44.5. *)
Theorem fallback_rate_is_one :
  value (get_exchange_rates (always (Response 503 None)) 0) = Ok EXCHANGE_RATES /\
  rates_get EXCHANGE_RATES (u "EUR") = Fin 1 /\
  cmd_currency (u "/currency 100 EUR") (always (Response 503 None)) 0 =
    Run [ Request RatesAPI None None; LogError (Some 503%Z);
          SendMessage (Msg.converted_eur (Fin 100) (Fin 100) (Fin 1)) markdown None ]
        1 (Ok tt) /\
  sent_texts (events (cmd_currency (u "/currency") (always (Response 503 None)) 0))
    = [Msg.currency_menu (Fin 1) (Fin 1)] /\
  value (get_exchange_rates (always (Response 200 (Some usual_quote))) 0)
    = Ok [(u "EUR", Fin (89 # 2)); (u "UAH", Fin 1)] /\
  cmd_currency (u "/currency 100 EUR") (always (Response 200 (Some usual_quote))) 0 =
    Run [ Request RatesAPI None None;
          SendMessage (Msg.converted_eur (Fin 100) (Fin 4450) (Fin (89 # 2))) markdown None ]
        1 (Ok tt).
Proof. repeat split; vm_compute; reflexivity. Qed.

(** C3, as stated, fails: a successful fetch of a zero quote yields the rate
    0.0, and the currency view then divides by it. *)
Lemma eur_rate_not_always_positive :
  value (get_exchange_rates (always (Response 200 (Some zero_quote))) 0)
    = Ok [(u "EUR", Fin 0); (u "UAH", Fin 1)] /\
  positive (rates_get [(u "EUR", Fin 0); (u "UAH", Fin 1)] (u "EUR")) = false /\
  value (process_callback CITIES (u "currency") (always (Response 200 (Some zero_quote))) 0)
    = Raise ZeroDivisionError.
Proof. repeat split; vm_compute; reflexivity. Qed.

(** A quote too small for a float is read as 0.0, with the same end. *)
Example tiny_quote_underflows :
  value (get_exchange_rates (always (Response 200 (Some tiny_quote))) 0)
    = Ok [(u "EUR", Fin 0); (u "UAH", Fin 1)] /\
  value (cmd_currency (u "/currency 100 UAH") (always (Response 200 (Some tiny_quote))) 0)
    = Raise ZeroDivisionError.
Proof. split; vm_compute; reflexivity. Qed.

(** A fetch that fails after a zero quote falls back like any other: the
    entry after the quote is not a dictionary, the scan raises, and the rate
    read is the 1.0 of the fallback dictionary. *)
Example fallback_after_zero_quote :
  value (get_exchange_rates
           (always (Response 200 (Some
              (JArr [JObj [(u "ccy", JStr (u "EUR")); (u "sale", JStr (u "0"))]; JInt 5]))))
           0)
    = Ok EXCHANGE_RATES /\
  positive (rates_get EXCHANGE_RATES (u "EUR")) = true.
Proof. split; vm_compute; reflexivity. Qed.

Lemma eur_neq_uah : u "EUR" <> u "UAH".
Proof. discriminate. Qed.

Lemma scan_items_app (acc : rates) (a b : list json) :
  scan_items acc (a ++ b) = rbind (scan_items acc a) (fun acc' => scan_items acc' b).
Proof.
  revert acc. induction a as [|x a IH]; intros acc; simpl; [reflexivity|].
  destruct (scan_item acc x); simpl; auto.
Qed.

Lemma scan_item_two_keys (acc acc' : rates) (item : json) :
  (exists a b, acc = [(u "EUR", a); (u "UAH", b)]) ->
  scan_item acc item = Ok acc' ->
  exists a b, acc' = [(u "EUR", a); (u "UAH", b)].
Proof.
  intros (a & b & ->). unfold scan_item.
  destruct (Json.get item (u "ccy") JNull) as [ccy|]; simpl; [|discriminate].
  destruct (Json.eq_str ccy (u "EUR")).
  - destruct (Json.get item (u "sale") (JStr (u "44.5"))) as [sale|]; simpl; [|discriminate].
    destruct (Builtins.float sale) as [f|]; simpl; [|discriminate].
    intros H. injection H as <-. now exists f, (Fin 1).
  - intros H. injection H as <-. now exists a, b.
Qed.

Lemma scan_items_two_keys (items : list json) (acc acc' : rates) :
  (exists a b, acc = [(u "EUR", a); (u "UAH", b)]) ->
  scan_items acc items = Ok acc' ->
  exists a b, acc' = [(u "EUR", a); (u "UAH", b)].
Proof.
  revert acc. induction items as [|x items IH]; intros acc Hacc H; simpl in H.
  - injection H as <-. exact Hacc.
  - destruct (scan_item acc x) as [acc1|] eqn:E; simpl in H; [|discriminate].
    apply (IH acc1); auto. eapply scan_item_two_keys; eauto.
Qed.

Lemma scan_item_eur (acc : rates) (item sale : json) (f : pyfloat) :
  Json.get item (u "ccy") JNull = Ok (JStr (u "EUR")) ->
  Json.get item (u "sale") (JStr (u "44.5")) = Ok sale ->
  Builtins.float sale = Ok f ->
  scan_item acc item = Ok (dict_set (dict_set acc (u "EUR") f) (u "UAH") (Fin 1)).
Proof.
  intros Hccy Hsale Hf. unfold scan_item. rewrite Hccy. cbn [rbind].
  change (Json.eq_str (JStr (u "EUR")) (u "EUR")) with true. cbv iota.
  rewrite Hsale. cbn [rbind]. rewrite Hf. reflexivity.
Qed.

(** A list has no entry for EUR, or a last one. *)
Lemma last_eur_entry (items : list json) :
  (forall x, In x items -> ~ quotes_eur x) \/
  exists before item after,
    items = before ++ item :: after /\ quotes_eur item /\
    forall x, In x after -> ~ quotes_eur x.
Proof.
  induction items as [|x items [IH | (before & item & after & -> & Hq & Ha)]].
  - left. intros x [].
  - assert (Hx : quotes_eur x \/ ~ quotes_eur x).
    { unfold quotes_eur. destruct (Json.get x (u "ccy") JNull) as [ccy|e].
      - destruct (Json.eq_str ccy (u "EUR")) eqn:E.
        + left. apply eq_str_true in E. now subst.
        + right. intros H. injection H as ->. discriminate E.
      - right. discriminate. }
    destruct Hx as [Hx | Hx].
    + right. exists [], x, items. auto.
    + left. intros y [<- | Hy]; auto.
  - right. exists (x :: before), item, after. auto.
Qed.

(** The dictionary a scan leaves when it ends without an exception: the
    quote of the last entry for EUR, read as a float, with 1.0 for UAH. *)
Lemma scan_items_last (before after : list json) (item : json) (r : rates) :
  quotes_eur item ->
  (forall x, In x after -> ~ quotes_eur x) ->
  scan_items [(u "EUR", Fin 1); (u "UAH", Fin 44.5)] (before ++ item :: after) = Ok r ->
  exists sale f,
    Json.get item (u "sale") (JStr (u "44.5")) = Ok sale /\
    Builtins.float sale = Ok f /\
    r = [(u "EUR", f); (u "UAH", Fin 1)].
Proof.
  intros Hq Hafter Hr. rewrite scan_items_app in Hr.
  destruct (scan_items [(u "EUR", Fin 1); (u "UAH", Fin 44.5)] before) as [acc|] eqn:Eb;
    cbn [rbind] in Hr; [|discriminate].
  destruct (@scan_items_two_keys before _ acc (ex_intro _ _ (ex_intro _ _ eq_refl)) Eb)
    as (a & b & ->).
  cbn [scan_items] in Hr.
  destruct (Json.get item (u "sale") (JStr (u "44.5"))) as [sale|e] eqn:Es.
  2:{ unfold scan_item in Hr. rewrite Hq in Hr. cbn [rbind] in Hr.
      change (Json.eq_str (JStr (u "EUR")) (u "EUR")) with true in Hr. cbv iota in Hr.
      rewrite Es in Hr. discriminate Hr. }
  destruct (Builtins.float sale) as [f|e] eqn:Ef.
  2:{ unfold scan_item in Hr. rewrite Hq in Hr. cbn [rbind] in Hr.
      change (Json.eq_str (JStr (u "EUR")) (u "EUR")) with true in Hr. cbv iota in Hr.
      rewrite Es in Hr. cbn [rbind] in Hr. rewrite Ef in Hr. discriminate Hr. }
  rewrite (scan_item_eur _ _ Hq Es Ef) in Hr. cbn [rbind] in Hr.
  change (dict_set (dict_set [(u "EUR", a); (u "UAH", b)] (u "EUR") f) (u "UAH") (Fin 1))
    with [(u "EUR", f); (u "UAH", Fin 1)] in Hr.
  exists sale, f. split; [reflexivity | split; [exact Ef|]].
  destruct (scan_items_no_eur after [(u "EUR", f); (u "UAH", Fin 1)] Hafter)
    as [E | [e E]]; rewrite E in Hr; [now injection Hr as <- | discriminate].
Qed.

(** C3, amended: [get_exchange_rates] always returns a dictionary, and the
    rate the handlers read from it under EUR is strictly positive unless
    the answer is a quotation list that is read without an exception and
    whose last entry for EUR carries a quote that, read as a float, is not
    strictly positive.  In particular the rate is strictly positive on
    every failed fetch, also one that fails after a quote that is not. *)
Theorem eur_rate_positive (net : network) (n : nat) :
  exists r, value (get_exchange_rates net n) = Ok r /\
            (positive (rates_get r (u "EUR")) = false <-> last_quote_not_positive (net n)).
Proof.
  rewrite get_exchange_rates_run.
  assert (Hfb : forall o, ~ (exists data r, o = Response 200 (Some data) /\ read_rates data = Ok r) ->
            positive (rates_get EXCHANGE_RATES (u "EUR")) = false <-> last_quote_not_positive o).
  { intros o Ho. split; [discriminate|].
    intros (data & before & item & after & sale & f & r & -> & _ & Hr & _).
    elim Ho. now exists data, r. }
  destruct (net n) as [|status body] eqn:En.
  - exists EXCHANGE_RATES. split; [reflexivity|]. apply Hfb.
    intros (data & r & H & _). discriminate H.
  - destruct (Z.eqb_spec status 200) as [->|Hs].
    2:{ exists EXCHANGE_RATES. split; [reflexivity|]. apply Hfb.
        intros (data & r & H & _). injection H as H _. now elim Hs. }
    destruct body as [data|].
    2:{ exists EXCHANGE_RATES. split; [reflexivity|]. apply Hfb.
        intros (data & r & H & _). discriminate H. }
    cbn [response_json rbind].
    destruct (read_rates data) as [r|e] eqn:Er.
    2:{ exists EXCHANGE_RATES. split; [reflexivity|]. apply Hfb.
        intros (data' & r & H & Hr). injection H as <-. rewrite Er in Hr. discriminate Hr. }
    exists r. split; [reflexivity|].
    pose proof Er as Er'. unfold read_rates in Er'.
    destruct (Json.iter data) as [items|] eqn:Ei; cbn [rbind] in Er'; [|discriminate].
    split.
    + intros Hp. destruct (last_eur_entry items) as [Hno | (before & item & after & -> & Hq & Ha)].
      * destruct (scan_items_no_eur items [(u "EUR", Fin 1); (u "UAH", Fin 44.5)] Hno)
          as [E | [e E]]; rewrite E in Er'; [|discriminate].
        injection Er' as <-. discriminate Hp.
      * destruct (scan_items_last _ _ Hq Ha Er') as (sale & f & Hs & Hf & ->).
        exists data, before, item, after, sale, f, [(u "EUR", f); (u "UAH", Fin 1)].
        repeat split; auto.
    + intros (data' & before & item & after & sale & f & r' & H & Hi & _ & Hq & Ha & Hs & Hf & Hp).
      injection H as <-. rewrite Ei in Hi. injection Hi as ->.
      destruct (scan_items_last _ _ Hq Ha Er') as (sale' & f' & Hs' & Hf' & ->).
      rewrite Hs in Hs'. injection Hs' as <-. rewrite Hf in Hf'. injection Hf' as <-.
      exact Hp.
Qed.

Lemma eur_rate_positive_witness :
  exists r, value (get_exchange_rates (always (Response 200 (Some tiny_quote))) 0) = Ok r /\
            positive (rates_get r (u "EUR")) = false.
Proof.
  destruct (eur_rate_positive (always (Response 200 (Some tiny_quote))) 0) as (r & Hr & Hiff).
  exists r. split; [exact Hr|]. apply Hiff.
  exists tiny_quote, [],
    (JObj [(u "ccy", JStr (u "EUR")); (u "buy", JStr (u "1e-400"));
           (u "sale", JStr (u "1e-400"))]),
    [], (JStr (u "1e-400")), (Fin 0), [(u "EUR", Fin 0); (u "UAH", Fin 1)].
  repeat split; try (vm_compute; reflexivity). intros x [].
Defined.

(** ** The weather provider client *)

Lemma get_weather_run (c : city) (net : network) (n : nat) :
  get_weather c net n =
  let req := Request WeatherAPI (Some (city_lat c)) (Some (city_lon c)) in
  match net n with
  | NetworkError => Run [req] (S n) (Raise ClientError)
  | Response status body =>
    if (status =? 200)%Z then
      Run [req] (S n)
        (rbind (response_json body)
               (fun data => rbind (Json.setitem data (u "name") (JStr (city_name c)))
                                  (fun data' => Ok (Some data'))))
    else Run [req; LogError (Some status)] (S n) (Ok None)
  end.
Proof.
  unfold get_weather, bind, http_get, lift, raise, emit, ret; simpl.
  destruct (net n) as [|status body]; simpl; [reflexivity|].
  destruct (status =? 200)%Z; simpl; [|reflexivity].
  destruct body as [data|]; simpl; [|reflexivity].
  destruct (Json.setitem data (u "name") (JStr (city_name c))); reflexivity.
Qed.

(** On a status other than 200 [get_weather] logs and returns nothing. *)
Lemma get_weather_bad_status (c : city) (net : network) (n : nat) status body :
  net n = Response status body -> status <> 200%Z ->
  get_weather c net n =
  Run [Request WeatherAPI (Some (city_lat c)) (Some (city_lon c)); LogError (Some status)]
      (S n) (Ok None).
Proof.
  intros Hn Hs. rewrite get_weather_run, Hn. simpl.
  destruct (Z.eqb_spec status 200); [contradiction | reflexivity].
Qed.

(** C1 at the failing input, a network that does not answer: [get_weather]
    has no handler around its request, so the error leaves it; [cmd_weather]
    ends with that error after the loading notice, with no reply for any
    location, and [cmd_city] ends with it before any reply. *)
Theorem get_weather_network_error_propagates :
  (forall c n,
     get_weather c (always NetworkError) n =
     Run [Request WeatherAPI (Some (city_lat c)) (Some (city_lon c))] (S n)
         (Raise ClientError)) /\
  cmd_weather CITIES (always NetworkError) 0 =
    Run [SendMessage (Msg.loading_weather_all 7) None None;
         Request WeatherAPI (Some 50.9375%Q) (Some 6.9603%Q)] 1 (Raise ClientError) /\
  cmd_city CITIES (u "/city Кёльн") (always NetworkError) 0 =
    Run [Request WeatherAPI (Some 50.9375%Q) (Some 6.9603%Q)] 1 (Raise ClientError).
Proof.
  split; [|split].
  - intros c n. now rewrite get_weather_run.
  - reflexivity.
  - reflexivity.
Qed.

(** ** Runs of the handler monad *)

Lemma sent_texts_app (a b : list effect) :
  sent_texts (a ++ b) = sent_texts a ++ sent_texts b.
Proof.
  induction a as [|e a IH]; simpl; auto.
  destruct e; simpl; auto. now rewrite IH.
Qed.

Lemma bind_run {A B} (m : M A) (f : A -> M B) net n es k a :
  m net n = Run es k (Ok a) ->
  bind m f net n =
  Run (es ++ events (f a net k)) (calls (f a net k)) (value (f a net k)).
Proof. intros H. unfold bind. now rewrite H. Qed.

(** ** weather_all: one reply per location *)

Lemma setitem_truthy (data data' : json) k x :
  Json.setitem data k x = Ok data' -> Json.truthy data' = true.
Proof.
  destruct data; simpl; try discriminate.
  intros H. injection H as <-. simpl.
  destruct kv as [|[k' v'] kv]; simpl; auto.
  destruct (PyStr.eqb k' k); auto.
Qed.

Lemma fetched_all_length net cs n ts :
  fetched_all net cs n ts -> List.length ts = List.length cs.
Proof. induction 1; simpl; auto. Qed.

(** A timestamp of the years 1 to 9999 is shown. *)
Lemma clock_int (dt : Z) :
  (datetime_min <= dt <= datetime_max)%Z -> clock (JInt dt) = Ok (FClock (JInt dt)).
Proof.
  unfold datetime_min, datetime_max. intros H. unfold clock, timestamp.
  destruct ((dt <? - 2 ^ 63) || (2 ^ 63 - 1 <? dt))%Z eqn:E.
  - apply orb_true_iff in E. destruct E as [E | E]; apply Z.ltb_lt in E; lia.
  - cbn [rbind]. unfold localtime, localtime_min, localtime_max, datetime_min, datetime_max.
    destruct ((dt <? -67768040609740800) || (67768036191676799 <? dt))%Z eqn:E1.
    + apply orb_true_iff in E1. destruct E1 as [E1 | E1]; apply Z.ltb_lt in E1; lia.
    + destruct ((dt <? -62135510400) || (253402300799 <? dt))%Z eqn:E2; [|reflexivity].
      apply orb_true_iff in E2. destruct E2 as [E2 | E2]; apply Z.ltb_lt in E2; lia.
Qed.

(** A well-formed answer with status 200 is a present one: it is rendered
    under the configured name of the location. *)
Lemma fetch_well_formed (c : city) name description icon temp feels_like humidity
    pressure speed dt :
  (datetime_min <= dt <= datetime_max)%Z ->
  fetch c
    (Response 200 (Some (weather_body name description icon temp feels_like humidity
                                      pressure speed dt)))
    (Text
      [ FStr (emoji_for icon); Lit (u " **Погода в городе "); FVal (JStr (city_name c));
        Lit (u "**"); NL; NL;
        Lit (u "🌡️ Температура: "); FVal temp;
        Lit (u "°C (ощущается как "); FVal feels_like; Lit (u "°C)"); NL;
        Lit (u "📝 Описание: "); FCapitalize description; NL;
        Lit (u "💧 Влажность: "); FVal humidity; Lit (u "%"); NL;
        Lit (u "🔽 Давление: "); FVal pressure; Lit (u " гПа"); NL;
        Lit (u "💨 Ветер: "); FVal speed; Lit (u " м/с"); NL;
        Lit (u "🕒 Обновлено: "); FClock (JInt dt) ]).
Proof.
  intros H. eapply fetch_present; [reflexivity|].
  match goal with
  | |- format_weather ?d = Ok (Text ?fs) =>
    transitivity (rbind (clock (JInt dt))
                        (fun updated => Ok (Text (removelast fs ++ [updated]))));
      [reflexivity|]
  end.
  now rewrite (clock_int H).
Qed.

Lemma weather_step (c : city) (name : pystr) (markup : option keyboard) net n t :
  fetch c (net n) t ->
  name = city_name c ->
  exists es,
    bind (get_weather c) (fun weather_data => reply_weather name markup weather_data)
         net n = Run es (S n) (Ok tt) /\
    sent_texts es = [t].
Proof.
  intros H ->. inversion H as [data data' t' Hset Hfmt Hn | status body Hs Hn]; subst.
  - eexists. split.
    + erewrite bind_run.
      2:{ rewrite get_weather_run, <- Hn. simpl. rewrite Hset. simpl. reflexivity. }
      unfold reply_weather. rewrite (setitem_truthy _ _ _ Hset).
      unfold bind, lift, answer, emit. rewrite Hfmt. simpl. reflexivity.
    + reflexivity.
  - eexists. split.
    + erewrite bind_run.
      2:{ symmetry in Hn. apply (get_weather_bad_status c net n Hn Hs). }
      simpl. reflexivity.
    + reflexivity.
Qed.

Lemma weather_loop (markup : city -> option keyboard) net cs n ts :
  fetched_all net cs n ts ->
  exists es,
    for_each cs (fun c =>
      bind (get_weather c) (fun weather_data =>
        reply_weather (city_name c) (markup c) weather_data)) net n
    = Run es (n + List.length cs) (Ok tt) /\
    sent_texts es = ts.
Proof.
  induction 1 as [n | c cs n t ts Hc Hcs IH]; simpl.
  - exists []. unfold ret. now rewrite Nat.add_0_r.
  - destruct (@weather_step c (city_name c) (markup c) net n t Hc eq_refl) as (es1 & E1 & S1).
    destruct IH as (es2 & E2 & S2).
    exists (es1 ++ es2). split.
    + erewrite bind_run by exact E1. rewrite E2. simpl.
      now rewrite Nat.add_succ_r.
    + rewrite sent_texts_app, S1, S2. reflexivity.
Qed.

(** X23: when every location is answered, with a status other than 200 or
    with status 200 and a body the formatter renders, [cmd_weather] sends,
    after its loading notice, exactly one reply per location -- the
    formatted weather for the latter, the apology naming the location for
    the former -- in the order of the list, and ends normally; the
    [weather_all] button does the same after editing the loading notice
    into the message, and acknowledges. *)
Theorem weather_all_replies (cities : list city) (net : network) (n : nat)
    (replies : list text) :
  fetched_all net cities n replies ->
  List.length replies = List.length cities /\
  sent_texts (events (cmd_weather cities net n))
    = Msg.loading_weather_all (List.length cities) :: replies /\
  value (cmd_weather cities net n) = Ok tt /\
  (exists es,
     events (process_callback cities (u "weather_all") net n)
       = EditMessage (Msg.loading_weather_all (List.length cities)) None
           (Some get_main_keyboard) :: es ++ [AckCallback] /\
     sent_texts es = replies) /\
  value (process_callback cities (u "weather_all") net n) = Ok tt.
Proof.
  intros H. split; [now apply (fetched_all_length H)|].
  destruct (weather_loop (fun _ => None) H) as (es & E & S).
  destruct (weather_loop (fun c => Some (get_forecast_keyboard (city_name c))) H)
    as (es' & E' & S').
  assert (Hcmd : cmd_weather cities net n =
    Run (SendMessage (Msg.loading_weather_all (List.length cities)) None None :: es)
        (n + List.length cities) (Ok tt)).
  { unfold cmd_weather. erewrite bind_run by reflexivity. now rewrite E. }
  assert (Hcb : process_callback cities (u "weather_all") net n =
    Run (EditMessage (Msg.loading_weather_all (List.length cities)) None
           (Some get_main_keyboard) :: es' ++ [AckCallback])
        (n + List.length cities) (Ok tt)).
  { unfold process_callback. rewrite eqb_refl.
    erewrite bind_run by reflexivity.
    erewrite bind_run by exact E'. reflexivity. }
  rewrite Hcmd, Hcb. simpl. rewrite S.
  repeat split; auto. exists es'. now split.
Qed.

Lemma weather_all_replies_witness :
  exists replies,
    List.length replies = 2%nat /\
    sent_texts (events (cmd_weather (firstn 2 CITIES)
                          (scripted [Response 200 (Some observation); Response 404 None]) 0))
      = Msg.loading_weather_all 2 :: replies.
Proof.
  eexists.
  refine (let H := @weather_all_replies (firstn 2 CITIES)
                     (scripted [Response 200 (Some observation); Response 404 None]) 0 _ _ in
          conj (proj1 H) (proj1 (proj2 H))).
  eapply fetched_cons.
  - eapply fetch_present; reflexivity.
  - eapply fetched_cons.
    + apply fetch_absent. discriminate.
    + apply fetched_nil.
Defined.

(** C5, a defect of the code: the failure of one location's fetch can end
    the handler.  With the provider answering 404 for the first location and
    the request for the second failing at the network, [cmd_weather] sends
    its notice and the apology for the first location and ends in the
    exception the second request raised: the second location and the five
    after it get neither a reply nor an apology.  The [weather_all] button
    fares the same and does not acknowledge the press. *)
Theorem weather_all_aborts :
  cmd_weather CITIES
    (scripted [Response 404 None; NetworkError; Response 200 (Some observation)]) 0 =
    Run [ SendMessage (Msg.loading_weather_all 7) None None;
          Request WeatherAPI (Some 50.9375%Q) (Some 6.9603%Q); LogError (Some 404%Z);
          SendMessage (Msg.weather_failed (u "Кёльн")) None None;
          Request WeatherAPI (Some 50.5667%Q) (Some 7.3167%Q) ]
        2 (Raise ClientError) /\
  process_callback CITIES (u "weather_all")
    (scripted [Response 404 None; NetworkError; Response 200 (Some observation)]) 0 =
    Run [ EditMessage (Msg.loading_weather_all 7) None (Some get_main_keyboard);
          Request WeatherAPI (Some 50.9375%Q) (Some 6.9603%Q); LogError (Some 404%Z);
          SendMessage (Msg.weather_failed (u "Кёльн")) None None;
          Request WeatherAPI (Some 50.5667%Q) (Some 7.3167%Q) ]
        2 (Raise ClientError) /\
  List.length CITIES = 7%nat.
Proof. repeat split; vm_compute; reflexivity. Qed.

(** ** Which actions edit a message *)

Create HintDb edits.

Lemma never_edits_ret {A} (a : A) : never_edits (ret a).
Proof. now intros net n. Qed.

Lemma never_edits_raise {A} (e : exn) : never_edits (@raise A e).
Proof. now intros net n. Qed.

Lemma never_edits_lift {A} (r : result A) : never_edits (lift r).
Proof. now intros net n. Qed.

Lemma never_edits_emit (e : effect) : is_edit e = false -> never_edits (emit e).
Proof. intros H net n. simpl. now rewrite H. Qed.

Lemma never_edits_http_get e lat lon : never_edits (http_get e lat lon).
Proof. now intros net n. Qed.

Lemma never_edits_answer t pm mk : never_edits (answer t pm mk).
Proof. now intros net n. Qed.

Lemma never_edits_call_answer : never_edits call_answer.
Proof. now intros net n. Qed.

Lemma never_edits_bind {A B} (m : M A) (f : A -> M B) :
  never_edits m -> (forall a, never_edits (f a)) -> never_edits (bind m f).
Proof.
  intros Hm Hf net n. unfold bind. specialize (Hm net n).
  destruct (value (m net n)) as [a|e]; simpl; auto.
  rewrite existsb_app, Hm. apply Hf.
Qed.

Lemma never_edits_catch {A} (m : M A) (h : exn -> M A) :
  never_edits m -> (forall e, never_edits (h e)) -> never_edits (catch m h).
Proof.
  intros Hm Hh net n. unfold catch. specialize (Hm net n).
  destruct (value (m net n)) as [a|e]; simpl; auto.
  rewrite existsb_app, Hm. apply Hh.
Qed.

Lemma never_edits_for_each {A} (xs : list A) (body : A -> M unit) :
  (forall x, never_edits (body x)) -> never_edits (for_each xs body).
Proof.
  intros H. induction xs as [|x xs IH]; simpl.
  - apply never_edits_ret.
  - apply never_edits_bind; auto.
Qed.

Lemma never_edits_for_until {A} (xs : list A) (body : A -> M bool) :
  (forall x, never_edits (body x)) -> never_edits (for_until xs body).
Proof.
  intros H. induction xs as [|x xs IH]; simpl.
  - apply never_edits_ret.
  - apply never_edits_bind; auto.
    intros [|]; auto. apply never_edits_ret.
Qed.

#[local] Hint Resolve never_edits_ret never_edits_raise never_edits_lift
  never_edits_http_get never_edits_answer never_edits_call_answer
  never_edits_bind never_edits_catch never_edits_for_each never_edits_for_until : edits.

#[local] Hint Extern 1 (never_edits (emit _)) =>
  apply never_edits_emit; reflexivity : edits.

Ltac edits_cases :=
  repeat first
    [ progress auto with edits
    | apply never_edits_bind; [| intro]
    | apply never_edits_for_each; intro
    | apply never_edits_for_until; intro
    | match goal with
      | |- never_edits (match ?x with _ => _ end) => destruct x
      | |- never_edits (if ?b then _ else _) => destruct b
      | |- never_edits (let (_, _) := ?x in _) => destruct x
      end ].

Lemma never_edits_get_weather c : never_edits (get_weather c).
Proof. unfold get_weather. edits_cases. Qed.

Lemma never_edits_get_forecast c : never_edits (get_forecast c).
Proof. unfold get_forecast. edits_cases. Qed.

Lemma never_edits_get_exchange_rates : never_edits get_exchange_rates.
Proof.
  unfold get_exchange_rates. apply never_edits_catch; [|intro]; edits_cases.
Qed.

Lemma never_edits_reply_weather name mk wd : never_edits (reply_weather name mk wd).
Proof. unfold reply_weather. edits_cases. Qed.

Lemma never_edits_reply_forecast a b fd : never_edits (reply_forecast a b fd).
Proof. unfold reply_forecast. edits_cases. Qed.

#[local] Hint Resolve never_edits_get_weather never_edits_get_forecast
  never_edits_get_exchange_rates never_edits_reply_weather
  never_edits_reply_forecast : edits.

Lemma never_edits_cmd_weather cities : never_edits (cmd_weather cities).
Proof. unfold cmd_weather. edits_cases. Qed.

Lemma never_edits_cmd_forecast cities : never_edits (cmd_forecast cities).
Proof. unfold cmd_forecast. edits_cases. Qed.

Lemma never_edits_cmd_city cities t : never_edits (cmd_city cities t).
Proof. unfold cmd_city. edits_cases. Qed.

Lemma never_edits_cmd_currency t : never_edits (cmd_currency t).
Proof. unfold cmd_currency. edits_cases. Qed.




(** ** /city: the lookup *)

(** C7, as stated, fails: the query of [/city Кёльн!], lowercased, is a
    substring of no lowercased location name, and yet the handler selects
    Кёльн, whose lowercased name is a substring of the query, and asks the
    weather provider for it. *)
Lemma city_selected_without_substring_match :
  forallb (fun c => negb (contains (lower (city_name c)) (lower (u "Кёльн!")))) CITIES = true /\
  split_ws_max1 (u "/city Кёльн!") = [u "/city"; u "Кёльн!"] /\
  cmd_city CITIES (u "/city Кёльн!") (always (Response 404 None)) 0 =
    Run [ Request WeatherAPI (Some 50.9375%Q) (Some 6.9603%Q); LogError (Some 404%Z);
          SendMessage (Msg.weather_failed (u "Кёльн")) None None ] 1 (Ok tt).
Proof. repeat split; reflexivity. Qed.

Lemma find_first {A} (f : A -> bool) (before after : list A) (x : A) :
  (forall b, In b before -> f b = false) -> f x = true ->
  find f (before ++ x :: after) = Some x.
Proof.
  intros Hb Hx. induction before as [|b before IH]; simpl.
  - now rewrite Hx.
  - rewrite (Hb b (or_introl eq_refl)). apply IH. intros y Hy. apply Hb. now right.
Qed.

Lemma find_nothing {A} (f : A -> bool) (l : list A) :
  (forall x, In x l -> f x = false) -> find f l = None.
Proof.
  intros H. induction l as [|x l IH]; simpl; auto.
  rewrite (H x (or_introl eq_refl)). apply IH. intros y Hy. apply H. now right.
Qed.

Lemma reply_weather_requests name mk wd net n :
  requests (events (reply_weather name mk wd net n)) = [].
Proof.
  unfold reply_weather. destruct wd as [data|]; [|reflexivity].
  destruct (Json.truthy data); [|reflexivity].
  unfold bind, lift. simpl. destruct (format_weather data); reflexivity.
Qed.

Lemma weather_one_requests (c : city) name mk net n :
  requests (events (bind (get_weather c) (fun wd => reply_weather name mk wd) net n))
  = [Request WeatherAPI (Some (city_lat c)) (Some (city_lon c))].
Proof.
  unfold bind. rewrite get_weather_run.
  destruct (net n) as [|status body]; simpl; [reflexivity|].
  destruct (status =? 200)%Z; simpl.
  - destruct (rbind (response_json body) _) as [wd|e]; simpl; [|reflexivity].
    f_equal. apply reply_weather_requests.
  - reflexivity.
Qed.

(** C7, amended: [/city] selects the first location of the list, in list
    order, for which the lowercased query is a substring of the lowercased
    name or the lowercased name is a substring of the lowercased query, and
    makes exactly one request, for that location; when no location matches
    in either direction it replies "not found" and makes no request. *)
Theorem city_lookup (cities : list city) (message_text cmd arg : pystr)
    (rest : list pystr) (net : network) (n : nat) :
  split_ws_max1 message_text = cmd :: arg :: rest ->
  ((forall c, In c cities ->
      contains (lower (city_name c)) (lower arg) = false /\
      contains (lower arg) (lower (city_name c)) = false) ->
   cmd_city cities message_text net n =
   Run [SendMessage (Msg.city_not_found arg) None None] n (Ok tt)) /\
  (forall before c after,
     cities = before ++ c :: after ->
     (forall b, In b before ->
        contains (lower (city_name b)) (lower arg) = false /\
        contains (lower arg) (lower (city_name b)) = false) ->
     contains (lower (city_name c)) (lower arg) = true \/
     contains (lower arg) (lower (city_name c)) = true ->
     cmd_city cities message_text net n =
       bind (get_weather c) (fun wd => reply_weather (city_name c) None wd) net n /\
     requests (events (cmd_city cities message_text net n)) =
       [Request WeatherAPI (Some (city_lat c)) (Some (city_lon c))]).
Proof.
  intros Hs. split.
  - intros Hno. unfold cmd_city. rewrite Hs.
    rewrite find_nothing; [reflexivity|].
    intros c Hc. destruct (Hno c Hc) as [H1 H2]. unfold city_matches.
    now rewrite H1, H2.
  - intros before c after -> Hb Hc.
    assert (E : cmd_city (before ++ c :: after) message_text net n =
                bind (get_weather c) (fun wd => reply_weather (city_name c) None wd) net n).
    { unfold cmd_city. rewrite Hs. rewrite find_first; [reflexivity| |].
      - intros b Hin. destruct (Hb b Hin) as [H1 H2]. unfold city_matches.
        now rewrite H1, H2.
      - unfold city_matches. apply orb_true_iff. exact Hc. }
    split; [exact E|]. rewrite E. apply weather_one_requests.
Qed.

Lemma city_lookup_witness :
  cmd_city CITIES (u "/city берлин") (always NetworkError) 0 =
    Run [SendMessage (Msg.city_not_found (u "берлин")) None None] 0 (Ok tt) /\
  requests (events (cmd_city CITIES (u "/city  ЛИНЦ") (always NetworkError) 0)) =
    [Request WeatherAPI (Some 50.5667%Q) (Some 7.3167%Q)].
Proof.
  split.
  - apply (proj1 (@city_lookup CITIES (u "/city берлин") (u "/city") (u "берлин") []
                    (always NetworkError) 0%nat eq_refl)).
    intros c Hc. simpl in Hc.
    repeat (destruct Hc as [<- | Hc]; [split; reflexivity|]). destruct Hc.
  - apply (proj2 (@city_lookup CITIES (u "/city  ЛИНЦ") (u "/city") (u "ЛИНЦ") []
                    (always NetworkError) 0%nat eq_refl)
             [(u "Кёльн", 50.9375, 6.9603)%Q] (u "Линц-ам-Райн", 50.5667, 7.3167)%Q
             (skipn 2 CITIES) eq_refl).
    + intros b [<- | []]. split; reflexivity.
    + left. reflexivity.
Defined.

(** ** /currency: the arguments *)

Lemma startswith_nil (s : pystr) : startswith s [] = true.
Proof. now destruct s. Qed.

Lemma replace_fuel_char (a b : N) (s : pystr) (fuel : nat) :
  (List.length s <= fuel)%nat ->
  replace_fuel fuel [a] [b] s = map (fun c => if (c =? a)%N then b else c) s.
Proof.
  revert s. induction fuel as [|fuel IH]; intros s Hlen.
  - destruct s; [reflexivity | simpl in Hlen; lia].
  - destruct s as [|c s]; [reflexivity|]. simpl in Hlen.
    simpl. rewrite startswith_nil, andb_true_r, N.eqb_sym.
    destruct (c =? a)%N; simpl; rewrite IH by lia; reflexivity.
Qed.

Lemma replace_char (a b : N) (s : pystr) :
  replace s [a] [b] = map (fun c => if (c =? a)%N then b else c) s.
Proof. unfold replace. now apply replace_fuel_char. Qed.

Lemma rates_request_count (net : network) (n : nat) :
  calls (get_exchange_rates net n) = S n.
Proof.
  rewrite get_exchange_rates_run.
  destruct (net n) as [|status body]; simpl; auto.
  destruct (status =? 200)%Z; simpl; auto.
  destruct (rbind (response_json body) read_rates); simpl; auto.
Qed.

(** A run of digits is read to its end, or up to a character that is
    neither a digit nor an underscore. *)
Lemma digitpart_digits (s rest : pystr) (acc : Z) (n : nat) :
  forallb Builtins.is_digit s = true ->
  match rest with
  | [] => True
  | c :: _ => Builtins.is_digit c = false /\ c <> 95%N
  end ->
  Builtins.digitpart (s ++ rest) acc n
  = (fold_left (fun a c => (a * 10 + Builtins.digit_val c)%Z) s acc,
     (n + List.length s)%nat, rest).
Proof.
  intros Hs Hr. revert acc n. induction s as [|c s IH]; intros acc n.
  - cbn [app fold_left List.length]. rewrite Nat.add_0_r.
    destruct rest as [|c rest]; [reflexivity|]. destruct Hr as [Hd Hu].
    cbn [Builtins.digitpart]. rewrite Hd.
    apply N.eqb_neq in Hu. now rewrite Hu.
  - cbn [forallb] in Hs. apply andb_true_iff in Hs. destruct Hs as [Hc Hs].
    cbn [app Builtins.digitpart fold_left List.length]. rewrite Hc, (IH Hs).
    now rewrite Nat.add_succ_r.
Qed.

Lemma digit_is_ascii (c : N) : Builtins.is_digit c = true -> Builtins.to_ascii c = c.
Proof.
  unfold Builtins.is_digit, Builtins.to_ascii. intros H.
  apply andb_true_iff in H. destruct H as [_ H]. apply N.leb_le in H.
  destruct (N.ltb_spec c 127) as [_|H']; [reflexivity | lia].
Qed.

Lemma digits_are_ascii (s : pystr) :
  forallb Builtins.is_digit s = true -> map Builtins.to_ascii s = s.
Proof.
  induction s as [|c s IH]; [reflexivity|]. cbn [forallb map]. intros H.
  apply andb_true_iff in H. destruct H as [Hc Hs].
  now rewrite (digit_is_ascii _ Hc), (IH Hs).
Qed.

Lemma digit_not_space (c : N) :
  Builtins.is_digit c = true -> Builtins.is_ascii_space c = false.
Proof.
  unfold Builtins.is_digit, Builtins.is_ascii_space. intros H.
  apply andb_true_iff in H. destruct H as [H1 H2].
  apply N.leb_le in H1, H2.
  destruct (N.leb_spec c 13); [lia|]. rewrite andb_false_r. cbn [orb].
  apply N.eqb_neq. lia.
Qed.

Lemma lstrip_ascii_head (c : N) (s : pystr) :
  Builtins.is_ascii_space c = false -> Builtins.lstrip_ascii (c :: s) = c :: s.
Proof. intros H. cbn [Builtins.lstrip_ascii]. now rewrite H. Qed.

(** A string that neither starts nor ends with whitespace is its own
    [strip]. *)
Lemma strip_tight (a b : N) (s : pystr) :
  Builtins.is_ascii_space a = false -> Builtins.is_ascii_space b = false ->
  Builtins.strip (a :: s ++ [b]) = a :: s ++ [b].
Proof.
  intros Ha Hb. unfold Builtins.strip. rewrite (@lstrip_ascii_head a _ Ha).
  change (a :: s ++ [b]) with ((a :: s) ++ [b]). rewrite rev_app_distr.
  cbn [rev app]. rewrite (@lstrip_ascii_head b _ Hb).
  change (b :: rev s ++ [a]) with ([b] ++ rev (a :: s)).
  now rewrite rev_app_distr, rev_involutive.
Qed.

Lemma replace_no_comma (s : pystr) :
  forallb Builtins.is_digit s = true -> map (fun c => if (c =? 44)%N then 46%N else c) s = s.
Proof.
  induction s as [|c s IH]; [reflexivity|]. cbn [forallb map]. intros H.
  apply andb_true_iff in H. destruct H as [Hc Hs]. rewrite (IH Hs).
  unfold Builtins.is_digit in Hc. apply andb_true_iff in Hc. destruct Hc as [Hc _].
  apply N.leb_le in Hc. destruct (N.eqb_spec c 44); [lia | reflexivity].
Qed.

(** An amount written with a comma between two runs of digits is read as
    the float nearest to the decimal number. *)
Lemma float_of_comma (ip fp : pystr) :
  forallb Builtins.is_digit ip = true -> forallb Builtins.is_digit fp = true ->
  ip <> [] ->
  Builtins.float_of_str (replace (ip ++ u "," ++ fp) (u ",") (u "."))
  = Some (of_Q (decimal_number ip fp)).
Proof.
  intros Hi Hf Hne.
  change (u ",") with [44%N]. change (u ".") with [46%N].
  rewrite replace_char, !map_app, (replace_no_comma _ Hi), (replace_no_comma _ Hf).
  cbn [map N.eqb Pos.eqb app].
  unfold Builtins.float_of_str.
  rewrite map_app. cbn [map]. rewrite (digits_are_ascii _ Hi), (digits_are_ascii _ Hf).
  change (Builtins.to_ascii 46) with 46%N.
  destruct ip as [|a ip]; [now elim Hne|].
  cbn [forallb] in Hi. apply andb_true_iff in Hi. destruct Hi as [Ha Hi].
  pose proof Ha as Ha'. unfold Builtins.is_digit in Ha'.
  apply andb_true_iff in Ha'. destruct Ha' as [H1 H2]. apply N.leb_le in H1, H2.
  cbn [app].
  assert (Hstrip : Builtins.strip (a :: ip ++ 46%N :: fp) = a :: ip ++ 46%N :: fp).
  { destruct (@exists_last _ (ip ++ 46%N :: fp)) as (s & b & E).
    { destruct ip; discriminate. }
    rewrite E. apply strip_tight; [now apply digit_not_space|].
    assert (Hb : In b (ip ++ 46%N :: fp)) by (rewrite E; apply in_or_app; right; now left).
    apply in_app_or in Hb. destruct Hb as [Hb | Hb].
    - apply digit_not_space. now apply (proj1 (forallb_forall _ _) Hi).
    - destruct Hb as [<- | Hb]; [reflexivity|].
      apply digit_not_space. now apply (proj1 (forallb_forall _ _) Hf). }
  rewrite Hstrip.
  assert (Hsign : Builtins.sign (a :: ip ++ 46%N :: fp) = (false, a :: ip ++ 46%N :: fp)).
  { cbn [Builtins.sign]. destruct a as [|p]; [lia|].
    do 6 (destruct p as [p|p|]; try reflexivity); lia. }
  rewrite Hsign.
  assert (Hlow : forall x w, x <> a ->
                 PyStr.eqb (lower (a :: ip ++ 46%N :: fp)) (x :: w) = false).
  { intros x w Hx. apply eqb_neq. intros E. apply Hx.
    cbn [lower map] in E. injection E as E _. rewrite <- E. unfold lower_cp.
    destruct (N.leb_spec 65 a); [lia|]. cbn [andb].
    destruct (N.leb_spec 192 a); [lia|]. cbn [andb].
    destruct (N.leb_spec 913 a); [lia|]. cbn [andb].
    destruct (N.leb_spec 1024 a); [lia|]. cbn [andb].
    destruct (N.leb_spec 1040 a); [lia|]. reflexivity. }
  change (u "inf") with (105 :: u "nf")%N. change (u "infinity") with (105 :: u "nfinity")%N.
  change (u "nan") with (110 :: u "an")%N.
  rewrite !Hlow by lia.
  cbn [orb]. unfold Builtins.decimal.
  assert (Hall : forallb Builtins.is_digit (a :: ip) = true).
  { cbn [forallb]. now rewrite Ha, Hi. }
  change (a :: ip ++ 46%N :: fp) with ((a :: ip) ++ 46%N :: fp).
  rewrite (@digitpart_digits (a :: ip) (46%N :: fp) 0%Z O Hall)
    by (split; [reflexivity | discriminate]).
  replace fp with (fp ++ []) at 1 by apply app_nil_r.
  rewrite (@digitpart_digits fp [] 0%Z O Hf I).
  fold (number (a :: ip)). fold (number fp).
  cbn [List.length Nat.add].
  cbn [Builtins.exponent signed]. unfold decimal_number.
  now rewrite Z.sub_0_l.
Qed.



(** The two directions of the inferred conversion, with a quote of 44.5: the
    quotient and the inverse rate are rounded to binary64. *)
Example currency_inferred :
  sent_texts (events (cmd_currency (u "/currency 1000")
                        (always (Response 200 (Some usual_quote))) 0))
    = [Msg.converted_uah (Fin 1000) (Fin (790660046940045 # 35184372088832))
                         (Fin (404817944033303 # 18014398509481984))] /\
  sent_texts (events (cmd_currency (u "/currency 50")
                        (always (Response 200 (Some usual_quote))) 0))
    = [Msg.converted_eur (Fin 50) (Fin 2225) (Fin (89 # 2))] /\
  sent_texts (events (cmd_currency (u "/currency 99.99999999999999999")
                        (always (Response 200 (Some usual_quote))) 0))
    = [Msg.converted_uah (Fin 100) (Fin (158132009388009 # 70368744177664))
                         (Fin (404817944033303 # 18014398509481984))].
Proof. repeat split; vm_compute; reflexivity. Qed.

(** ** Buttons for a location that is not configured *)

(** C10, as stated, fails: for the payloads [weather_weather_Кёльн] and
    [weather_all] what follows the prefix is no configured name, and yet
    the handler fetches and replies -- the first because every occurrence of
    the prefix is removed, which leaves the name Кёльн, the second because
    it is the button for all locations. *)
Lemma unknown_suffix_not_silent :
  forallb (fun c => negb (PyStr.eqb (city_name c) (u "weather_Кёльн"))) CITIES = true /\
  process_callback CITIES (u "weather_weather_Кёльн") (always (Response 404 None)) 0 =
    Run [ SendMessage (Msg.loading_weather (u "Кёльн")) None None;
          Request WeatherAPI (Some 50.9375%Q) (Some 6.9603%Q); LogError (Some 404%Z);
          SendMessage (Msg.weather_failed (u "Кёльн")) None None;
          AckCallback ] 1 (Ok tt) /\
  forallb (fun c => negb (PyStr.eqb (city_name c) (u "all"))) CITIES = true /\
  sent_texts (events (process_callback CITIES (u "weather_all")
                        (always (Response 404 None)) 0))
    = map (fun c => Msg.weather_failed (city_name c)) CITIES.
Proof. repeat split; reflexivity. Qed.

Lemma startswith_head (s p q : pystr) (a b : N) :
  startswith s (a :: p) = true -> startswith s (b :: q) = true -> a = b.
Proof.
  destruct s as [|c s]; simpl; [discriminate|].
  intros H1 H2. apply andb_true_iff in H1, H2.
  destruct H1 as [H1 _], H2 as [H2 _]. apply N.eqb_eq in H1, H2. congruence.
Qed.

Lemma for_until_no_match {A} (xs : list A) (body : A -> M bool) net n :
  (forall x, In x xs -> body x = ret false) ->
  for_until xs body net n = Run [] n (Ok tt).
Proof.
  intros H. induction xs as [|x xs IH]; simpl; [reflexivity|].
  rewrite (H x (or_introl eq_refl)). unfold bind, ret at 1. simpl.
  rewrite IH; [reflexivity|]. intros y Hy. apply H. now right.
Qed.

(** The handler derives the name by removing every occurrence of the
    prefix from the payload; when that name is not configured, the search
    loop finds nothing. *)
Lemma unknown_name_button (cities : list city) (action : pystr)
    (net : network) (n : nat) :
  (startswith action (u "weather_") = true ->
   action <> u "weather_all" ->
   (forall c, In c cities -> city_name c <> replace action (u "weather_") []) ->
   process_callback cities action net n =
   Run [ SendMessage (Msg.loading_weather (replace action (u "weather_") [])) None None;
         AckCallback ] n (Ok tt)) /\
  (startswith action (u "forecast_") = true ->
   action <> u "forecast_all" ->
   (forall c, In c cities -> city_name c <> replace action (u "forecast_") []) ->
   process_callback cities action net n =
   Run [ SendMessage (Msg.loading_forecast (replace action (u "forecast_") [])) None None;
         AckCallback ] n (Ok tt)).
Proof.
  split.
  - intros Hp Hall Hno. unfold process_callback.
    apply eqb_neq in Hall. rewrite Hall.
    destruct (PyStr.eqb action (u "forecast_all")) eqn:E2;
      [apply eqb_eq in E2; subst; discriminate Hp|].
    destruct (PyStr.eqb action (u "list_cities")) eqn:E3;
      [apply eqb_eq in E3; subst; discriminate Hp|].
    rewrite Hp.
    erewrite bind_run by reflexivity.
    erewrite bind_run.
    2:{ apply for_until_no_match. intros c Hc.
        assert (E : PyStr.eqb (city_name c) (replace action (u "weather_") []) = false)
          by (apply eqb_neq; now apply Hno).
        now rewrite E. }
    reflexivity.
  - intros Hp Hall Hno. unfold process_callback.
    destruct (PyStr.eqb action (u "weather_all")) eqn:E1;
      [apply eqb_eq in E1; subst; discriminate Hp|].
    apply eqb_neq in Hall. rewrite Hall.
    destruct (PyStr.eqb action (u "list_cities")) eqn:E3;
      [apply eqb_eq in E3; subst; discriminate Hp|].
    destruct (startswith action (u "weather_")) eqn:Ew.
    { pose proof (@startswith_head action (u "eather_") (u "orecast_") 119%N 102%N Ew Hp).
      discriminate. }
    rewrite Hp.
    erewrite bind_run by reflexivity.
    erewrite bind_run.
    2:{ apply for_until_no_match. intros c Hc.
        assert (E : PyStr.eqb (city_name c) (replace action (u "forecast_") []) = false)
          by (apply eqb_neq; now apply Hno).
        now rewrite E. }
    reflexivity.
Qed.

Lemma startswith_app (p x : pystr) : startswith (p ++ x) p = true.
Proof.
  induction p as [|a p IH]; simpl; [apply startswith_nil|].
  now rewrite N.eqb_refl, IH.
Qed.

Lemma skipn_prefix (p x : pystr) : skipn (List.length p) (p ++ x) = x.
Proof. induction p as [|a p IH]; simpl; auto. Qed.

Lemma replace_fuel_absent (fuel : nat) (old new s : pystr) :
  contains s old = false -> replace_fuel fuel old new s = s.
Proof.
  revert s. induction fuel as [|fuel IH]; intros s H; [reflexivity|].
  destruct s as [|c s]; [reflexivity|].
  simpl in H. apply orb_false_iff in H. destruct H as [H1 H2].
  simpl. simpl in H1. rewrite H1. f_equal. now apply IH.
Qed.

(** Removing the prefix from a payload made of the prefix and a rest in
    which the prefix does not occur leaves the rest. *)
Lemma replace_prefix (a : N) (p x : pystr) :
  contains x (a :: p) = false -> replace ((a :: p) ++ x) (a :: p) [] = x.
Proof.
  intros H. unfold replace.
  change (List.length ((a :: p) ++ x)) with (S (List.length (p ++ x))).
  change (replace_fuel (S (List.length (p ++ x))) (a :: p) [] ((a :: p) ++ x))
    with (if startswith ((a :: p) ++ x) (a :: p)
          then [] ++ replace_fuel (List.length (p ++ x)) (a :: p) []
                       (skipn (List.length (a :: p)) ((a :: p) ++ x))
          else a :: replace_fuel (List.length (p ++ x)) (a :: p) [] (p ++ x)).
  rewrite startswith_app, skipn_prefix. simpl. now apply replace_fuel_absent.
Qed.

(** C10, amended: for every payload [weather_X] (or [forecast_X]) in which
    [X] is not [all], does not contain the prefix again, and is the name of
    no configured location, the handler sends the loading message for [X],
    makes no request, sends no reply and no apology, and acknowledges the
    press. *)
Theorem unknown_city_button (cities : list city) (X : pystr)
    (net : network) (n : nat) :
  X <> u "all" ->
  (forall c, In c cities -> city_name c <> X) ->
  (contains X (u "weather_") = false ->
   process_callback cities (u "weather_" ++ X) net n =
   Run [SendMessage (Msg.loading_weather X) None None; AckCallback] n (Ok tt)) /\
  (contains X (u "forecast_") = false ->
   process_callback cities (u "forecast_" ++ X) net n =
   Run [SendMessage (Msg.loading_forecast X) None None; AckCallback] n (Ok tt)).
Proof.
  intros Hall Hno. split; intros Hc.
  - assert (Hr : replace (u "weather_" ++ X) (u "weather_") [] = X)
      by (apply (@replace_prefix 119%N (u "eather_") X); exact Hc).
    destruct (unknown_name_button cities (u "weather_" ++ X) net n) as [H _].
    rewrite Hr in H. apply H.
    + apply (startswith_app (u "weather_") X).
    + change (u "weather_all") with (u "weather_" ++ u "all").
      intros E. apply app_inv_head in E. contradiction.
    + exact Hno.
  - assert (Hr : replace (u "forecast_" ++ X) (u "forecast_") [] = X)
      by (apply (@replace_prefix 102%N (u "orecast_") X); exact Hc).
    destruct (unknown_name_button cities (u "forecast_" ++ X) net n) as [_ H].
    rewrite Hr in H. apply H.
    + apply (startswith_app (u "forecast_") X).
    + change (u "forecast_all") with (u "forecast_" ++ u "all").
      intros E. apply app_inv_head in E. contradiction.
    + exact Hno.
Qed.

Lemma unknown_city_button_witness :
  process_callback CITIES (u "weather_Берлин") (always NetworkError) 0 =
    Run [ SendMessage (Msg.loading_weather (u "Берлин")) None None; AckCallback ] 0 (Ok tt) /\
  process_callback CITIES (u "forecast_Берлин") (always NetworkError) 0 =
    Run [ SendMessage (Msg.loading_forecast (u "Берлин")) None None; AckCallback ] 0 (Ok tt).
Proof.
  assert (Hall : u "Берлин" <> u "all") by discriminate.
  assert (Hno : forall c, In c CITIES -> city_name c <> u "Берлин").
  { intros c Hc. simpl in Hc.
    repeat (destruct Hc as [<- | Hc]; [discriminate|]). destruct Hc. }
  split.
  - apply (proj1 (@unknown_city_button CITIES (u "Берлин") (always NetworkError) 0%nat
                    Hall Hno)).
    reflexivity.
  - apply (proj2 (@unknown_city_button CITIES (u "Берлин") (always NetworkError) 0%nat
                    Hall Hno)).
    reflexivity.
Defined.

(** ** The forecast client: one entry per date *)

(** C4, as stated, fails: of two midday samples of one date the entry
    returned for the date is built from the second, not from the first. *)
Lemma last_sample_of_a_date_wins :
  daily_forecast (series [ sample (u "2024-05-01 12:00:00") (JInt 1) (JInt 1);
                           sample (u "2024-05-01 12:00:00") (JInt 3) (JInt 3) ])
    = Ok [sample_day (u "2024-05-01") (JInt 3) (JInt 3)] /\
  midday_date (sample (u "2024-05-01 12:00:00") (JInt 1) (JInt 1)) = Some (u "2024-05-01") /\
  day_of_item (u "2024-05-01") (sample (u "2024-05-01 12:00:00") (JInt 1) (JInt 1))
    = Ok (sample_day (u "2024-05-01") (JInt 1) (JInt 1)) /\
  sample_day (u "2024-05-01") (JInt 1) (JInt 1) <> sample_day (u "2024-05-01") (JInt 3) (JInt 3).
Proof. repeat split; try reflexivity. discriminate. Qed.

Section DictOrder.
Variable V : Type.
Implicit Types (d : list (pystr * V)) (k : pystr) (v : V).

Lemma existsb_eqb_in k (l : list pystr) : existsb (PyStr.eqb k) l = true <-> In k l.
Proof.
  rewrite existsb_exists. split.
  - intros (x & Hx & E). apply eqb_eq in E. now subst.
  - intros H. exists k. split; auto. apply eqb_refl.
Qed.

Lemma dict_keys_set d k v : dict_keys (dict_set d k v) = add_key (dict_keys d) k.
Proof.
  unfold add_key, dict_keys. induction d as [|[k' v'] d IH]; simpl; [reflexivity|].
  destruct (PyStr.eqb k' k) eqn:E; simpl.
  - apply eqb_eq in E. subst k'. now rewrite eqb_refl.
  - assert (E' : PyStr.eqb k k' = false).
    { apply eqb_neq. apply eqb_neq in E. congruence. }
    rewrite E'. simpl. rewrite IH.
    destruct (existsb (PyStr.eqb k) (map fst d)); reflexivity.
Qed.

Lemma dict_set_in d k v k' v' :
  NoDup (dict_keys d) ->
  In (k', v') (dict_set d k v) ->
  (k' = k /\ v' = v) \/ (k' <> k /\ In (k', v') d).
Proof.
  induction d as [|[k0 v0] d IH]; simpl; intros Hnd.
  - intros [H | []]. injection H as <- <-. now left.
  - inversion Hnd as [|x l Hnotin Hnd']; subst.
    destruct (PyStr.eqb k0 k) eqn:E; simpl.
    + apply eqb_eq in E. subst k0. intros [H | H].
      * injection H as <- <-. now left.
      * right. split; [|now right].
        intros ->. apply Hnotin. unfold dict_keys.
        change k with (fst (k, v')). now apply in_map.
    + intros [H | H].
      * injection H as <- <-. right. split; [now apply eqb_neq | now left].
      * destruct (IH Hnd' H) as [? | [? ?]]; auto.
Qed.

Lemma NoDup_snoc (l : list pystr) k : NoDup l -> ~ In k l -> NoDup (l ++ [k]).
Proof.
  induction l as [|a l IH]; simpl; intros Hnd Hnin.
  - constructor; [intros [] | constructor].
  - inversion Hnd as [|x l' Ha Hl]; subst. constructor.
    + intros Hin. apply in_app_or in Hin. destruct Hin as [Hin | [<- | []]]; auto.
    + apply IH; auto.
Qed.

Lemma add_key_nodup (l : list pystr) k : NoDup l -> NoDup (add_key l k).
Proof.
  intros H. unfold add_key. destruct (existsb (PyStr.eqb k) l) eqn:E; auto.
  apply NoDup_snoc; auto.
  intros Hin. apply existsb_eqb_in in Hin. congruence.
Qed.
End DictOrder.

Lemma distinct_snoc (l : list pystr) (k : pystr) :
  distinct (l ++ [k]) = add_key (distinct l) k.
Proof. unfold distinct. now rewrite fold_left_app. Qed.

Lemma midday_dates_app (a b : list json) :
  midday_dates (a ++ b) = midday_dates a ++ midday_dates b.
Proof. unfold midday_dates. apply flat_map_app. Qed.

Lemma in_firstn_of {A} (n : nat) (l : list A) (x : A) : In x (firstn n l) -> In x l.
Proof.
  intros H. rewrite <- (firstn_skipn n l). apply in_or_app. now left.
Qed.

Lemma NoDup_firstn_of {A} (n : nat) (l : list A) : NoDup l -> NoDup (firstn n l).
Proof.
  intros H. rewrite <- (firstn_skipn n l) in H. now apply NoDup_app_remove_r in H.
Qed.

(** What one turn of the loop does: a sample that is not a midday sample
    leaves the dictionary as it is, a midday sample files its entry under
    its date. *)
Lemma collect_item_cases (daily daily' : list (pystr * forecast_day)) (item : json) :
  collect_item daily item = Ok daily' ->
  (midday_date item = None /\ daily' = daily) \/
  (exists date day,
     midday_date item = Some date /\ day_of_item date item = Ok day /\
     fd_date day = date /\ daily' = dict_set daily date day).
Proof.
  unfold collect_item, midday_date.
  destruct (Json.get item (u "dt_txt") (JStr [])) as [dt_txt|]; simpl; [|discriminate].
  destruct (is_midday dt_txt) as [[|]|]; simpl; [| |discriminate].
  - destruct (date_of dt_txt) as [date|]; simpl; [|discriminate].
    destruct (day_of_item date item) as [day|] eqn:Ed; simpl; [|discriminate].
    intros H. injection H as <-. right. exists date, day. repeat split; auto.
    unfold day_of_item in Ed.
    repeat match type of Ed with
           | rbind ?r _ = Ok _ => destruct r; simpl in Ed; [|discriminate]
           end.
    now injection Ed as <-.
  - intros H. injection H as <-. now left.
Qed.

Lemma filed_step seen daily daily' item :
  filed seen daily -> collect_item daily item = Ok daily' ->
  filed (seen ++ [item]) daily'.
Proof.
  intros [Hnd Hkeys Hlast] Hc.
  destruct (collect_item_cases _ _ Hc) as [[Hm ->] | (date & day & Hm & Hd & Hdate & ->)].
  - constructor; auto.
    + rewrite midday_dates_app. simpl. rewrite Hm. simpl. now rewrite app_nil_r.
    + intros k v Hin. destruct (Hlast k v Hin) as (Hk & before & it & after & -> & H1 & H2 & H3).
      split; auto. exists before, it, (after ++ [item]).
      rewrite <- app_assoc. simpl. repeat split; auto.
      intros x Hx. apply in_app_or in Hx. destruct Hx as [Hx | [<- | []]]; auto.
      rewrite Hm. discriminate.
  - constructor.
    + rewrite dict_keys_set. now apply add_key_nodup.
    + rewrite dict_keys_set, midday_dates_app. simpl. rewrite Hm. simpl.
      now rewrite distinct_snoc, Hkeys.
    + intros k v Hin. apply dict_set_in in Hin; auto.
      destruct Hin as [[-> ->] | [Hne Hin]].
      * split; auto. exists seen, item, []. repeat split; auto; intros x [].
      * destruct (Hlast k v Hin) as (Hk & before & it & after & -> & H1 & H2 & H3).
        split; auto. exists before, it, (after ++ [item]).
        rewrite <- app_assoc. simpl. repeat split; auto.
        intros x Hx. apply in_app_or in Hx. destruct Hx as [Hx | [<- | []]]; auto.
        rewrite Hm. congruence.
Qed.

Lemma filed_loop items seen daily daily' :
  filed seen daily -> collect_items daily items = Ok daily' ->
  filed (seen ++ items) daily'.
Proof.
  revert seen daily. induction items as [|item items IH]; intros seen daily Hf Hc; simpl in Hc.
  - injection Hc as <-. now rewrite app_nil_r.
  - destruct (collect_item daily item) as [daily1|] eqn:E; simpl in Hc; [|discriminate].
    replace (seen ++ item :: items) with ((seen ++ [item]) ++ items)
      by (now rewrite <- app_assoc).
    apply (IH _ daily1); auto. eapply filed_step; eauto.
Qed.

Lemma filed_dates seen daily :
  filed seen daily -> map fd_date (dict_values daily) = dict_keys daily.
Proof.
  intros [_ _ Hlast]. unfold dict_values, dict_keys.
  assert (H : forall k v, In (k, v) daily -> fd_date v = k)
    by (intros k v Hin; now destruct (Hlast k v Hin)).
  clear Hlast. induction daily as [|[k v] daily IH]; simpl; [reflexivity|].
  rewrite (H k v (or_introl eq_refl)). f_equal. apply IH.
  intros k' v' Hin. apply H. now right.
Qed.

#[local] Arguments firstn : simpl never.

Lemma get_forecast_run (c : city) (net : network) (n : nat) :
  get_forecast c net n =
  let req := Request ForecastAPI (Some (city_lat c)) (Some (city_lon c)) in
  match net n with
  | NetworkError => Run [req] (S n) (Raise ClientError)
  | Response status body =>
    if (status =? 200)%Z then
      Run [req] (S n)
        (rbind (response_json body)
               (fun data => rbind (daily_forecast data) (fun days => Ok (Some days))))
    else Run [req; LogError (Some status)] (S n) (Ok None)
  end.
Proof.
  unfold get_forecast, bind, http_get, lift, raise, emit, ret; simpl.
  destruct (net n) as [|status body]; simpl; [reflexivity|].
  destruct (status =? 200)%Z; simpl; [|reflexivity].
  destruct body as [data|]; simpl; [|reflexivity].
  destruct (daily_forecast data); reflexivity.
Qed.

Lemma sample_readable dt_txt temp feels_like : readable (sample dt_txt temp feels_like).
Proof.
  split; [now exists dt_txt | intros date; eexists; reflexivity].
Qed.

Lemma collect_items_readable (items : list json) :
  (forall item, In item items -> readable item) ->
  forall daily, exists daily', collect_items daily items = Ok daily'.
Proof.
  induction items as [|item items IH]; intros H daily; simpl.
  - now exists daily.
  - destruct (H item (or_introl eq_refl)) as [[s Hs] Hday].
    unfold collect_item. rewrite Hs. simpl.
    destruct (contains s midday); simpl.
    + destruct (Hday (hd [] (split_on 32 s))) as [day ->]. simpl.
      apply IH. intros x Hx. apply H. now right.
    + apply IH. intros x Hx. apply H. now right.
Qed.

(** C4, amended: on a series of readable samples [get_forecast] returns a
    forecast; and whenever it returns one for the series [items], the
    forecast has at most 3 entries, of distinct dates; the dates are the
    first three distinct dates of the midday samples, in the order of their
    first occurrence in the series; and each entry is built from a midday
    sample of its date, the last one of that date in the series. *)
Theorem get_forecast_days (c : city) (net : network) (n : nat)
    (data forecast_list : json) (items : list json) :
  net n = Response 200 (Some data) ->
  Json.get data (u "list") (JArr []) = Ok forecast_list ->
  Json.iter forecast_list = Ok items ->
  ((forall item, In item items -> readable item) ->
   exists days, value (get_forecast c net n) = Ok (Some days)) /\
  (forall days,
     value (get_forecast c net n) = Ok (Some days) ->
     (List.length days <= 3)%nat /\
     NoDup (map fd_date days) /\
     map fd_date days = firstn 3 (distinct (midday_dates items)) /\
     forall day, In day days ->
       exists before item after,
         items = before ++ item :: after /\
         midday_date item = Some (fd_date day) /\
         day_of_item (fd_date day) item = Ok day /\
         forall x, In x after -> midday_date x <> Some (fd_date day)).
Proof.
  intros Hn Hl Hi.
  assert (Hrun : value (get_forecast c net n) =
                 rbind (collect_items [] items)
                       (fun daily => Ok (Some (firstn 3 (dict_values daily))))).
  { rewrite get_forecast_run, Hn. simpl. unfold daily_forecast.
    rewrite Hl. simpl. rewrite Hi. simpl.
    destruct (collect_items [] items); reflexivity. }
  rewrite Hrun. split.
  - intros Hr. destruct (collect_items_readable items Hr []) as [daily ->].
    simpl. eauto.
  - intros days Hv.
    destruct (collect_items [] items) as [daily|] eqn:Ec; simpl in Hv; [|discriminate].
    injection Hv as <-.
    assert (Hf : filed items daily).
    { change items with ([] ++ items). apply (@filed_loop items [] [] daily); auto.
      constructor; simpl; [constructor | reflexivity | intros ? ? []]. }
    pose proof (filed_dates Hf) as Hd. destruct Hf as [Hnd Hkeys Hlast].
    split; [apply firstn_le_length|].
    split; [rewrite <- firstn_map, Hd; now apply NoDup_firstn_of|].
    split; [now rewrite <- firstn_map, Hd, Hkeys|].
    intros day Hin. apply in_firstn_of in Hin. unfold dict_values in Hin.
    apply in_map_iff in Hin. destruct Hin as ([k v] & Hv & Hin). simpl in Hv. subst v.
    destruct (Hlast k day Hin) as (<- & H). exact H.
Qed.

Lemma get_forecast_days_witness :
  (exists days,
     value (get_forecast (u "Кёльн", 50.9375, 6.9603)%Q
              (always (Response 200 (Some (series four_days)))) 0) = Ok (Some days)) /\
  value (get_forecast (u "Кёльн", 50.9375, 6.9603)%Q
           (always (Response 200 (Some (series four_days)))) 0)
    = Ok (Some [ sample_day (u "2024-05-01") (JFloat (Fin 14.8)) (JFloat (Fin 14.0));
                 sample_day (u "2024-05-02") (JFloat (Fin 17.5)) (JFloat (Fin 17.0));
                 sample_day (u "2024-05-03") (JInt 19) (JInt 18) ]) /\
  map fd_date [ sample_day (u "2024-05-01") (JFloat (Fin 14.8)) (JFloat (Fin 14.0));
                sample_day (u "2024-05-02") (JFloat (Fin 17.5)) (JFloat (Fin 17.0));
                sample_day (u "2024-05-03") (JInt 19) (JInt 18) ]
    = firstn 3 (distinct (midday_dates four_days)).
Proof.
  destruct (@get_forecast_days (u "Кёльн", 50.9375, 6.9603)%Q
              (always (Response 200 (Some (series four_days)))) 0%nat
              (series four_days) (JArr four_days) four_days
              eq_refl eq_refl eq_refl) as [Hex Hprops].
  split; [|split; [reflexivity|]].
  - apply Hex. intros item Hin. unfold four_days in Hin. simpl in Hin.
    repeat (destruct Hin as [<- | Hin]; [apply sample_readable|]). destruct Hin.
  - apply (Hprops _ eq_refl).
Defined.

(** ** Displayed temperatures *)

(** [round] on a finite float yields a nearest integer. *)
Lemma round_half_even_nearest (x : Q) :
  (Qabs (x - inject_Z (round_half_even x)) <= 1 # 2)%Q.
Proof.
  unfold round_half_even.
  pose proof (Qfloor_le x) as Hlo. pose proof (Qlt_floor x) as Hhi.
  rewrite inject_Z_plus in Hhi. change (inject_Z 1) with 1%Q in Hhi.
  remember (inject_Z (Qfloor x)) as g eqn:Eg.
  apply Qabs_Qle_condition.
  destruct (Qcompare_spec (x - g) (1 # 2)) as [He | Hl | Hg].
  - destruct (Z.even (Qfloor x));
      [|rewrite inject_Z_plus; change (inject_Z 1) with 1%Q];
      rewrite <- ?Eg; split; lra.
  - rewrite <- Eg. split; lra.
  - rewrite inject_Z_plus. change (inject_Z 1) with 1%Q. rewrite <- Eg. split; lra.
Qed.

(** The forecast formatter displays rounded temperatures. *)
Lemma format_day_rounds (day : forecast_day) (fs : list frag) :
  format_day day = Ok fs ->
  exists temp feels,
    Builtins.round (fd_temp day) = Ok temp /\
    Builtins.round (fd_feels_like day) = Ok feels /\
    In (FInt temp) fs /\ In (FInt feels) fs.
Proof.
  unfold format_day.
  destruct (emoji_of (fd_icon day)) as [emoji|]; simpl; [|discriminate].
  destruct (Builtins.round (fd_temp day)) as [temp|]; simpl; [|discriminate].
  destruct (Builtins.round (fd_feels_like day)) as [feels|]; simpl; [|discriminate].
  destruct (capitalize (fd_description day)) as [desc|]; simpl; [|discriminate].
  intros H. injection H as <-. exists temp, feels. simpl. intuition.
Qed.

(** C9 at the failing input, a current temperature of 21.37 that feels like
    19.84: [format_weather] displays both values as they came, where
    [round] gives 21 and 20 and the forecast formatter shows these. *)
Theorem format_weather_shows_unrounded :
  format_weather observation =
    Ok (Text
      [ FStr (u "☀️"); Lit (u " **Погода в городе "); FVal (JStr (u "Cologne"));
        Lit (u "**"); NL; NL;
        Lit (u "🌡️ Температура: "); FVal (JFloat (Fin 21.37));
        Lit (u "°C (ощущается как "); FVal (JFloat (Fin 19.84)); Lit (u "°C)"); NL;
        Lit (u "📝 Описание: "); FCapitalize (u "ясно"); NL;
        Lit (u "💧 Влажность: "); FVal (JInt 48); Lit (u "%"); NL;
        Lit (u "🔽 Давление: "); FVal (JInt 1015); Lit (u " гПа"); NL;
        Lit (u "💨 Ветер: "); FVal (JFloat (Fin 3.6)); Lit (u " м/с"); NL;
        Lit (u "🕒 Обновлено: "); FClock (JInt 1714564800) ]) /\
  Builtins.round (JFloat (Fin 21.37)) = Ok 21%Z /\
  Builtins.round (JFloat (Fin 19.84)) = Ok 20%Z /\
  format_day (sample_day (u "2024-05-01") (JFloat (Fin 21.37)) (JFloat (Fin 19.84))) =
    Ok [ Lit (u "**"); FDayShort (u "2024-05-01"); Lit (u "** "); FStr (u "☀️"); NL;
         Lit (u "🌡️ "); FInt 21; Lit (u "°C (ощущается как "); FInt 20; Lit (u "°C)"); NL;
         Lit (u "📝 "); FCapitalize (u "ясно"); NL;
         Lit (u "💧 "); FVal (JInt 48); Lit (u "% | 💨 "); FVal (JFloat (Fin 3.6));
         Lit (u " м/с"); NL; NL ].
Proof. repeat split; reflexivity. Qed.

(** * Further properties *)

(** ** Effects confined to a class *)

Section Confined.
Variable P : effect -> Prop.

Lemma confined_ret {A} (a : A) : confined P (ret a).
Proof. intros net n. constructor. Qed.

Lemma confined_raise {A} (e : exn) : confined P (@raise A e).
Proof. intros net n. constructor. Qed.

Lemma confined_lift {A} (r : result A) : confined P (lift r).
Proof. intros net n. constructor. Qed.

Lemma confined_emit (e : effect) : P e -> confined P (emit e).
Proof. intros H net n. simpl. auto. Qed.

Lemma confined_http_get e lat lon : P (Request e lat lon) -> confined P (http_get e lat lon).
Proof. intros H net n. simpl. auto. Qed.

Lemma confined_bind {A B} (m : M A) (f : A -> M B) :
  confined P m -> (forall a, confined P (f a)) -> confined P (bind m f).
Proof.
  intros Hm Hf net n. unfold bind. specialize (Hm net n).
  destruct (value (m net n)) as [a|e]; simpl; auto.
  apply Forall_app. split; auto. apply Hf.
Qed.

Lemma confined_catch {A} (m : M A) (h : exn -> M A) :
  confined P m -> (forall e, confined P (h e)) -> confined P (catch m h).
Proof.
  intros Hm Hh net n. unfold catch. specialize (Hm net n).
  destruct (value (m net n)) as [a|e]; simpl; auto.
  apply Forall_app. split; auto. apply Hh.
Qed.

Lemma confined_for_each {A} (xs : list A) (body : A -> M unit) :
  (forall x, In x xs -> confined P (body x)) -> confined P (for_each xs body).
Proof.
  induction xs as [|x xs IH]; intros H; simpl.
  - apply confined_ret.
  - apply confined_bind; [apply H; now left|].
    intros _. apply IH. intros y Hy. apply H. now right.
Qed.

Lemma confined_for_until {A} (xs : list A) (body : A -> M bool) :
  (forall x, In x xs -> confined P (body x)) -> confined P (for_until xs body).
Proof.
  induction xs as [|x xs IH]; intros H; simpl.
  - apply confined_ret.
  - apply confined_bind; [apply H; now left|].
    intros [|]; [apply confined_ret|]. apply IH. intros y Hy. apply H. now right.
Qed.

End Confined.

(** Breaks a goal [confined P m] down along the structure of [m]; what is
    left are the effects [m] emits, to be shown in [P]. *)
Ltac confined_cases :=
  repeat first
    [ apply confined_ret
    | apply confined_raise
    | apply confined_lift
    | apply confined_bind; [| intro]
    | apply confined_catch; [| intro]
    | apply confined_for_each; intros ? ?
    | apply confined_for_until; intros ? ?
    | apply confined_http_get
    | apply confined_emit
    | match goal with
      | |- confined _ (match ?x with _ => _ end) => destruct x eqn:?
      | |- confined _ (if ?b then _ else _) => destruct b eqn:?
      end ].

Ltac unfold_router :=
  unfold dispatch, cmd_start, cmd_help, cmd_near, cmd_weather, cmd_forecast, cmd_city,
    cmd_currency, process_callback, reply_weather, reply_forecast, get_weather,
    get_forecast, get_exchange_rates, answer, edit_text, call_answer.

(** ** Whom the router asks *)

(** X1: whatever update arrives and whatever the network does, every request
    the router makes goes either to the rate provider, without coordinates,
    or to a weather endpoint with the coordinates of a configured location. *)
Theorem requests_target_configured (cities : list city) (upd : update)
    (net : network) (n : nat) :
  Forall (targets_configured cities) (events (dispatch cities upd net n)).
Proof.
  revert net n. change (confined (targets_configured cities) (dispatch cities upd)).
  destruct upd; unfold_router; confined_cases; simpl; auto;
    try (eexists; split; [eassumption | split; reflexivity]).
  all: match goal with
       | H : find _ _ = Some ?c |- _ =>
         apply find_some in H; destruct H as [H _];
         exists c; split; [exact H | split; reflexivity]
       end.
Qed.

(** ** The keyboards *)

Lemma pair_induction {A} (P : list A -> Prop) :
  P [] -> (forall a, P [a]) -> (forall a b l, P l -> P (a :: b :: l)) ->
  forall l, P l.
Proof.
  intros H0 H1 H2 l.
  assert (H : P l /\ forall a, P (a :: l)).
  { induction l as [|x l [IH1 IH2]]; split; auto. }
  apply H.
Qed.

Lemma city_rows_concat (cs : list city) : concat (city_rows cs) = map city_button cs.
Proof.
  induction cs as [| a | a b cs IH] using pair_induction; simpl; auto.
  now rewrite IH.
Qed.

Lemma append_last_snoc (front : keyboard) (row : list button) (b : button) :
  append_last (front ++ [row]) b = Ok (front ++ [row ++ [b]]).
Proof.
  induction front as [|r front IH]; simpl; [reflexivity|].
  rewrite IH. simpl. destruct (front ++ [row]) eqn:E; [|reflexivity].
  now destruct front.
Qed.

Lemma cities_keyboard_loop_cons i c cs kb :
  cities_keyboard_loop i (c :: cs) kb =
  rbind (append_last (if (i mod 2 =? 0)%nat then kb ++ [[]] else kb) (city_button c))
        (cities_keyboard_loop (S i) cs).
Proof. reflexivity. Qed.

Lemma cities_keyboard_loop_rows (cs : list city) :
  forall i kb,
    ((i mod 2 = 0)%nat ->
     cities_keyboard_loop i cs kb = Ok (kb ++ city_rows cs)) /\
    ((i mod 2 = 1)%nat -> forall front row, kb = front ++ [row] ->
     cities_keyboard_loop i cs kb =
     Ok (front ++ match cs with
                  | [] => [row]
                  | c :: cs' => (row ++ [city_button c]) :: city_rows cs'
                  end)).
Proof.
  induction cs as [|c cs IH]; intros i kb; split.
  - intros _. simpl. now rewrite app_nil_r.
  - intros _ front row ->. reflexivity.
  - intros Hi. rewrite cities_keyboard_loop_cons, Hi.
    change ((0 =? 0)%nat) with true. cbv iota.
    rewrite append_last_snoc. cbn [rbind app].
    assert (Hs : (S i mod 2 = 1)%nat).
    { rewrite <- Nat.add_1_r. rewrite Nat.Div0.add_mod, Hi by lia. reflexivity. }
    rewrite (proj2 (IH (S i) (kb ++ [[city_button c]])) Hs kb [city_button c] eq_refl).
    destruct cs as [|c2 cs]; reflexivity.
  - intros Hi front row ->. rewrite cities_keyboard_loop_cons, Hi.
    change ((1 =? 0)%nat) with false. cbv iota.
    rewrite append_last_snoc. cbn [rbind].
    assert (Hs : (S i mod 2 = 0)%nat).
    { rewrite <- Nat.add_1_r. rewrite Nat.Div0.add_mod, Hi by lia. reflexivity. }
    rewrite (proj1 (IH (S i) (front ++ [row ++ [city_button c]])) Hs).
    now rewrite <- app_assoc.
Qed.

(** X2: the loop of [get_cities_keyboard] never fails on its last-row
    access, and its keyboard holds one button per location, in list order,
    labelled with the name and carrying the payload [weather_] + name; the
    buttons come two to a row, only the last row holding a single one when
    the number of locations is odd. *)
Theorem cities_keyboard_layout (cities : list city) :
  cities_keyboard_loop 0 cities [] = Ok (get_cities_keyboard cities) /\
  concat (get_cities_keyboard cities) = map city_button cities /\
  List.length (get_cities_keyboard cities) = Nat.div (List.length cities + 1) 2 /\
  forall before row after,
    get_cities_keyboard cities = before ++ row :: after ->
    (after <> [] -> List.length row = 2%nat) /\
    (after = [] -> List.length row = (2 - List.length cities mod 2)%nat).
Proof.
  split; [|split; [|split]].
  - apply (proj1 (cities_keyboard_loop_rows cities 0 [])). reflexivity.
  - apply city_rows_concat.
  - unfold get_cities_keyboard.
    induction cities as [| a | a b cs IH] using pair_induction;
      [reflexivity | reflexivity |].
    cbn [city_rows List.length]. rewrite IH.
    replace (S (S (List.length cs)) + 1)%nat with (List.length cs + 1 + 1 * 2)%nat by lia.
    rewrite Nat.div_add by lia. lia.
  - unfold get_cities_keyboard.
    induction cities as [| a | a b cs IH] using pair_induction;
      intros before row after E; simpl in E.
    + now destruct before.
    + destruct before as [|r before]; simpl in E.
      * injection E as <- <-. split; [congruence | reflexivity].
      * injection E as _ E. now destruct before.
    + destruct before as [|r before]; simpl in E.
      * injection E as <- <-. split; [reflexivity|].
        intros E. destruct cs as [|c [|c2 cs]]; [reflexivity | discriminate E | discriminate E].
      * injection E as _ E. destruct (IH before row after E) as [H1 H2].
        split; auto. intros Ha. rewrite (H2 Ha). simpl List.length.
        replace (S (S (List.length cs))) with (List.length cs + 1 * 2)%nat by lia.
        now rewrite Nat.Div0.mod_add.
Qed.

Lemma cities_keyboard_layout_witness :
  exists row,
    get_cities_keyboard CITIES = firstn 3 (get_cities_keyboard CITIES) ++ [row] /\
    List.length row = 1%nat.
Proof.
  eexists. split; [reflexivity|].
  apply (proj2 (proj2 (proj2 (proj2 (cities_keyboard_layout CITIES)))
                  (firstn 3 (get_cities_keyboard CITIES)) _ [] eq_refl) eq_refl).
Defined.

Lemma recognized_weather (x : pystr) : recognized (u "weather_" ++ x) = true.
Proof.
  unfold recognized. rewrite (startswith_app (u "weather_") x).
  now rewrite orb_true_r.
Qed.

Lemma recognized_forecast (x : pystr) : recognized (u "forecast_" ++ x) = true.
Proof.
  unfold recognized. rewrite (startswith_app (u "forecast_") x).
  now rewrite orb_true_r.
Qed.

Lemma main_keyboard_recognized row b :
  In row get_main_keyboard -> In b row -> recognized (callback_data b) = true.
Proof.
  intros Hr Hb. simpl in Hr.
  repeat (destruct Hr as [<- | Hr]; [destruct Hb as [<- | []]; reflexivity|]).
  destruct Hr.
Qed.

Lemma currency_keyboard_recognized row b :
  In row get_currency_keyboard -> In b row -> recognized (callback_data b) = true.
Proof.
  intros Hr Hb. simpl in Hr.
  destruct Hr as [<- | [<- | []]].
  - destruct Hb as [<- | [<- | []]]; reflexivity.
  - destruct Hb as [<- | []]; reflexivity.
Qed.

Lemma cities_keyboard_recognized cities row b :
  In row (get_cities_keyboard cities) -> In b row -> recognized (callback_data b) = true.
Proof.
  intros Hr Hb.
  assert (H : In b (concat (get_cities_keyboard cities))).
  { apply in_concat. eauto. }
  unfold get_cities_keyboard in H. rewrite city_rows_concat in H.
  apply in_map_iff in H. destruct H as (c & <- & _). apply recognized_weather.
Qed.

Lemma forecast_keyboard_recognized name row b :
  In row (get_forecast_keyboard name) -> In b row -> recognized (callback_data b) = true.
Proof.
  intros Hr Hb. simpl in Hr. destruct Hr as [<- | [<- | []]]; destruct Hb as [<- | []].
  - apply recognized_forecast.
  - apply recognized_weather.
Qed.

(** X3: whatever update arrives and whatever the network does, every
    keyboard the router attaches to a message it sends or edits holds only
    buttons whose payload [process_callback] has a branch for. *)
Theorem attached_buttons_recognized (cities : list city) (upd : update)
    (net : network) (n : nat) :
  Forall buttons_recognized (events (dispatch cities upd net n)).
Proof.
  revert net n. change (confined buttons_recognized (dispatch cities upd)).
  destruct upd; unfold_router; confined_cases; simpl; auto;
    first [ apply main_keyboard_recognized | apply currency_keyboard_recognized
          | apply cities_keyboard_recognized | apply forecast_keyboard_recognized ].
Qed.

(** ** Acknowledging a button press *)

Lemma acks_at_end_call_answer : acks_at_end call_answer.
Proof.
  intros net n. left. exists [], tt. repeat split. constructor.
Qed.

Lemma acks_at_end_bind {A B} (m : M A) (f : A -> M B) :
  confined not_ack m -> (forall a, acks_at_end (f a)) -> acks_at_end (bind m f).
Proof.
  intros Hm Hf net n. unfold bind. specialize (Hm net n).
  destruct (value (m net n)) as [a|e]; simpl.
  - destruct (Hf a net (calls (m net n))) as [(es & b & -> & Hes & ->) | (Hes & e & ->)].
    + left. exists (events (m net n) ++ es), b. rewrite app_assoc.
      repeat split. apply Forall_app. now split.
    + right. split; [apply Forall_app; now split | now exists e].
  - right. split; [exact Hm | now exists e].
Qed.

Ltac not_ack_cases :=
  unfold_router; confined_cases; unfold not_ack; discriminate.

(** X4: [process_callback] acknowledges a press of a recognized button
    exactly when it returns normally, once, as its last effect; when it ends
    in an exception nothing is acknowledged.  A payload it has no branch for
    is dropped: no message, no request, no acknowledgement.  The command
    handlers never acknowledge. *)
Theorem acknowledged_at_end (cities : list city) (net : network) (n : nat) :
  (forall action,
     recognized action = true ->
     (forall a, value (process_callback cities action net n) = Ok a ->
        exists es, events (process_callback cities action net n) = es ++ [AckCallback] /\
                   Forall not_ack es) /\
     (forall e, value (process_callback cities action net n) = Raise e ->
        Forall not_ack (events (process_callback cities action net n)))) /\
  (forall action,
     recognized action = false ->
     process_callback cities action net n = Run [] n (Ok tt)) /\
  (forall upd,
     (forall data, upd <> Callback data) ->
     Forall not_ack (events (dispatch cities upd net n))).
Proof.
  split; [|split].
  - intros action Hrec.
    assert (H : acks_at_end (process_callback cities action)).
    { unfold process_callback.
      destruct (PyStr.eqb action (u "weather_all")) eqn:E1;
        [repeat (apply acks_at_end_bind; [not_ack_cases | intro]);
         apply acks_at_end_call_answer|].
      destruct (PyStr.eqb action (u "forecast_all")) eqn:E2;
        [repeat (apply acks_at_end_bind; [not_ack_cases | intro]);
         apply acks_at_end_call_answer|].
      destruct (PyStr.eqb action (u "list_cities")) eqn:E3;
        [repeat (apply acks_at_end_bind; [not_ack_cases | intro]);
         apply acks_at_end_call_answer|].
      destruct (startswith action (u "weather_")) eqn:E4;
        [repeat (apply acks_at_end_bind; [not_ack_cases | intro]);
         apply acks_at_end_call_answer|].
      destruct (startswith action (u "forecast_")) eqn:E5;
        [repeat (apply acks_at_end_bind; [not_ack_cases | intro]);
         apply acks_at_end_call_answer|].
      destruct (PyStr.eqb action (u "currency")) eqn:E6;
        [repeat (apply acks_at_end_bind; [not_ack_cases | intro]);
         apply acks_at_end_call_answer|].
      destruct (PyStr.eqb action (u "currency_rates")) eqn:E7;
        [repeat (apply acks_at_end_bind; [not_ack_cases | intro]);
         apply acks_at_end_call_answer|].
      destruct (PyStr.eqb action (u "conv_eur_uah")) eqn:E8;
        [repeat (apply acks_at_end_bind; [not_ack_cases | intro]);
         apply acks_at_end_call_answer|].
      destruct (PyStr.eqb action (u "conv_uah_eur")) eqn:E9;
        [repeat (apply acks_at_end_bind; [not_ack_cases | intro]);
         apply acks_at_end_call_answer|].
      exfalso. unfold recognized in Hrec. cbn [existsb] in Hrec.
      rewrite E1, E2, E3, E4, E5, E6, E7, E8, E9 in Hrec. discriminate Hrec. }
    destruct (H net n) as [(es & b & He & Hes & Hv) | (Hes & e & Hv)]; split.
    + intros _ _. now exists es.
    + intros e Hr. rewrite Hv in Hr. discriminate.
    + intros a Ha. rewrite Hv in Ha. discriminate.
    + intros _ _. exact Hes.
  - intros action Hrec. unfold recognized in Hrec. cbn [existsb] in Hrec.
    repeat match goal with
           | H : (_ || _) = false |- _ => apply orb_false_iff in H; destruct H
           end.
    unfold process_callback.
    repeat match goal with E : _ = false |- _ => rewrite E; clear E end.
    reflexivity.
  - intros upd Hupd. revert net n.
    change (confined not_ack (dispatch cities upd)).
    destruct upd; try not_ack_cases. now elim (Hupd data).
Qed.

Lemma acknowledged_at_end_witness :
  (exists es,
     events (process_callback CITIES (u "list_cities") (always NetworkError) 0)
       = es ++ [AckCallback] /\ Forall not_ack es) /\
  Forall not_ack (events (process_callback CITIES (u "weather_all") (always NetworkError) 0)) /\
  process_callback CITIES (u "settings") (always NetworkError) 0 = Run [] 0 (Ok tt) /\
  Forall not_ack (events (dispatch CITIES Weather (always NetworkError) 0)).
Proof.
  destruct (acknowledged_at_end CITIES (always NetworkError) 0) as (Hrec & Hun & Hcmd).
  split; [|split; [|split]].
  - apply (proj1 (Hrec (u "list_cities") eq_refl) tt). reflexivity.
  - apply (proj2 (Hrec (u "weather_all") eq_refl) ClientError). reflexivity.
  - apply Hun. reflexivity.
  - apply Hcmd. discriminate.
Defined.

(** ** The weather client: what it returns and when it fails *)

(** X5: the data [get_weather] returns is the object the provider sent with
    status 200, with the configured name of the location under [name]; every
    other field is as the provider sent it. *)
Theorem get_weather_overrides_name (c : city) (net : network) (n : nat) (data' : json) :
  value (get_weather c net n) = Ok (Some data') ->
  exists data,
    net n = Response 200 (Some data) /\
    Json.getitem data' (u "name") = Ok (JStr (city_name c)) /\
    forall k, k <> u "name" -> Json.getitem data' k = Json.getitem data k.
Proof.
  rewrite get_weather_run.
  destruct (net n) as [|status body]; simpl; [discriminate|].
  destruct (Z.eqb_spec status 200) as [->|Hs]; simpl; [|discriminate].
  destruct body as [data|]; simpl; [|discriminate].
  destruct data; simpl; try discriminate.
  intros H. injection H as <-. eexists. split; [reflexivity|]. split.
  - simpl. now rewrite dict_get_set_same.
  - intros k Hk. simpl. rewrite dict_get_set_other; auto.
Qed.

Lemma get_weather_overrides_name_witness :
  exists data,
    always (Response 200 (Some observation)) 0%nat = Response 200 (Some data) /\
    Json.getitem
      (weather_body (u "Кёльн") (u "ясно") (u "01d") (JFloat (Fin 21.37))
                    (JFloat (Fin 19.84)) (JInt 48) (JInt 1015) (JFloat (Fin 3.6)) 1714564800)
      (u "name") = Ok (JStr (u "Кёльн")) /\
    forall k, k <> u "name" ->
      Json.getitem
        (weather_body (u "Кёльн") (u "ясно") (u "01d") (JFloat (Fin 21.37))
                      (JFloat (Fin 19.84)) (JInt 48) (JInt 1015) (JFloat (Fin 3.6)) 1714564800)
        k = Json.getitem data k.
Proof.
  apply (@get_weather_overrides_name (u "Кёльн", 50.9375, 6.9603)%Q
           (always (Response 200 (Some observation))) 0%nat).
  reflexivity.
Defined.

(** X6: [get_weather] returns nothing exactly on a status other than 200,
    and raises exactly when the request fails at the network, or the status
    is 200 and the body is not JSON or is JSON but not an object. *)
Theorem get_weather_failures (c : city) (net : network) (n : nat) :
  (value (get_weather c net n) = Ok None <->
   exists status body, net n = Response status body /\ status <> 200%Z) /\
  ((exists e, value (get_weather c net n) = Raise e) <->
   net n = NetworkError \/ net n = Response 200 None \/
   exists data, net n = Response 200 (Some data) /\ forall kv, data <> JObj kv).
Proof.
  rewrite get_weather_run.
  destruct (net n) as [|status body]; simpl.
  - split; split.
    + discriminate.
    + intros (s & b & H & _). discriminate.
    + now left.
    + intros _. now exists ClientError.
  - destruct (Z.eqb_spec status 200) as [->|Hs]; simpl.
    + set (v := rbind (response_json body) _).
      assert (Hv : (exists kv x, body = Some (JObj kv) /\ v = Ok (Some x)) \/
                   (body = None /\ v = Raise ContentTypeError) \/
                   (exists d, body = Some d /\ (forall kv, d <> JObj kv) /\
                              v = Raise TypeError)).
      { subst v. destruct body as [d|]; simpl; [|right; now left].
        destruct d; simpl;
          try (right; right; eexists; split; [reflexivity|]; split;
               [discriminate | reflexivity]).
        left. eauto. }
      clearbody v.
      destruct Hv as [(kv & x & -> & ->) | [[-> ->] | (d & -> & Hd & ->)]]; split; split.
      * discriminate.
      * intros (s & b & H & Hne). injection H as <- _. now elim Hne.
      * intros [e H]. discriminate.
      * intros [H | [H | (d & H & Hd)]]; try discriminate.
        injection H as <-. now elim (Hd kv).
      * discriminate.
      * intros (s & b & H & Hne). injection H as <- _. now elim Hne.
      * intros _. right. now left.
      * intros _. now exists ContentTypeError.
      * discriminate.
      * intros (s & b & H & Hne). injection H as <- _. now elim Hne.
      * intros _. right. right. now exists d.
      * intros _. now exists TypeError.
    + split; split; auto.
      * intros _. now exists status, body.
      * intros [e H]. discriminate.
      * intros [H | [H | (d & H & _)]]; try discriminate;
          injection H as H'; now elim Hs.
Qed.

Lemma get_weather_failures_witness :
  value (get_weather (u "Кёльн", 50.9375, 6.9603)%Q (always (Response 503 None)) 0) = Ok None /\
  exists e, value (get_weather (u "Кёльн", 50.9375, 6.9603)%Q
                     (always (Response 200 (Some (JArr [])))) 0) = Raise e.
Proof.
  split.
  - apply (proj1 (@get_weather_failures (u "Кёльн", 50.9375, 6.9603)%Q
                    (always (Response 503 None)) 0%nat)).
    exists 503%Z, None. split; [reflexivity | discriminate].
  - apply (proj2 (@get_weather_failures (u "Кёльн", 50.9375, 6.9603)%Q
                    (always (Response 200 (Some (JArr [])))) 0%nat)).
    right. right. exists (JArr []). split; [reflexivity | discriminate].
Defined.

(** ** The all-locations handlers under any network *)

Lemma requests_of_app (a b : list effect) : requests (a ++ b) = requests a ++ requests b.
Proof. unfold requests. apply filter_app. Qed.

Section Progress.

Variable step : city -> M unit.
Variable req : city -> effect.

Hypothesis step_requests :
  forall c net n, requests (events (step c net n)) = [req c].

Hypothesis step_replies :
  forall c net n,
    (exists t, sent_texts (events (step c net n)) = [t] /\ names_location c t /\
               value (step c net n) = Ok tt) \/
    (sent_texts (events (step c net n)) = [] /\ exists e, value (step c net n) = Raise e).

Lemma loop_progress (cs : list city) :
  forall net n,
  exists ts,
    sent_texts (events (for_each cs step net n)) = ts /\
    Forall2 names_location (firstn (List.length ts) cs) ts /\
    ((value (for_each cs step net n) = Ok tt /\ List.length ts = List.length cs /\
      requests (events (for_each cs step net n)) = map req cs) \/
     ((exists e, value (for_each cs step net n) = Raise e) /\
      (List.length ts < List.length cs)%nat /\
      requests (events (for_each cs step net n)) = map req (firstn (S (List.length ts)) cs))).
Proof.
  induction cs as [|c cs IH]; intros net n.
  - exists []. split; [reflexivity|]. split; [constructor|]. left. repeat split.
  - cbn [for_each]. unfold bind.
    pose proof (step_requests c net n) as Hreq.
    destruct (step_replies c net n) as [(t & Ht & Hname & Hv) | (Ht & e & Hv)]; rewrite Hv.
    + destruct (IH net (calls (step c net n))) as (ts & Hts & Hall & Hend).
      exists (t :: ts). cbn [events value].
      rewrite sent_texts_app, requests_of_app, Ht, Hreq, Hts. cbn [List.length firstn app].
      split; [reflexivity|]. split; [now constructor|].
      destruct Hend as [(Hok & Hlen & Hr) | (Hr & Hlen & Hq)].
      * left. rewrite Hok, Hlen, Hr. repeat split.
      * right. rewrite Hq. repeat split; [exact Hr | lia].
    + exists []. cbn [events value]. rewrite Ht, Hreq. cbn [List.length firstn map].
      split; [reflexivity|]. split; [constructor|].
      right. repeat split; [now exists e | lia].
Qed.

End Progress.

Lemma format_weather_names (data : json) (t : text) :
  format_weather data = Ok t ->
  exists city fs,
    Json.getitem data (u "name") = Ok city /\ t = Text fs /\ In (FVal city) fs.
Proof.
  unfold format_weather. intros H.
  destruct (Json.getitem data (u "name")) as [city|] eqn:Ec; simpl in H; [|discriminate].
  repeat match type of H with
         | rbind ?r _ = Ok _ => destruct r; simpl in H; [|discriminate]
         end.
  injection H as <-. exists city. eexists. split; [reflexivity|]. split; [reflexivity|].
  simpl. auto.
Qed.

Lemma weather_step_replies (mk : city -> option keyboard) (c : city) net n :
  let step := bind (get_weather c) (fun weather_data =>
                reply_weather (city_name c) (mk c) weather_data) in
  (exists t, sent_texts (events (step net n)) = [t] /\ names_location c t /\
             value (step net n) = Ok tt) \/
  (sent_texts (events (step net n)) = [] /\ exists e, value (step net n) = Raise e).
Proof.
  assert (Hsorry : names_location c (Msg.weather_failed (city_name c))).
  { eexists. split; [left; reflexivity|]. left. simpl. auto. }
  cbv zeta. unfold bind. rewrite get_weather_run.
  destruct (net n) as [|status body]; simpl.
  - right. split; [reflexivity | now exists ClientError].
  - destruct (status =? 200)%Z; simpl.
    + destruct body as [data|]; simpl; [|right; split; [reflexivity | eauto]].
      destruct data; simpl; try (right; split; [reflexivity | eauto]).
      set (data' := JObj (dict_set kv (u "name") (JStr (city_name c)))).
      assert (Hn : Json.getitem data' (u "name") = Ok (JStr (city_name c))).
      { subst data'. simpl. now rewrite dict_get_set_same. }
      assert (Htr : match dict_set kv (u "name") (JStr (city_name c)) with
                    | [] => false
                    | _ :: _ => true
                    end = true).
      { destruct kv as [|[k v] kv]; simpl; [reflexivity|].
        destruct (PyStr.eqb k (u "name")); reflexivity. }
      rewrite Htr. unfold bind, lift. cbn [events calls value].
      destruct (format_weather data') as [t|e] eqn:Ef; cbn [events calls value app].
      * left. exists t. repeat split.
        destruct (format_weather_names _ Ef) as (city & fs & Hc & -> & Hin).
        rewrite Hn in Hc. injection Hc as <-.
        exists fs. split; [now left | now right].
      * right. split; [reflexivity | eauto].
    + left. eexists. repeat split. exact Hsorry.
Qed.

Lemma reply_forecast_requests a b fd net n :
  requests (events (reply_forecast a b fd net n)) = [].
Proof.
  unfold reply_forecast. destruct fd as [[|d ds]|]; try reflexivity.
  unfold bind, lift. simpl. destruct (format_forecast a (d :: ds)); reflexivity.
Qed.

Lemma forecast_one_requests (c : city) a b net n :
  requests (events (bind (get_forecast c) (fun fd => reply_forecast a b fd) net n))
  = [forecast_request c].
Proof.
  unfold bind. rewrite get_forecast_run.
  destruct (net n) as [|status body]; simpl; [reflexivity|].
  destruct (status =? 200)%Z; simpl.
  - destruct (rbind (response_json body) _) as [fd|e]; simpl; [|reflexivity].
    unfold forecast_request. f_equal. apply reply_forecast_requests.
  - reflexivity.
Qed.

Lemma forecast_step_replies (c : city) net n :
  let step := bind (get_forecast c) (fun forecast_data =>
                reply_forecast (city_name c) (city_name c) forecast_data) in
  (exists t, sent_texts (events (step net n)) = [t] /\ names_location c t /\
             value (step net n) = Ok tt) \/
  (sent_texts (events (step net n)) = [] /\ exists e, value (step net n) = Raise e).
Proof.
  assert (Hsorry : names_location c (Msg.forecast_failed (city_name c))).
  { eexists. split; [left; reflexivity|]. left. simpl. auto. }
  cbv zeta. unfold bind. rewrite get_forecast_run.
  destruct (net n) as [|status body]; cbn [events calls value].
  - right. split; [reflexivity | now exists ClientError].
  - destruct (status =? 200)%Z; cbn [events calls value].
    + destruct (rbind (response_json body) _) as [[[|d ds]|]|e]; cbn [events calls value].
      * left. eexists. repeat split. exact Hsorry.
      * unfold reply_forecast, bind, lift. cbn [events calls value].
        destruct (format_forecast (city_name c) (d :: ds)) as [t|e] eqn:Ef;
          cbn [events calls value app].
        -- left. exists t. repeat split.
           unfold format_forecast in Ef.
           destruct (format_days (d :: ds)) as [blocks|]; simpl in Ef; [|discriminate].
           injection Ef as <-. eexists. split; [right; reflexivity|]. left. simpl. auto.
        -- right. split; [reflexivity | eauto].
      * left. eexists. repeat split. exact Hsorry.
      * right. split; [reflexivity | eauto].
    + left. eexists. repeat split. exact Hsorry.
Qed.

(** X7: under any network, [cmd_weather] sends its loading notice and then
    one reply for each of the first locations of the list, in order, each
    naming its location; it asks the weather endpoint once per location, in
    list order, up to the location at which an exception ends it, and for
    every location when it returns normally.  The [weather_all] button does
    the same after editing the notice into the message. *)
Theorem weather_all_progress (cities : list city) (net : network) (n : nat) :
  (exists ts,
     sent_texts (events (cmd_weather cities net n))
       = Msg.loading_weather_all (List.length cities) :: ts /\
     progress weather_request cities (cmd_weather cities net n) ts) /\
  (exists ts,
     sent_texts (events (process_callback cities (u "weather_all") net n)) = ts /\
     progress weather_request cities (process_callback cities (u "weather_all") net n) ts).
Proof.
  split.
  - destruct (@loop_progress
                (fun c => bind (get_weather c) (fun weather_data =>
                   reply_weather (city_name c) None weather_data))
                weather_request
                (fun c net n => weather_one_requests c (city_name c) None net n)
                (weather_step_replies (fun _ => None))
                cities net n) as (ts & Hts & Hall & Hend).
    exists ts.
    set (loop := for_each cities _) in *.
    assert (Hrun : cmd_weather cities net n =
              Run (SendMessage (Msg.loading_weather_all (List.length cities)) None None
                     :: events (loop net n)) (calls (loop net n)) (value (loop net n)))
      by reflexivity.
    rewrite Hrun. unfold progress, requests. cbn [events value sent_texts filter is_request].
    fold (requests (events (loop net n))). rewrite Hts.
    split; [reflexivity|]. split; [exact Hall | exact Hend].
  - destruct (@loop_progress
                (fun c => bind (get_weather c) (fun weather_data =>
                   reply_weather (city_name c)
                     (Some (get_forecast_keyboard (city_name c))) weather_data))
                weather_request
                (fun c net n => weather_one_requests c (city_name c)
                                  (Some (get_forecast_keyboard (city_name c))) net n)
                (weather_step_replies
                   (fun c => Some (get_forecast_keyboard (city_name c))))
                cities net n) as (ts & Hts & Hall & Hend).
    exists ts. unfold process_callback. rewrite eqb_refl.
    set (loop := for_each cities _) in *.
    set (edit := EditMessage (Msg.loading_weather_all (List.length cities)) None
                   (Some get_main_keyboard)).
    assert (Hrun : bind (edit_text (Msg.loading_weather_all (List.length cities)) None
                           (Some get_main_keyboard))
                     (fun _ => bind loop (fun _ => call_answer)) net n =
              match value (loop net n) with
              | Ok _ => Run (edit :: events (loop net n) ++ [AckCallback])
                            (calls (loop net n)) (Ok tt)
              | Raise e => Run (edit :: events (loop net n)) (calls (loop net n)) (Raise e)
              end).
    { unfold bind. cbn [edit_text emit events value calls].
      destruct (value (loop net n)); reflexivity. }
    rewrite Hrun. unfold progress.
    destruct Hend as [(Hok & Hlen & Hr) | ((e & He) & Hlen & Hr)].
    + rewrite Hok. unfold requests. cbn [events value sent_texts filter is_request].
      fold (requests (events (loop net n) ++ [AckCallback])).
      rewrite sent_texts_app, requests_of_app, Hts, Hr. cbn.
      rewrite !app_nil_r. split; [reflexivity|]. split; [exact Hall|]. left. auto.
    + rewrite He. unfold requests. cbn [events value sent_texts filter is_request].
      fold (requests (events (loop net n))). rewrite Hts.
      split; [reflexivity|]. split; [exact Hall|]. right. split; [now exists e | now split].
Qed.

(** X8: under any network, [cmd_forecast] sends its loading notice and then
    one reply for each of the first locations of the list, in order, each
    naming its location; it asks the forecast endpoint once per location, in
    list order, up to the location at which an exception ends it, and for
    every location when it returns normally.  The [forecast_all] button does
    the same after editing the notice into the message. *)
Theorem forecast_all_progress (cities : list city) (net : network) (n : nat) :
  (exists ts,
     sent_texts (events (cmd_forecast cities net n))
       = Msg.loading_forecast_all (List.length cities) :: ts /\
     progress forecast_request cities (cmd_forecast cities net n) ts) /\
  (exists ts,
     sent_texts (events (process_callback cities (u "forecast_all") net n)) = ts /\
     progress forecast_request cities (process_callback cities (u "forecast_all") net n) ts).
Proof.
  destruct (@loop_progress
              (fun c => bind (get_forecast c) (fun forecast_data =>
                 reply_forecast (city_name c) (city_name c) forecast_data))
              forecast_request
              (fun c net n => forecast_one_requests c (city_name c) (city_name c) net n)
              forecast_step_replies
              cities net n) as (ts & Hts & Hall & Hend).
  set (loop := for_each cities _) in *.
  split; exists ts.
  - assert (Hrun : cmd_forecast cities net n =
              Run (SendMessage (Msg.loading_forecast_all (List.length cities)) None None
                     :: events (loop net n)) (calls (loop net n)) (value (loop net n)))
      by reflexivity.
    rewrite Hrun. unfold progress, requests. cbn [events value sent_texts filter is_request].
    fold (requests (events (loop net n))). rewrite Hts.
    split; [reflexivity|]. split; [exact Hall | exact Hend].
  - set (edit := EditMessage (Msg.loading_forecast_all (List.length cities)) None
                   (Some get_main_keyboard)).
    assert (Hrun : process_callback cities (u "forecast_all") net n =
              match value (loop net n) with
              | Ok _ => Run (edit :: events (loop net n) ++ [AckCallback])
                            (calls (loop net n)) (Ok tt)
              | Raise e => Run (edit :: events (loop net n)) (calls (loop net n)) (Raise e)
              end).
    { change (process_callback cities (u "forecast_all")) with
        (bind (edit_text (Msg.loading_forecast_all (List.length cities)) None
                 (Some get_main_keyboard))
              (fun _ => bind loop (fun _ => call_answer))).
      unfold bind. cbn [edit_text emit events value calls].
      destruct (value (loop net n)); reflexivity. }
    rewrite Hrun. unfold progress.
    destruct Hend as [(Hok & Hlen & Hr) | ((e & He) & Hlen & Hr)].
    + rewrite Hok. unfold requests. cbn [events value sent_texts filter is_request].
      fold (requests (events (loop net n) ++ [AckCallback])).
      rewrite sent_texts_app, requests_of_app, Hts, Hr. cbn.
      rewrite !app_nil_r. split; [reflexivity|]. split; [exact Hall|]. left. auto.
    + rewrite He. unfold requests. cbn [events value sent_texts filter is_request].
      fold (requests (events (loop net n))). rewrite Hts.
      split; [reflexivity|]. split; [exact Hall|]. right. split; [now exists e | now split].
Qed.

(** ** Answers the formatter cannot render *)

Lemma format_weather_needs (data : json) (t : text) :
  format_weather data = Ok t ->
  forall k, In k [u "main"; u "wind"; u "weather"; u "dt"] ->
  exists v, Json.getitem data k = Ok v.
Proof.
  unfold format_weather. intros H.
  repeat match type of H with
         | rbind ?r _ = Ok _ => destruct r eqn:?; simpl in H; [|discriminate]
         end.
  intros k [<- | [<- | [<- | [<- | []]]]]; eauto.
Qed.

(** X9: a status-200 answer that is an object but lacks one of the fields
    [main], [wind], [weather] and [dt] is not treated as a failed fetch: the
    request for the first location made, [cmd_weather] ends in an exception
    with no reply and no apology, for that location or for any after it. *)
Theorem weather_missing_field (c : city) (rest : list city) (net : network) (n : nat)
    (kv : list (pystr * json)) (k : pystr) :
  net n = Response 200 (Some (JObj kv)) ->
  In k [u "main"; u "wind"; u "weather"; u "dt"] ->
  dict_get kv k = None ->
  exists e,
    cmd_weather (c :: rest) net n =
    Run [ SendMessage (Msg.loading_weather_all (S (List.length rest))) None None;
          weather_request c ] (S n) (Raise e).
Proof.
  intros Hn Hk Hmiss.
  set (data' := JObj (dict_set kv (u "name") (JStr (city_name c)))).
  assert (Hf : exists e, format_weather data' = Raise e).
  { destruct (format_weather data') as [t|e] eqn:Ef; [|now exists e].
    destruct (@format_weather_needs data' t Ef k Hk) as [v Hv].
    subst data'. simpl in Hv. rewrite dict_get_set_other in Hv.
    - rewrite Hmiss in Hv. discriminate.
    - destruct Hk as [<- | [<- | [<- | [<- | []]]]]; discriminate. }
  destruct Hf as [e Hf]. exists e.
  unfold cmd_weather. cbn [for_each]. unfold bind.
  cbn [answer emit events value calls]. rewrite get_weather_run, Hn.
  cbn [Z.eqb Pos.eqb response_json rbind Json.setitem events value calls].
  fold data'. unfold reply_weather.
  rewrite (@setitem_truthy (JObj kv) data' (u "name") (JStr (city_name c)) eq_refl).
  unfold bind, lift. cbn [events value calls]. rewrite Hf. reflexivity.
Qed.

Lemma weather_missing_field_witness :
  exists e,
    cmd_weather CITIES (always (Response 200 (Some (JObj [(u "cod", JInt 200)])))) 0 =
    Run [ SendMessage (Msg.loading_weather_all 7) None None;
          weather_request (u "Кёльн", 50.9375, 6.9603)%Q ] 1 (Raise e).
Proof.
  apply (@weather_missing_field (u "Кёльн", 50.9375, 6.9603)%Q (skipn 1 CITIES)
           (always (Response 200 (Some (JObj [(u "cod", JInt 200)])))) 0%nat
           [(u "cod", JInt 200)] (u "main") eq_refl).
  - left. reflexivity.
  - reflexivity.
Defined.

(** ** The rate client: which quote is kept *)

(** X10: when the quotation list is read without an exception, the rate
    [get_exchange_rates] returns for EUR is the [sale] quote of the last
    entry whose currency code is EUR, earlier entries for EUR being
    overwritten, and the entry for UAH is 1.0. *)
Theorem last_eur_quote_wins (net : network) (n : nat)
    (before after : list json) (item sale : json) (f : pyfloat) (r : rates) :
  net n = Response 200 (Some (JArr (before ++ item :: after))) ->
  read_rates (JArr (before ++ item :: after)) = Ok r ->
  Json.get item (u "ccy") JNull = Ok (JStr (u "EUR")) ->
  Json.get item (u "sale") (JStr (u "44.5")) = Ok sale ->
  Builtins.float sale = Ok f ->
  (forall x, In x after -> Json.get x (u "ccy") JNull <> Ok (JStr (u "EUR"))) ->
  value (get_exchange_rates net n) = Ok [(u "EUR", f); (u "UAH", Fin 1)].
Proof.
  intros Hn Hr Hccy Hsale Hf Hafter.
  rewrite get_exchange_rates_run, Hn. simpl. rewrite Hr. simpl. f_equal.
  unfold read_rates in Hr. simpl in Hr. rewrite scan_items_app in Hr.
  destruct (scan_items [(u "EUR", Fin 1); (u "UAH", Fin 44.5)] before) as [acc|] eqn:Eb;
    simpl in Hr; [|discriminate].
  destruct (@scan_items_two_keys before _ acc (ex_intro _ _ (ex_intro _ _ eq_refl)) Eb)
    as (a & b & ->).
  cbn [scan_items] in Hr. rewrite (scan_item_eur _ _ Hccy Hsale Hf) in Hr.
  cbn [rbind] in Hr.
  change (dict_set (dict_set [(u "EUR", a); (u "UAH", b)] (u "EUR") f) (u "UAH") (Fin 1))
    with [(u "EUR", f); (u "UAH", Fin 1)] in Hr.
  destruct (scan_items_no_eur after [(u "EUR", f); (u "UAH", Fin 1)] Hafter)
    as [E | [e E]]; rewrite E in Hr; [now injection Hr as <- | discriminate].
Qed.

Lemma last_eur_quote_wins_witness :
  value (get_exchange_rates (always (Response 200 (Some (JArr two_eur_quotes)))) 0)
    = Ok [(u "EUR", Fin (89 # 2)); (u "UAH", Fin 1)].
Proof.
  apply (@last_eur_quote_wins (always (Response 200 (Some (JArr two_eur_quotes)))) 0%nat
           (firstn 1 two_eur_quotes)
           (skipn 2 two_eur_quotes)
           (JObj [(u "ccy", JStr (u "EUR")); (u "buy", JStr (u "43.8"))])
           (JStr (u "44.5")) (Fin (89 # 2)) [(u "EUR", Fin (89 # 2)); (u "UAH", Fin 1)]
           eq_refl eq_refl eq_refl eq_refl eq_refl).
  intros x [<- | []]. discriminate.
Defined.

(** ** The currency handlers *)

(** X11: [convert_currency] fails only by dividing by a zero rate: it raises
    exactly when the two currency codes differ, the source code is not EUR,
    and the EUR entry of the rates is zero, and the exception is then
    [ZeroDivisionError].  A source code other than EUR is converted by
    division whatever it is. *)
Theorem convert_currency_failures (amount : pyfloat) (from_currency to_currency : pystr)
    (r : rates) :
  ((exists e, convert_currency amount from_currency to_currency r = Raise e) <->
   from_currency <> to_currency /\ from_currency <> u "EUR" /\
   is_zero (rates_get r (u "EUR")) = true) /\
  (forall e, convert_currency amount from_currency to_currency r = Raise e ->
     e = ZeroDivisionError) /\
  (from_currency <> to_currency -> from_currency <> u "EUR" ->
   is_zero (rates_get r (u "EUR")) = false ->
   convert_currency amount from_currency to_currency r =
   Ok (div_nz amount (rates_get r (u "EUR")), div_nz (Fin 1) (rates_get r (u "EUR")))).
Proof.
  assert (Hcc : convert_currency amount from_currency to_currency r =
    if PyStr.eqb from_currency to_currency then Ok (amount, rates_get r from_currency)
    else if PyStr.eqb from_currency (u "EUR")
    then Ok (mul amount (rates_get r (u "EUR")), rates_get r (u "EUR"))
    else if is_zero (rates_get r (u "EUR")) then Raise ZeroDivisionError
    else Ok (div_nz amount (rates_get r (u "EUR")), div_nz (Fin 1) (rates_get r (u "EUR")))).
  { unfold convert_currency, fdiv.
    destruct (PyStr.eqb from_currency to_currency); [reflexivity|].
    destruct (PyStr.eqb from_currency (u "EUR")); [reflexivity|].
    destruct (is_zero (rates_get r (u "EUR"))); reflexivity. }
  rewrite Hcc. clear Hcc.
  destruct (PyStr.eqb from_currency to_currency) eqn:E1.
  { apply eqb_eq in E1. split; [split|split].
    - intros [e H]. discriminate.
    - intros [H _]. contradiction.
    - discriminate.
    - intros H. contradiction. }
  destruct (PyStr.eqb from_currency (u "EUR")) eqn:E2.
  { apply eqb_eq in E2. split; [split|split].
    - intros [e H]. discriminate.
    - intros [_ [H _]]. contradiction.
    - discriminate.
    - intros _ H. contradiction. }
  apply eqb_neq in E1, E2.
  destruct (is_zero (rates_get r (u "EUR"))) eqn:Ez; split; [split|split| split|split].
  - intros _. auto.
  - intros _. now exists ZeroDivisionError.
  - intros e H. now injection H as <-.
  - discriminate.
  - intros [e H]. discriminate.
  - intros (_ & _ & H). discriminate.
  - discriminate.
  - reflexivity.
Qed.

Lemma convert_currency_failures_witness :
  (exists e, convert_currency (Fin 100) (u "UAH") (u "EUR")
               [(u "EUR", Fin 0); (u "UAH", Fin 1)] = Raise e) /\
  convert_currency (Fin 100) (u "USD") (u "EUR") [(u "EUR", Fin 40); (u "UAH", Fin 1)]
    = Ok (Fin (5 # 2), Fin (3602879701896397 # 144115188075855872)).
Proof.
  split.
  - apply (proj1 (@convert_currency_failures (Fin 100) (u "UAH") (u "EUR")
                    [(u "EUR", Fin 0); (u "UAH", Fin 1)])).
    repeat split; discriminate || reflexivity.
  - transitivity
      (Ok (div_nz (Fin 100) (rates_get [(u "EUR", Fin 40); (u "UAH", Fin 1)] (u "EUR")),
           div_nz (Fin 1) (rates_get [(u "EUR", Fin 40); (u "UAH", Fin 1)] (u "EUR"))));
      [|vm_compute; reflexivity].
    apply (proj2 (proj2 (@convert_currency_failures (Fin 100) (u "USD") (u "EUR")
                           [(u "EUR", Fin 40); (u "UAH", Fin 1)])));
      discriminate || reflexivity.
Defined.

(** X12: a conversion command with a valid amount and a supported currency
    makes one request to the rate provider and replies with the amount, the
    converted amount and the rate it used: for EUR the amount times the rate
    read under EUR, never failing; for UAH the amount divided by that rate
    and the inverse rate, unless the rate is zero, in which case the handler
    ends in [ZeroDivisionError] without a reply. *)
Theorem currency_conversion (message_text c tok cur : pystr) (rest : list pystr)
    (amount : pyfloat) (net : network) (n : nat) (r : rates) :
  split_ws message_text = c :: tok :: cur :: rest ->
  Builtins.float_of_str (replace tok (u ",") (u ".")) = Some amount ->
  value (get_exchange_rates net n) = Ok r ->
  (upper cur = u "EUR" ->
   cmd_currency message_text net n =
   Run (events (get_exchange_rates net n) ++
        [SendMessage (Msg.converted_eur amount (mul amount (rates_get r (u "EUR")))
                        (rates_get r (u "EUR"))) markdown None])
       (S n) (Ok tt)) /\
  (upper cur = u "UAH" -> is_zero (rates_get r (u "EUR")) = false ->
   cmd_currency message_text net n =
   Run (events (get_exchange_rates net n) ++
        [SendMessage (Msg.converted_uah amount (div_nz amount (rates_get r (u "EUR")))
                        (div_nz (Fin 1) (rates_get r (u "EUR")))) markdown None])
       (S n) (Ok tt)) /\
  (upper cur = u "UAH" -> is_zero (rates_get r (u "EUR")) = true ->
   cmd_currency message_text net n =
   Run (events (get_exchange_rates net n)) (S n) (Raise ZeroDivisionError)).
Proof.
  intros Hs Ha Hv. pose proof (rates_request_count net n) as Hc.
  unfold cmd_currency. rewrite Hs, Ha.
  split; [|split].
  - intros ->. change (PyStr.eqb (u "EUR") (u "EUR")) with true. cbn [orb negb].
    unfold bind. rewrite Hv, Hc. reflexivity.
  - intros -> Hz. change (PyStr.eqb (u "UAH") (u "EUR")) with false.
    change (PyStr.eqb (u "UAH") (u "UAH")) with true. cbn [orb negb].
    unfold bind. rewrite Hv, Hc. unfold lift, convert_currency, fdiv.
    change (PyStr.eqb (u "UAH") (u "EUR")) with false. cbv iota.
    rewrite Hz. reflexivity.
  - intros -> Hz. change (PyStr.eqb (u "UAH") (u "EUR")) with false.
    change (PyStr.eqb (u "UAH") (u "UAH")) with true. cbn [orb negb].
    unfold bind. rewrite Hv, Hc. unfold lift, convert_currency, fdiv.
    change (PyStr.eqb (u "UAH") (u "EUR")) with false. cbv iota.
    rewrite Hz. cbn [rbind events value calls]. now rewrite app_nil_r.
Qed.

Lemma currency_conversion_witness :
  cmd_currency (u "/currency 100 EUR") (always (Response 200 (Some usual_quote))) 0 =
    Run [ Request RatesAPI None None;
          SendMessage (Msg.converted_eur (Fin 100) (Fin 4450) (Fin (89 # 2))) markdown None ]
        1 (Ok tt) /\
  cmd_currency (u "/currency 100 uah") (always (Response 200 (Some zero_quote))) 0 =
    Run [Request RatesAPI None None] 1 (Raise ZeroDivisionError).
Proof.
  split.
  - apply (proj1 (@currency_conversion (u "/currency 100 EUR") (u "/currency") (u "100")
                    (u "EUR") [] (Fin 100) (always (Response 200 (Some usual_quote))) 0%nat
                    [(u "EUR", Fin (89 # 2)); (u "UAH", Fin 1)] eq_refl eq_refl eq_refl)).
    reflexivity.
  - apply (proj2 (proj2 (@currency_conversion (u "/currency 100 uah") (u "/currency")
                           (u "100") (u "uah") [] (Fin 100)
                           (always (Response 200 (Some zero_quote))) 0%nat
                           [(u "EUR", Fin 0); (u "UAH", Fin 1)] eq_refl eq_refl eq_refl)));
      reflexivity.
Defined.

(** Amounts at the edges of what [float] reads: an amount beyond the
    largest float is an infinity, and digits of another script are read. *)
Example currency_extremes :
  sent_texts (events (cmd_currency (u "/currency 1e400 EUR")
                        (always (Response 200 (Some usual_quote))) 0))
    = [Msg.converted_eur PInf PInf (Fin (89 # 2))] /\
  sent_texts (events (cmd_currency (u "/currency ٣ eur")
                        (always (Response 200 (Some usual_quote))) 0))
    = [Msg.converted_eur (Fin 3) (Fin (267 # 2)) (Fin (89 # 2))] /\
  sent_texts (events (cmd_currency (u "/currency -0 UAH")
                        (always (Response 200 (Some usual_quote))) 0))
    = [Msg.converted_uah NegZero NegZero (Fin (404817944033303 # 18014398509481984))].
Proof. repeat split; vm_compute; reflexivity. Qed.

Lemma fallback_run (net : network) (n : nat) :
  rate_fetch_failed (net n) ->
  exists logs,
    Forall is_log logs /\
    get_exchange_rates net n = Run (Request RatesAPI None None :: logs) (S n) (Ok EXCHANGE_RATES).
Proof.
  intros H. rewrite get_exchange_rates_run.
  assert (Hlog : forall s, Forall is_log [LogError s]).
  { intros s. constructor; [now exists s | constructor]. }
  inversion H as [Hn | status body Hs Hn | Hn | data e He Hn | items Hi Hn]; simpl.
  - eexists. split; [apply Hlog | reflexivity].
  - destruct (Z.eqb_spec status 200) as [->|_]; [now elim Hs|].
    eexists. split; [apply Hlog | reflexivity].
  - eexists. split; [apply Hlog | reflexivity].
  - rewrite He. eexists. split; [apply Hlog | reflexivity].
  - unfold read_rates; simpl.
    destruct (scan_items_no_eur items [(u "EUR", Fin 1); (u "UAH", Fin 44.5)] Hi)
      as [-> | [e ->]].
    + exists []. split; [constructor | reflexivity].
    + eexists. split; [apply Hlog | reflexivity].
Qed.

(** X13: when the rate fetch fails, the three currency views -- the
    [/currency] command without an amount, the [currency] button and the
    rate refresh -- show the quotation read from the fallback dictionary
    under EUR: a rate of 1.0 and an inverse of 1.0.  Nothing but log lines
    lies between the request and the message, and the refresh edits the
    message where the other two send a new one. *)
Theorem currency_views_on_fallback (cities : list city) (message_text : pystr)
    (net : network) (n : nat) :
  rate_fetch_failed (net n) ->
  (List.length (split_ws message_text) < 2)%nat ->
  exists logs,
    Forall is_log logs /\
    cmd_currency message_text net n =
      Run (Request RatesAPI None None :: logs ++
           [SendMessage (Msg.currency_menu (Fin 1) (Fin 1)) markdown
              (Some get_currency_keyboard)]) (S n) (Ok tt) /\
    process_callback cities (u "currency") net n =
      Run (Request RatesAPI None None :: logs ++
           [SendMessage (Msg.currency_button (Fin 1) (Fin 1)) markdown
              (Some get_currency_keyboard); AckCallback]) (S n) (Ok tt) /\
    process_callback cities (u "currency_rates") net n =
      Run (Request RatesAPI None None :: logs ++
           [EditMessage (Msg.currency_refreshed (Fin 1) (Fin 1)) markdown
              (Some get_currency_keyboard); AckCallback]) (S n) (Ok tt).
Proof.
  intros Hf Hlen. destruct (fallback_run net n Hf) as (logs & Hlogs & Hrun).
  exists logs. split; [exact Hlogs|]. split; [|split].
  - unfold cmd_currency.
    destruct (split_ws message_text) as [|c [|tok rest]]; [| |simpl in Hlen; lia];
      unfold bind; rewrite Hrun; reflexivity.
  - change (process_callback cities (u "currency")) with
      (bind get_exchange_rates (fun r => bind (lift (quote r)) (fun q =>
         bind (answer (Msg.currency_button (fst q) (snd q)) markdown
                 (Some get_currency_keyboard)) (fun _ => call_answer)))).
    unfold bind at 1. rewrite Hrun. cbn [events value calls].
    cbn. first [reflexivity | now rewrite <- app_assoc | now rewrite app_assoc].
  - change (process_callback cities (u "currency_rates")) with
      (bind get_exchange_rates (fun r => bind (lift (quote r)) (fun q =>
         bind (edit_text (Msg.currency_refreshed (fst q) (snd q)) markdown
                 (Some get_currency_keyboard)) (fun _ => call_answer)))).
    unfold bind at 1. rewrite Hrun. cbn [events value calls].
    cbn. first [reflexivity | now rewrite <- app_assoc | now rewrite app_assoc].
Qed.

Lemma currency_views_on_fallback_witness :
  exists logs,
    Forall is_log logs /\
    cmd_currency (u "/currency") (always (Response 503 None)) 0 =
      Run (Request RatesAPI None None :: logs ++
           [SendMessage (Msg.currency_menu (Fin 1) (Fin 1)) markdown
              (Some get_currency_keyboard)]) 1 (Ok tt) /\
    process_callback CITIES (u "currency") (always (Response 503 None)) 0 =
      Run (Request RatesAPI None None :: logs ++
           [SendMessage (Msg.currency_button (Fin 1) (Fin 1)) markdown
              (Some get_currency_keyboard); AckCallback]) 1 (Ok tt) /\
    process_callback CITIES (u "currency_rates") (always (Response 503 None)) 0 =
      Run (Request RatesAPI None None :: logs ++
           [EditMessage (Msg.currency_refreshed (Fin 1) (Fin 1)) markdown
              (Some get_currency_keyboard); AckCallback]) 1 (Ok tt).
Proof.
  apply (@currency_views_on_fallback CITIES (u "/currency") (always (Response 503 None)) 0%nat).
  - apply failed_status. discriminate.
  - simpl. lia.
Defined.

(** ** /city without a name *)

Lemma lstrip_app_spaces (lead s : pystr) :
  Forall (fun c => isspace c = true) lead -> lstrip (lead ++ s) = lstrip s.
Proof.
  induction 1 as [|c lead Hc _ IH]; simpl; auto. now rewrite Hc.
Qed.

Lemma lstrip_spaces (ws : pystr) :
  Forall (fun c => isspace c = true) ws -> lstrip ws = [].
Proof.
  intros H. rewrite <- (app_nil_r ws). now rewrite lstrip_app_spaces.
Qed.

Lemma break_word_app (w trail : pystr) :
  Forall (fun c => isspace c = false) w ->
  Forall (fun c => isspace c = true) trail ->
  break_word (w ++ trail) = (w, trail).
Proof.
  intros Hw Ht. induction Hw as [|c w Hc _ IH]; simpl.
  - destruct Ht as [|c trail Hc _]; simpl; [reflexivity | now rewrite Hc].
  - now rewrite Hc, IH.
Qed.

(** X14: a [/city] message with nothing but whitespace after its first
    word -- or made of whitespace only -- gets the "give a city name" reply:
    no location is looked up and no request is made. *)
Theorem city_without_name (cities : list city) (lead word trail : pystr)
    (net : network) (n : nat) :
  Forall (fun c => isspace c = true) lead ->
  Forall (fun c => isspace c = false) word ->
  Forall (fun c => isspace c = true) trail ->
  cmd_city cities (lead ++ word ++ trail) net n =
  Run [SendMessage Msg.city_missing None None] n (Ok tt).
Proof.
  intros Hl Hw Ht. unfold cmd_city, split_ws_max1.
  rewrite lstrip_app_spaces by exact Hl.
  destruct word as [|c word].
  - simpl. now rewrite lstrip_spaces.
  - assert (E : lstrip ((c :: word) ++ trail) = (c :: word) ++ trail).
    { simpl. inversion Hw as [|? ? Hc _]; subst. now rewrite Hc. }
    rewrite E. cbn [app]. cbv iota.
    change (c :: word ++ trail) with ((c :: word) ++ trail).
    rewrite (break_word_app Hw Ht), (lstrip_spaces Ht). reflexivity.
Qed.

Lemma city_without_name_witness :
  cmd_city CITIES (u "/city   ") (always NetworkError) 0 =
  Run [SendMessage Msg.city_missing None None] 0 (Ok tt).
Proof.
  apply (@city_without_name CITIES [] (u "/city") (u "   ") (always NetworkError) 0%nat).
  - constructor.
  - repeat constructor.
  - repeat constructor.
Defined.

(** ** The formatter *)

Lemma dict_get_none_iff {V} (d : list (pystr * V)) (k : pystr) :
  dict_get d k = None <-> ~ In k (dict_keys d).
Proof.
  induction d as [|[k' v] d IH]; simpl.
  - split; auto.
  - destruct (PyStr.eqb k' k) eqn:E.
    + apply eqb_eq in E. split; [discriminate | intros H; elim H; now left].
    + apply eqb_neq in E. rewrite IH. split.
      * intros H [H1 | H1]; auto.
      * intros H H1. apply H. now right.
Qed.

(** X15: the weather glyph is never an empty string: every icon that is
    not a list or an object gets a glyph, a string that is not one of the
    eighteen codes of the table and any other scalar -- null, a boolean, a
    number -- getting the thermometer; only an icon that is a list or an
    object makes the lookup raise. *)
Theorem emoji_never_empty :
  (forall icon e, emoji_of icon = Ok e -> e <> []) /\
  (forall icon,
     match icon with
     | JStr s => ~ In s (dict_keys weather_emojis)
     | JArr _ | JObj _ => False
     | _ => True
     end ->
     emoji_of icon = Ok (u "🌡️")) /\
  (forall icon, (exists x, emoji_of icon = Raise x) <->
                (exists l, icon = JArr l) \/ (exists kv, icon = JObj kv)).
Proof.
  split; [|split].
  - intros icon e H.
    assert (Hfor : forall s, emoji_for s <> []).
    { intros s. unfold emoji_for, weather_emojis. cbn [dict_get].
      repeat match goal with
             | |- context [PyStr.eqb ?a ?b] => destruct (PyStr.eqb a b)
             end; discriminate. }
    destruct icon; simpl in H; try discriminate; injection H as <-;
      first [apply Hfor | discriminate].
  - intros icon H. destruct icon as [| b | z | f | s | l | kv]; try reflexivity;
      try contradiction.
    cbn [emoji_of]. unfold emoji_for.
    now rewrite (proj2 (dict_get_none_iff weather_emojis s) H).
  - intros icon. split.
    + intros [x H]. destruct icon; simpl in H; try discriminate; eauto.
    + intros [[l ->] | [kv ->]]; now exists TypeError.
Qed.

Lemma emoji_never_empty_witness :
  emoji_of (JStr (u "99x")) = Ok (u "🌡️") /\ emoji_of (JInt 800) = Ok (u "🌡️").
Proof.
  split.
  - apply (proj1 (proj2 emoji_never_empty) (JStr (u "99x"))).
    intros H. simpl in H.
    repeat (destruct H as [H | H]; [discriminate H|]). exact H.
  - apply (proj1 (proj2 emoji_never_empty) (JInt 800)). exact I.
Defined.

Lemma round_shown (v : json) (t : Z) : Builtins.round v = Ok t -> shown_as v t.
Proof.
  destruct v as [| b | z | [q | | | |] | | |]; simpl; try discriminate;
    intros H; injection H as <-; try reflexivity.
  apply round_half_even_nearest.
Qed.

Lemma format_days_blocks (days : list forecast_day) :
  (forall fs, format_days days = Ok fs ->
     exists blocks, fs = concat blocks /\
       Forall2 (fun day block => format_day day = Ok block) days blocks) /\
  ((exists e, format_days days = Raise e) <->
   exists day, In day days /\ exists e, format_day day = Raise e).
Proof.
  induction days as [|day days [IH1 IH2]]; simpl.
  - split.
    + intros fs H. injection H as <-. exists []. split; [reflexivity | constructor].
    + split; [intros [e H]; discriminate | intros (d & [] & _)].
  - destruct (format_day day) as [block|e] eqn:Ed; simpl.
    + destruct (format_days days) as [rest|e] eqn:Er; simpl.
      * split.
        -- intros fs H. injection H as <-.
           destruct (IH1 rest eq_refl) as (blocks & -> & Hall).
           exists (block :: blocks). split; [reflexivity | now constructor].
        -- split; [intros [e H]; discriminate|].
           intros (d & [<- | Hin] & e & He); [rewrite Ed in He; discriminate|].
           destruct (proj2 IH2) as [x Hx]; [eauto | discriminate Hx].
      * split; [discriminate|]. split; [|intros _; now exists e].
        intros _. destruct (proj1 IH2 (ex_intro _ e eq_refl)) as (d & Hin & He).
        exists d. split; [now right | exact He].
    + split; [discriminate|]. split; [|intros _; now exists e].
      intros _. exists day. split; [now left | now exists e].
Qed.

Lemma format_forecast_ok (name : pystr) (days : list forecast_day) (t : text) :
  format_forecast name days = Ok t ->
  exists blocks,
    t = Stripped (forecast_header name ++ concat blocks) /\
    Forall2 (fun day block => format_day day = Ok block) days blocks.
Proof.
  destruct (format_days_blocks days) as [H1 _]. unfold format_forecast. intros H.
  destruct (format_days days) as [fs|] eqn:E; simpl in H; [|discriminate].
  injection H as <-. destruct (H1 fs eq_refl) as (blocks & -> & Hall). now exists blocks.
Qed.

(** X16: a forecast text is the header naming the location followed by one
    block per forecast day, in the order of the days; and [format_forecast]
    fails exactly when one of the days cannot be rendered. *)
Theorem forecast_blocks (name : pystr) (days : list forecast_day) :
  (forall t, format_forecast name days = Ok t ->
     exists blocks,
       t = Stripped (forecast_header name ++ concat blocks) /\
       Forall2 (fun day block => format_day day = Ok block) days blocks) /\
  ((exists e, format_forecast name days = Raise e) <->
   exists day, In day days /\ exists e, format_day day = Raise e).
Proof.
  split; [intros t; apply format_forecast_ok|].
  destruct (format_days_blocks days) as [_ H2]. unfold format_forecast.
  - rewrite <- H2. destruct (format_days days) as [fs|e]; simpl.
    + split; intros [x H]; discriminate.
    + split; intros _; now exists e.
Qed.

Lemma forecast_blocks_witness :
  exists blocks,
    Stripped (forecast_header (u "Кёльн") ++
              match format_days [sample_day (u "2024-05-01") (JInt 19) (JInt 18)] with
              | Ok fs => fs
              | Raise _ => []
              end)
    = Stripped (forecast_header (u "Кёльн") ++ concat blocks) /\
    Forall2 (fun day block => format_day day = Ok block)
            [sample_day (u "2024-05-01") (JInt 19) (JInt 18)] blocks.
Proof.
  apply (proj1 (forecast_blocks (u "Кёльн") [sample_day (u "2024-05-01") (JInt 19) (JInt 18)])).
  reflexivity.
Defined.

(** X17: in a forecast text every day's temperature and felt temperature
    are shown as integers: the value itself when the provider sent an
    integer, a nearest integer when it sent a finite float. *)
Theorem forecast_temperatures_rounded (name : pystr) (days : list forecast_day)
    (fs : list frag) :
  format_forecast name days = Ok (Stripped fs) ->
  forall day, In day days ->
  exists temp feels,
    shown_as (fd_temp day) temp /\ shown_as (fd_feels_like day) feels /\
    In (FInt temp) fs /\ In (FInt feels) fs.
Proof.
  intros H day Hin.
  destruct (format_forecast_ok _ _ H) as (blocks & E & Hall).
  injection E as ->.
  assert (Hb : exists block, In block blocks /\ format_day day = Ok block).
  { clear H. induction Hall as [|d b ds bs Hd _ IH]; [destruct Hin|].
    destruct Hin as [<- | Hin].
    - exists b. split; [now left | exact Hd].
    - destruct (IH Hin) as (block & Hb & Hf). exists block. split; [now right | exact Hf]. }
  destruct Hb as (block & Hb & Hf).
  destruct (format_day_rounds _ Hf) as (temp & feels & Ht & Hfe & I1 & I2).
  exists temp, feels. repeat split; try (now apply round_shown).
  - change (In (FInt temp) (forecast_header name ++ concat blocks)).
    apply in_or_app. right. apply in_concat. eauto.
  - change (In (FInt feels) (forecast_header name ++ concat blocks)).
    apply in_or_app. right. apply in_concat. eauto.
Qed.

Lemma forecast_temperatures_rounded_witness :
  exists temp feels,
    shown_as (JFloat (Fin 21.37)) temp /\ shown_as (JFloat (Fin 19.84)) feels /\
    In (FInt temp)
       (forecast_header (u "Кёльн") ++
        match format_days [sample_day (u "2024-05-01") (JFloat (Fin 21.37)) (JFloat (Fin 19.84))] with
        | Ok fs => fs
        | Raise _ => []
        end) /\
    In (FInt feels)
       (forecast_header (u "Кёльн") ++
        match format_days [sample_day (u "2024-05-01") (JFloat (Fin 21.37)) (JFloat (Fin 19.84))] with
        | Ok fs => fs
        | Raise _ => []
        end).
Proof.
  apply (@forecast_temperatures_rounded (u "Кёльн")
           [sample_day (u "2024-05-01") (JFloat (Fin 21.37)) (JFloat (Fin 19.84))] _ eq_refl
           (sample_day (u "2024-05-01") (JFloat (Fin 21.37)) (JFloat (Fin 19.84)))).
  now left.
Defined.

(** ** The forecast client: samples that are not midday samples *)

Lemma collect_item_other (daily : list (pystr * forecast_day)) (item : json) :
  timed item -> is_midday_sample item = false -> collect_item daily item = Ok daily.
Proof.
  intros [s Hs] Hm. unfold is_midday_sample, midday_date in Hm. unfold collect_item.
  rewrite Hs in *. simpl in *. destruct (contains s midday); [discriminate | reflexivity].
Qed.

Lemma collect_items_filter (items : list json) :
  Forall timed items ->
  forall daily,
    collect_items daily items = collect_items daily (filter is_midday_sample items).
Proof.
  induction 1 as [|item items Ht _ IH]; intros daily; simpl; [reflexivity|].
  destruct (is_midday_sample item) eqn:Em; simpl.
  - destruct (collect_item daily item); simpl; auto.
  - rewrite (collect_item_other daily Ht Em). simpl. apply IH.
Qed.



Lemma cmd_forecast_loop_sorry (items : list json) (cs : list city) :
  Forall timed items ->
  (forall item, In item items -> is_midday_sample item = false) ->
  forall n,
  exists es,
    for_each cs (fun c => bind (get_forecast c) (fun forecast_data =>
      reply_forecast (city_name c) (city_name c) forecast_data))
      (always (forecast_answer items)) n
    = Run es (n + List.length cs) (Ok tt) /\
    sent_texts es = map (fun c => Msg.forecast_failed (city_name c)) cs.
Proof.
  intros Ht Hm.
  assert (Hd : daily_forecast (JObj [(u "list", JArr items)]) = Ok []).
  { unfold daily_forecast. cbn [Json.get dict_get].
    change (PyStr.eqb (u "list") (u "list")) with true. cbn [rbind Json.iter].
    rewrite (collect_items_filter Ht).
    replace (filter is_midday_sample items) with (@nil json); [reflexivity|].
    symmetry. clear Ht. induction items as [|x items IH]; simpl; [reflexivity|].
    rewrite (Hm x (or_introl eq_refl)). apply IH. intros y Hy. apply Hm. now right. }
  induction cs as [|c cs IH]; intros n.
  - exists []. simpl. unfold ret. now rewrite Nat.add_0_r.
  - destruct (IH (S n)) as (es & E & Hes).
    exists ([forecast_request c; SendMessage (Msg.forecast_failed (city_name c)) None None]
              ++ es). split.
    + cbn [for_each]. unfold bind at 1.
      assert (Hstep : bind (get_forecast c) (fun forecast_data =>
                reply_forecast (city_name c) (city_name c) forecast_data)
                (always (forecast_answer items)) n =
              Run [forecast_request c; SendMessage (Msg.forecast_failed (city_name c)) None None]
                  (S n) (Ok tt)).
      { unfold bind. rewrite get_forecast_run. unfold always, forecast_answer.
        cbn [Z.eqb Pos.eqb response_json rbind]. rewrite Hd. reflexivity. }
      rewrite Hstep. cbn [events value calls]. rewrite E. cbn [events value calls].
      f_equal. cbn [List.length]. lia.
    + rewrite sent_texts_app, Hes. reflexivity.
Qed.



(** ** From a button back to its location *)

Lemma for_until_skip {A} (before rest : list A) (body : A -> M bool) net n :
  (forall x, In x before -> body x = ret false) ->
  for_until (before ++ rest) body net n = for_until rest body net n.
Proof.
  intros H. induction before as [|x before IH]; [reflexivity|].
  cbn [app for_until]. rewrite (H x (or_introl eq_refl)).
  unfold bind at 1. cbn [ret events value calls].
  rewrite IH by (intros y Hy; apply H; now right).
  now destruct (for_until rest body net n).
Qed.

Lemma weather_payload_dispatch (x : pystr) :
  x <> u "all" ->
  PyStr.eqb (u "weather_" ++ x) (u "weather_all") = false /\
  PyStr.eqb (u "weather_" ++ x) (u "forecast_all") = false /\
  PyStr.eqb (u "weather_" ++ x) (u "list_cities") = false /\
  startswith (u "weather_" ++ x) (u "weather_") = true.
Proof.
  intros Hx. split; [|split; [|split]].
  - apply eqb_neq. intros E.
    change (u "weather_all") with (u "weather_" ++ u "all") in E.
    apply app_inv_head in E. contradiction.
  - apply eqb_neq. intros E. discriminate E.
  - apply eqb_neq. intros E. discriminate E.
  - apply startswith_app.
Qed.

Lemma forecast_payload_dispatch (x : pystr) :
  x <> u "all" ->
  PyStr.eqb (u "forecast_" ++ x) (u "weather_all") = false /\
  PyStr.eqb (u "forecast_" ++ x) (u "forecast_all") = false /\
  PyStr.eqb (u "forecast_" ++ x) (u "list_cities") = false /\
  startswith (u "forecast_" ++ x) (u "weather_") = false /\
  startswith (u "forecast_" ++ x) (u "forecast_") = true.
Proof.
  intros Hx. split; [|split; [|split; [|split]]].
  - apply eqb_neq. intros E. discriminate E.
  - apply eqb_neq. intros E.
    change (u "forecast_all") with (u "forecast_" ++ u "all") in E.
    apply app_inv_head in E. contradiction.
  - apply eqb_neq. intros E. discriminate E.
  - reflexivity.
  - apply startswith_app.
Qed.

(** X20: pressing the button [get_cities_keyboard] makes for a location
    leads back to that location: when the name is not [all], does not
    contain [weather_] and no earlier location of the list bears it,
    [process_callback] sends the loading message for the name and then makes
    exactly one request, to the weather endpoint with the coordinates of the
    location.  The forecast button [get_forecast_keyboard] attaches to a
    weather reply leads in the same way to one request to the forecast
    endpoint. *)
Theorem button_round_trip (cities before after : list city) (c : city)
    (net : network) (n : nat) :
  cities = before ++ c :: after ->
  (forall b, In b before -> city_name b <> city_name c) ->
  city_name c <> u "all" ->
  (contains (city_name c) (u "weather_") = false ->
   exists es,
     events (process_callback cities (callback_data (city_button c)) net n) =
       SendMessage (Msg.loading_weather (city_name c)) None None
         :: weather_request c :: es /\
     requests es = []) /\
  (contains (city_name c) (u "forecast_") = false ->
   exists es,
     events (process_callback cities (u "forecast_" ++ city_name c) net n) =
       SendMessage (Msg.loading_forecast (city_name c)) None None
         :: forecast_request c :: es /\
     requests es = []).
Proof.
  intros -> Hb Hall. split; intros Hc.
  - destruct (weather_payload_dispatch Hall) as (E1 & E2 & E3 & E4).
    cbn [city_button callback_data]. unfold process_callback.
    rewrite E1, E2, E3, E4.
    assert (Hr : replace (u "weather_" ++ city_name c) (u "weather_") [] = city_name c)
      by (apply (@replace_prefix 119%N (u "eather_") (city_name c)); exact Hc).
    rewrite Hr.
    erewrite bind_run by reflexivity. unfold bind at 1.
    rewrite for_until_skip.
    2:{ intros b Hin. apply Hb in Hin. apply eqb_neq in Hin. now rewrite Hin. }
    cbn [for_until]. rewrite eqb_refl. unfold bind. rewrite get_weather_run.
    destruct (net n) as [|status body]; cbn [events value calls app];
      [eexists; split; reflexivity|].
    destruct (status =? 200)%Z; cbn [events value calls app];
      [|eexists; split; reflexivity].
    destruct (rbind (response_json body) _) as [wd|e]; cbn [events value calls app];
      [|eexists; split; reflexivity].
    unfold reply_weather.
    destruct wd as [data|]; [|eexists; split; reflexivity].
    destruct (Json.truthy data); [|eexists; split; reflexivity].
    unfold bind, lift. cbn [events value calls app].
    destruct (format_weather data); eexists; split; reflexivity.
  - destruct (forecast_payload_dispatch Hall) as (E1 & E2 & E3 & E4 & E5).
    unfold process_callback. rewrite E1, E2, E3, E4, E5.
    assert (Hr : replace (u "forecast_" ++ city_name c) (u "forecast_") [] = city_name c)
      by (apply (@replace_prefix 102%N (u "orecast_") (city_name c)); exact Hc).
    rewrite Hr.
    erewrite bind_run by reflexivity. unfold bind at 1.
    rewrite for_until_skip.
    2:{ intros b Hin. apply Hb in Hin. apply eqb_neq in Hin. now rewrite Hin. }
    cbn [for_until]. rewrite eqb_refl. unfold bind. rewrite get_forecast_run.
    destruct (net n) as [|status body]; cbn [events value calls app];
      [eexists; split; reflexivity|].
    destruct (status =? 200)%Z; cbn [events value calls app];
      [|eexists; split; reflexivity].
    destruct (rbind (response_json body) _) as [fd|e]; cbn [events value calls app];
      [|eexists; split; reflexivity].
    unfold reply_forecast.
    destruct fd as [[|d ds]|]; try (eexists; split; reflexivity).
    unfold bind, lift. cbn [events value calls app].
    destruct (format_forecast (city_name c) (d :: ds)); eexists; split; reflexivity.
Qed.

Lemma button_round_trip_witness :
  exists es,
    events (process_callback CITIES (u "weather_Линц-ам-Райн") (always NetworkError) 0) =
      SendMessage (Msg.loading_weather (u "Линц-ам-Райн")) None None
        :: weather_request (u "Линц-ам-Райн", 50.5667, 7.3167)%Q :: es /\
    requests es = [].
Proof.
  apply (proj1 (@button_round_trip CITIES (firstn 1 CITIES) (skipn 2 CITIES)
                  (u "Линц-ам-Райн", 50.5667, 7.3167)%Q (always NetworkError) 0%nat
                  eq_refl
                  ltac:(intros b [<- | []]; discriminate)
                  ltac:(discriminate))).
  reflexivity.
Defined.

(** ** The forecast client: a midday sample it cannot read *)

Lemma collect_item_raises (daily : list (pystr * forecast_day)) (item : json)
    (date : pystr) :
  midday_date item = Some date ->
  (exists e, day_of_item date item = Raise e) ->
  exists e, collect_item daily item = Raise e.
Proof.
  unfold midday_date, collect_item. intros Hm [e He].
  destruct (Json.get item (u "dt_txt") (JStr [])) as [dt_txt|]; [|discriminate].
  cbn [rbind]. destruct (is_midday dt_txt) as [[|]|]; try discriminate.
  cbn [rbind]. destruct (date_of dt_txt) as [d|]; [|discriminate].
  injection Hm as ->. cbn [rbind]. rewrite He. now exists e.
Qed.

Lemma collect_items_raises (items : list json) (item : json) (date : pystr) :
  In item items ->
  midday_date item = Some date ->
  (exists e, day_of_item date item = Raise e) ->
  forall daily, exists e, collect_items daily items = Raise e.
Proof.
  intros Hin Hm He. induction items as [|x items IH]; [destruct Hin|].
  intros daily. cbn [collect_items]. destruct Hin as [-> | Hin].
  - destruct (collect_item_raises daily _ Hm He) as [e ->]. now exists e.
  - destruct (collect_item daily x) as [daily1|e]; cbn [rbind]; [apply (IH Hin) | now exists e].
Qed.



(** ** How many requests an update costs *)

Lemma asks_ret {A} (a : A) : asks_at_most 0 (ret a).
Proof. intros net n. apply Nat.le_refl. Qed.

Lemma asks_lift {A} (r : result A) : asks_at_most 0 (lift r).
Proof. intros net n. apply Nat.le_refl. Qed.

Lemma asks_emit (e : effect) : is_request e = false -> asks_at_most 0 (emit e).
Proof.
  intros H net n. unfold emit, requests. cbn [events filter]. rewrite H. apply Nat.le_refl.
Qed.

Lemma asks_mono {A} (k k' : nat) (m : M A) :
  k <= k' -> asks_at_most k m -> asks_at_most k' m.
Proof. intros Hk Hm net n. specialize (Hm net n). lia. Qed.

Lemma asks_bind {A B} (k1 k2 : nat) (m : M A) (f : A -> M B) :
  asks_at_most k1 m -> (forall a, asks_at_most k2 (f a)) ->
  asks_at_most (k1 + k2) (bind m f).
Proof.
  intros Hm Hf net n. unfold bind. specialize (Hm net n).
  destruct (value (m net n)) as [a|e]; cbn [events].
  - rewrite requests_of_app, List.length_app.
    specialize (Hf a net (calls (m net n))). lia.
  - lia.
Qed.

Lemma asks_for_each {A} (xs : list A) (body : A -> M unit) :
  (forall x, asks_at_most 1 (body x)) -> asks_at_most (List.length xs) (for_each xs body).
Proof.
  intros H. induction xs as [|x xs IH]; cbn [for_each List.length].
  - apply asks_ret.
  - apply (@asks_bind _ _ 1 (List.length xs)); [apply H | intros _; exact IH].
Qed.

(** A search loop whose body either passes an element over or handles it
    with at most one request and then breaks. *)
Lemma asks_for_until {A} (xs : list A) (body : A -> M bool) :
  (forall x, body x = ret false \/
             (asks_at_most 1 (body x) /\ forall net n, value (body x net n) <> Ok false)) ->
  asks_at_most 1 (for_until xs body).
Proof.
  intros H. induction xs as [|x xs IH]; cbn [for_until].
  - apply (@asks_mono _ 0 1); [lia | apply asks_ret].
  - destruct (H x) as [E | [Hk Hv]].
    + rewrite E. intros net n. unfold bind, ret. cbn [value events calls app]. apply IH.
    + intros net n. unfold bind. specialize (Hk net n). specialize (Hv net n).
      destruct (value (body x net n)) as [[|]|e]; cbn [events].
      * rewrite requests_of_app, List.length_app. cbn. lia.
      * now contradiction Hv.
      * exact Hk.
Qed.

Lemma asks_get_exchange_rates : asks_at_most 1 get_exchange_rates.
Proof.
  intros net n. rewrite get_exchange_rates_run.
  destruct (net n) as [|status body]; cbn; [lia|].
  destruct (status =? 200)%Z; cbn; [|lia].
  destruct (rbind (response_json body) read_rates); cbn; lia.
Qed.

Lemma asks_get_weather (c : city) : asks_at_most 1 (get_weather c).
Proof.
  intros net n. rewrite get_weather_run.
  destruct (net n) as [|status body]; cbn; [lia|].
  destruct (status =? 200)%Z; cbn; lia.
Qed.

Lemma asks_get_forecast (c : city) : asks_at_most 1 (get_forecast c).
Proof.
  intros net n. rewrite get_forecast_run.
  destruct (net n) as [|status body]; cbn; [lia|].
  destruct (status =? 200)%Z; cbn; lia.
Qed.

Lemma asks_reply_weather name mk wd : asks_at_most 0 (reply_weather name mk wd).
Proof. intros net n. rewrite reply_weather_requests. apply Nat.le_refl. Qed.

Lemma asks_reply_forecast a b fd : asks_at_most 0 (reply_forecast a b fd).
Proof. intros net n. rewrite reply_forecast_requests. apply Nat.le_refl. Qed.

Lemma asks_weather_one (c : city) name mk :
  asks_at_most 1 (bind (get_weather c) (fun wd => reply_weather name mk wd)).
Proof. apply (@asks_bind _ _ 1 0); [apply asks_get_weather | intro; apply asks_reply_weather]. Qed.

Lemma asks_forecast_one (c : city) a b :
  asks_at_most 1 (bind (get_forecast c) (fun fd => reply_forecast a b fd)).
Proof. apply (@asks_bind _ _ 1 0); [apply asks_get_forecast | intro; apply asks_reply_forecast]. Qed.

(** The body of a search loop that ends in its [break]. *)
Lemma breaks_after {A} (m : M A) (g : A -> M unit) net n :
  value (bind m (fun a => bind (g a) (fun _ => ret true)) net n) <> Ok false.
Proof.
  unfold bind, ret. destruct (value (m net n)) as [a|e]; cbn [value]; [|discriminate].
  destruct (value (g a net (calls (m net n)))); cbn [value]; discriminate.
Qed.

Lemma asks_then_break {A} (m : M A) (g : A -> M unit) :
  asks_at_most 1 m -> (forall a, asks_at_most 0 (g a)) ->
  asks_at_most 1 (bind m (fun a => bind (g a) (fun _ => ret true))).
Proof.
  intros Hm Hg. apply (@asks_bind _ _ 1 0); [exact Hm | intros a].
  apply (@asks_bind _ _ 0 0); [apply Hg | intros _; apply asks_ret].
Qed.

(** Breaks a goal [asks_at_most 0 m] down along the structure of [m]. *)
Ltac asks_none :=
  repeat first
    [ apply asks_ret
    | apply asks_lift
    | apply asks_emit; reflexivity
    | apply (@asks_bind _ _ 0 0); [| intro]
    | match goal with
      | |- asks_at_most _ (match ?x with _ => _ end) => destruct x
      | |- asks_at_most _ (if ?b then _ else _) => destruct b
      end ].

(** A handler that asks the rate provider once, or not at all. *)
Ltac asks_rates :=
  repeat match goal with
         | |- asks_at_most _ (match ?x with _ => _ end) => destruct x
         | |- asks_at_most _ (if ?b then _ else _) => destruct b
         end;
  first [ apply (@asks_bind _ _ 1 0); [apply asks_get_exchange_rates | intro; asks_none]
        | apply (@asks_mono _ 0 1); [lia | asks_none] ].

Lemma asks_cmd_currency (message_text : pystr) : asks_at_most 1 (cmd_currency message_text).
Proof. unfold cmd_currency, answer. asks_rates. Qed.

Lemma asks_cmd_city (cities : list city) (message_text : pystr) :
  asks_at_most 1 (cmd_city cities message_text).
Proof.
  unfold cmd_city, answer.
  repeat match goal with
         | |- asks_at_most _ (match ?x with _ => _ end) => destruct x
         end;
  first [ apply asks_weather_one | apply (@asks_mono _ 0 1); [lia | asks_none] ].
Qed.

(** X22: an update costs at most one request, unless it is one of the four
    that are answered for every configured location, which cost at most one
    request per location.  A press of a location's button costs at most one
    request also when several configured locations bear the name. *)
Theorem request_budget (cities : list city) (upd : update) (net : network) (n : nat) :
  List.length (requests (events (dispatch cities upd net n)))
  <= if all_locations upd then List.length cities else 1.
Proof.
  revert net n.
  change (asks_at_most (if all_locations upd then List.length cities else 1)
                       (dispatch cities upd)).
  destruct upd as [| | | | t | | t | data]; cbn [all_locations dispatch].
  - apply (@asks_mono _ 0 1); [lia|]. unfold cmd_start, answer. asks_none.
  - apply (@asks_mono _ 0 1); [lia|]. unfold cmd_help, answer. asks_none.
  - unfold cmd_weather, answer.
    apply (@asks_bind _ _ 0 (List.length cities)); [asks_none | intros _].
    apply asks_for_each. intros c. apply asks_weather_one.
  - unfold cmd_forecast, answer.
    apply (@asks_bind _ _ 0 (List.length cities)); [asks_none | intros _].
    apply asks_for_each. intros c. apply asks_forecast_one.
  - apply asks_cmd_currency.
  - apply (@asks_mono _ 0 1); [lia|]. unfold cmd_near, answer. asks_none.
  - apply asks_cmd_city.
  - unfold process_callback, answer, edit_text, call_answer.
    destruct (PyStr.eqb data (u "weather_all")); cbn [orb].
    { apply (@asks_bind _ _ 0 (List.length cities)); [asks_none | intros _].
      replace (List.length cities) with (List.length cities + 0) by lia.
      apply asks_bind; [|intros _; asks_none].
      apply asks_for_each. intros c. apply asks_weather_one. }
    destruct (PyStr.eqb data (u "forecast_all")).
    { apply (@asks_bind _ _ 0 (List.length cities)); [asks_none | intros _].
      replace (List.length cities) with (List.length cities + 0) by lia.
      apply asks_bind; [|intros _; asks_none].
      apply asks_for_each. intros c. apply asks_forecast_one. }
    destruct (PyStr.eqb data (u "list_cities")).
    { apply (@asks_mono _ 0 1); [lia | asks_none]. }
    destruct (startswith data (u "weather_")).
    { apply (@asks_bind _ _ 0 1); [asks_none | intros _].
      apply (@asks_bind _ _ 1 0); [|intros _; asks_none].
      apply asks_for_until. intros c.
      destruct (PyStr.eqb (city_name c) _); [right | now left].
      split; [|intros net0 n0; apply breaks_after].
      apply asks_then_break; [apply asks_get_weather | intro; apply asks_reply_weather]. }
    destruct (startswith data (u "forecast_")).
    { apply (@asks_bind _ _ 0 1); [asks_none | intros _].
      apply (@asks_bind _ _ 1 0); [|intros _; asks_none].
      apply asks_for_until. intros c.
      destruct (PyStr.eqb (city_name c) _); [right | now left].
      split; [|intros net0 n0; apply breaks_after].
      apply asks_then_break; [apply asks_get_forecast | intro; apply asks_reply_forecast]. }
    asks_rates.
Qed.
